(** * The conditional UNet of txt2img-stable-diffusion: shapes, skip stack,
      configuration toggles and the dataset helpers.

    The network of [models/unet.py] is embedded at the level of tensor
    shapes and symbolic values: a tensor is its shape together with the
    expression that produced it, every torch primitive checks the shapes it
    is given the way torch does and raises otherwise.  Python exceptions are
    an error monad; the skip-connection list is passed explicitly. *)

From Stdlib Require Import ZArith QArith Reals List String Bool Lia Permutation.
Import ListNotations.
Local Open Scope Z_scope.

(** ** Python exceptions and the error monad *)

Inductive exn : Type :=
| ValueError (msg : string)
| ZeroDivisionError
| IndexError (msg : string)
| TypeError (msg : string)
| RuntimeError (msg : string)
| FileNotFoundError (path : string).

Inductive result (A : Type) : Type :=
| Ok (a : A)
| Raise (e : exn).
Arguments Ok {A} a.
Arguments Raise {A} e.

Definition bind {A B : Type} (r : result A) (k : A -> result B) : result B :=
  match r with
  | Ok a => k a
  | Raise e => Raise e
  end.

Notation "x <- c ;; k" := (bind c (fun x => k))
  (at level 61, c at next level, right associativity).
Notation "' pat <- c ;; k" := (bind c (fun x => match x with pat => k end))
  (at level 61, pat pattern, c at next level, right associativity).

Definition is_ok {A : Type} (r : result A) : bool :=
  match r with Ok _ => true | Raise _ => false end.

(** [a % b] and [a // b] on Python integers: floor semantics, the sign of
    the divisor, and [ZeroDivisionError] on a zero divisor. *)
Definition py_mod (a b : Z) : result Z :=
  if b =? 0 then Raise ZeroDivisionError else Ok (a mod b).

Definition py_floordiv (a b : Z) : result Z :=
  if b =? 0 then Raise ZeroDivisionError else Ok (a / b).

(** A size handed to [torch.empty] (every parameter tensor of a layer). *)
Definition check_size (n : Z) : result unit :=
  if n <? 0 then Raise (RuntimeError "negative dimension") else Ok tt.

(** ** Primitive layers of torch.nn *)

Record Conv2d : Type := mkConv2d
  { conv_in_channels : Z; conv_out_channels : Z;
    kernel_size : Z; stride : Z; padding : Z }.

Record GroupNorm : Type := mkGroupNorm { num_groups : Z; num_channels : Z }.

Record LayerNorm : Type := mkLayerNorm { normalized_shape : Z }.

Record Linear : Type := mkLinear { in_features : Z; out_features : Z }.

(** Modelled from the spec: [models/attention.py] is not part of the
    sources.  Section 4.1: a unit with a head count and an embedding width,
    self-attention when no conditioning width is configured and
    cross-attention to a conditioning sequence otherwise, four projections
    (query, key, value, output) that may carry a low-rank adapter, and an
    optional accelerated code path selected by a flag. *)
Record MultiheadSelfAttention : Type := mkMultiheadSelfAttention
  { attn_num_heads : Z;
    attn_embedding_dim : Z;
    attn_cond_dim : option Z;
    qkv_bias : bool;
    lora_enabled : bool;
    use_flash_attention : bool }.

(** ** Symbolic tensors *)

Inductive Op : Type :=
| OConv2d (m : Conv2d)
| OGroupNorm (m : GroupNorm)
| OLayerNorm (m : LayerNorm)
| OLinear (m : Linear)
| OAttention (heads dim : Z) (cond : option Z) (lora : bool)
| OSiLU
| OGELU
| OAdd
| OMul
| OCat (dim : Z)
| OChunk (index chunks : Z)
| OInterpolateNearest (scale_factor : Z)
| OView (target : list Z)
| OTranspose
| OIndex (subscript : string)
| OFreqs (half : Z)
| OCos
| OSin.

Inductive Term : Type :=
| Sym (name : string)
| Const (op : Op)
| App1 (op : Op) (a : Term)
| App2 (op : Op) (a b : Term).

Record Tensor : Type := mkTensor { shape : list Z; term : Term }.

Definition numel (s : list Z) : Z := fold_right Z.mul 1 s.

(** [s[-1]] on a shape tuple. *)
Definition shape_last (s : list Z) : result Z :=
  match rev s with
  | d :: _ => Ok d
  | [] => Raise (IndexError "tuple index out of range")
  end.

Definition set_last (s : list Z) (d : Z) : list Z :=
  match rev s with
  | _ :: r => rev (d :: r)
  | [] => []
  end.

Fixpoint list_eqb (a b : list Z) : bool :=
  match a, b with
  | [], [] => true
  | x :: a', y :: b' => (x =? y) && list_eqb a' b'
  | _, _ => false
  end.

(** Broadcasting of two shapes, aligned at the trailing dimension. *)
Fixpoint broadcast_rev (a b : list Z) : option (list Z) :=
  match a, b with
  | [], _ => Some b
  | _, [] => Some a
  | x :: a', y :: b' =>
      match broadcast_rev a' b' with
      | Some r =>
          if x =? y then Some (x :: r)
          else if x =? 1 then Some (y :: r)
          else if y =? 1 then Some (x :: r)
          else None
      | None => None
      end
  end.

Definition broadcast_shapes (a b : list Z) : option (list Z) :=
  option_map (@rev Z) (broadcast_rev (rev a) (rev b)).

(** [x + y], [x * y] out of place. *)
Definition binop (o : Op) (x y : Tensor) : result Tensor :=
  match broadcast_shapes (shape x) (shape y) with
  | Some s => Ok (mkTensor s (App2 o (term x) (term y)))
  | None => Raise (RuntimeError "shapes cannot be broadcast")
  end.

(** [x += y]: the broadcast result must have the shape [x] already has. *)
Definition iadd (x y : Tensor) : result Tensor :=
  match broadcast_shapes (shape x) (shape y) with
  | Some s =>
      if list_eqb s (shape x)
      then Ok (mkTensor (shape x) (App2 OAdd (term x) (term y)))
      else Raise (RuntimeError "output shape does not match broadcast shape")
  | None => Raise (RuntimeError "shapes cannot be broadcast")
  end.

Definition pointwise (o : Op) (x : Tensor) : Tensor :=
  mkTensor (shape x) (App1 o (term x)).

Definition silu : Tensor -> Tensor := pointwise OSiLU.
Definition gelu : Tensor -> Tensor := pointwise OGELU.

(** [nn.Conv2d(in_channels, out_channels, kernel_size, stride, padding)]. *)
Definition Conv2d_init (cin cout k s p : Z) : result Conv2d :=
  _ <- check_size cin ;;
  _ <- check_size cout ;;
  Ok (mkConv2d cin cout k s p).

(** [nn.Conv2d.forward] on a batched 4-D input. *)
Definition Conv2d_forward (m : Conv2d) (x : Tensor) : result Tensor :=
  match shape x with
  | [b; c; h; w] =>
      if negb (c =? conv_in_channels m)
      then Raise (RuntimeError "conv2d: channels do not match the weight")
      else if (h + 2 * padding m <? kernel_size m)
              || (w + 2 * padding m <? kernel_size m)
      then Raise (RuntimeError "conv2d: kernel larger than padded input")
      else Ok (mkTensor
                 [b; conv_out_channels m;
                  (h + 2 * padding m - kernel_size m) / stride m + 1;
                  (w + 2 * padding m - kernel_size m) / stride m + 1]
                 (App1 (OConv2d m) (term x)))
  | _ => Raise (RuntimeError "conv2d: expected a 4-D input")
  end.

(** [nn.GroupNorm(num_groups, num_channels)]. *)
Definition GroupNorm_init (g c : Z) : result GroupNorm :=
  r <- py_mod c g ;;
  if negb (r =? 0)
  then Raise (ValueError "num_channels must be divisible by num_groups")
  else _ <- check_size c ;; Ok (mkGroupNorm g c).

Definition GroupNorm_forward (m : GroupNorm) (x : Tensor) : result Tensor :=
  match shape x with
  | _ :: c :: _ =>
      if c =? num_channels m
      then Ok (mkTensor (shape x) (App1 (OGroupNorm m) (term x)))
      else Raise (RuntimeError "group_norm: wrong number of channels")
  | _ => Raise (RuntimeError "group_norm: expected at least 2 dimensions")
  end.

Definition LayerNorm_init (d : Z) : result LayerNorm :=
  _ <- check_size d ;; Ok (mkLayerNorm d).

Definition LayerNorm_forward (m : LayerNorm) (x : Tensor) : result Tensor :=
  match shape_last (shape x) with
  | Ok d =>
      if d =? normalized_shape m
      then Ok (mkTensor (shape x) (App1 (OLayerNorm m) (term x)))
      else Raise (RuntimeError "layer_norm: wrong normalized shape")
  | Raise _ => Raise (RuntimeError "layer_norm: wrong normalized shape")
  end.

Definition Linear_init (i o : Z) : result Linear :=
  _ <- check_size i ;;
  _ <- check_size o ;;
  Ok (mkLinear i o).

Definition Linear_forward (m : Linear) (x : Tensor) : result Tensor :=
  match shape_last (shape x) with
  | Ok d =>
      if d =? in_features m
      then Ok (mkTensor (set_last (shape x) (out_features m))
                 (App1 (OLinear m) (term x)))
      else Raise (RuntimeError "linear: shapes cannot be multiplied")
  | Raise _ => Raise (RuntimeError "linear: shapes cannot be multiplied")
  end.

(** [torch.cat([x, y], dim=1)]. *)
Definition cat1 (x y : Tensor) : result Tensor :=
  match shape x, shape y with
  | b :: c :: r, b' :: c' :: r' =>
      if (b =? b') && list_eqb r r'
      then Ok (mkTensor (b :: (c + c') :: r) (App2 (OCat 1) (term x) (term y)))
      else Raise (RuntimeError "cat: sizes must match except in dimension 1")
  | _, _ => Raise (IndexError "cat: dimension out of range")
  end.

(** [torch.cat([x, y], dim=-1)]. *)
Definition cat_last (x y : Tensor) : result Tensor :=
  match rev (shape x), rev (shape y) with
  | d :: r, d' :: r' =>
      if list_eqb r r'
      then Ok (mkTensor (rev ((d + d') :: r)) (App2 (OCat (-1)) (term x) (term y)))
      else Raise (RuntimeError "cat: sizes must match except in dimension -1")
  | _, _ => Raise (IndexError "cat: dimension out of range")
  end.

(** [x.chunk(2, dim=-1)] unpacked into two names. *)
Definition chunk2_last (x : Tensor) : result (Tensor * Tensor) :=
  d <- shape_last (shape x) ;;
  let size := (d + 1) / 2 in
  if d - size <=? 0
  then Raise (ValueError "not enough values to unpack (expected 2)")
  else Ok (mkTensor (set_last (shape x) size) (App1 (OChunk 0 2) (term x)),
           mkTensor (set_last (shape x) (d - size)) (App1 (OChunk 1 2) (term x))).

(** [F.interpolate(x, scale_factor=2, mode='nearest')]. *)
Definition interpolate_nearest2 (x : Tensor) : result Tensor :=
  match shape x with
  | [b; c; h; w] =>
      if (h <=? 0) || (w <=? 0)
      then Raise (RuntimeError "interpolate: sizes should be greater than 0")
      else Ok (mkTensor [b; c; h * 2; w * 2]
                 (App1 (OInterpolateNearest 2) (term x)))
  | _ => Raise (ValueError "interpolate: expected a 4-D input")
  end.

(** [x.view(b, c, -1)]: the last size is inferred. *)
Definition view_infer (x : Tensor) (b c : Z) : result Tensor :=
  if (b <? 0) || (c <? 0) then Raise (RuntimeError "view: invalid shape")
  else if b * c =? 0
  then Raise (RuntimeError "view: the unspecified dimension is ambiguous")
  else if negb (numel (shape x) mod (b * c) =? 0)
  then Raise (RuntimeError "view: shape is invalid for input size")
  else Ok (mkTensor [b; c; numel (shape x) / (b * c)]
             (App1 (OView [b; c; -1]) (term x))).

(** [x.view(b, c, h, w)]. *)
Definition view4 (x : Tensor) (b c h w : Z) : result Tensor :=
  if numel (shape x) =? numel [b; c; h; w]
  then Ok (mkTensor [b; c; h; w] (App1 (OView [b; c; h; w]) (term x)))
  else Raise (RuntimeError "view: shape is invalid for input size").

(** [x.transpose(-1, -2)]. *)
Definition transpose_last2 (x : Tensor) : result Tensor :=
  match rev (shape x) with
  | d :: e :: r => Ok (mkTensor (rev (e :: d :: r)) (App1 OTranspose (term x)))
  | _ => Raise (IndexError "transpose: dimension out of range")
  end.

(** [b, c, h, w = x.shape]. *)
Definition unpack4 (s : list Z) : result (Z * Z * Z * Z) :=
  match s with
  | [b; c; h; w] => Ok (b, c, h, w)
  | _ => Raise (ValueError "wrong number of values to unpack (expected 4)")
  end.

(** [time[:, :, None, None]]. *)
Definition index_none2 (x : Tensor) : result Tensor :=
  match shape x with
  | a :: b :: r => Ok (mkTensor (a :: b :: 1 :: 1 :: r) (App1 (OIndex "[:, :, None, None]") (term x)))
  | _ => Raise (IndexError "too many indices for tensor")
  end.

(** [timestep[:, None]] and [freqs[None, :]]. *)
Definition index_col (x : Tensor) : result Tensor :=
  match shape x with
  | a :: r => Ok (mkTensor (a :: 1 :: r) (App1 (OIndex "[:, None]") (term x)))
  | [] => Raise (IndexError "too many indices for tensor")
  end.

Definition index_row (x : Tensor) : result Tensor :=
  match shape x with
  | a :: r => Ok (mkTensor (1 :: a :: r) (App1 (OIndex "[None, :]") (term x)))
  | [] => Raise (IndexError "too many indices for tensor")
  end.

(** [checkpoint.checkpoint(f, *args, use_reentrant=False)]: in the forward
    pass the function is called on the arguments; only what is kept for the
    backward pass differs. *)
Definition checkpoint {A B : Type} (f : A -> B) (a : A) : B := f a.

(** ** models/activation_fn.py *)

Record GeGELU : Type := mkGeGELU { proj : Linear }.

Definition GeGELU_init (in_channels out_channels : Z) : result GeGELU :=
  p <- Linear_init in_channels (out_channels * 2) ;;
  Ok (mkGeGELU p).

Definition GeGELU_forward (self : GeGELU) (x : Tensor) : result Tensor :=
  y <- Linear_forward (proj self) x ;;
  '(x, gate) <- chunk2_last y ;;
  binop OMul x (gelu gate).

(** ** The attention unit *)

(** Modelled from the spec: the constructor of the attention unit of
    [models/attention.py], which is not part of the sources.  Section 4.1:
    the embedding width must be divisible by the head count, "else fails with
    a configuration error".  The adapters and the accelerated path start
    switched off. *)
Definition MultiheadSelfAttention_init
    (num_heads embedding_dim : Z) (cond_dim : option Z) (bias : bool)
  : result MultiheadSelfAttention :=
  r <- py_mod embedding_dim num_heads ;;
  if negb (r =? 0)
  then Raise (ValueError "Number of heads must be divisible by Embedding Dimension")
  else
    _ <- check_size embedding_dim ;;
    _ <- check_size (match cond_dim with Some d => d | None => embedding_dim end) ;;
    Ok (mkMultiheadSelfAttention num_heads embedding_dim cond_dim bias false false).

(** Modelled from the spec: the two code paths of the attention unit.
    Section 4.1 requires the accelerated path to compute what the reference
    path computes; both are the same symbolic value here. *)
Definition attention_reference (self : MultiheadSelfAttention) (q kv : Tensor) : Term :=
  App2 (OAttention (attn_num_heads self) (attn_embedding_dim self)
          (attn_cond_dim self) (lora_enabled self)) (term q) (term kv).

Definition attention_accelerated (self : MultiheadSelfAttention) (q kv : Tensor) : Term :=
  attention_reference self q kv.

(** Modelled from the spec: the forward pass of the attention unit.
    Section 4.1: the input is [batch, seq, dim]; queries come from it, keys
    and values from the conditioning sequence when one is given and from the
    input otherwise; the result has the shape of the input. *)
Definition MultiheadSelfAttention_forward
    (self : MultiheadSelfAttention) (x : Tensor) (cond : option Tensor)
  : result Tensor :=
  let kv := match cond with Some c => c | None => x end in
  let kv_dim := match attn_cond_dim self with
                | Some d => d
                | None => attn_embedding_dim self
                end in
  match shape x, shape kv with
  | [b; s; d], [b'; s'; d'] =>
      if (d =? attn_embedding_dim self) && (d' =? kv_dim) && (b =? b')
      then Ok (mkTensor [b; s; d]
                 (if use_flash_attention self
                  then attention_accelerated self x kv
                  else attention_reference self x kv))
      else Raise (RuntimeError "attention: shapes cannot be multiplied")
  | _, _ => Raise (ValueError "attention: expected [batch, seq, dim]")
  end.

(** [module.proj_q.parametrizations.weight[0].enabled = True] and the same
    for the key, value and output projections of one attention unit. *)
Definition enable_lora (m : MultiheadSelfAttention) : MultiheadSelfAttention :=
  mkMultiheadSelfAttention (attn_num_heads m) (attn_embedding_dim m)
    (attn_cond_dim m) (qkv_bias m) true (use_flash_attention m).

Definition set_use_flash_attention (v : bool) (m : MultiheadSelfAttention)
  : MultiheadSelfAttention :=
  mkMultiheadSelfAttention (attn_num_heads m) (attn_embedding_dim m)
    (attn_cond_dim m) (qkv_bias m) (lora_enabled m) v.

(** ** models/unet.py *)

(** *** UNet_AttentionBlock *)

Record UNet_AttentionBlock : Type := mkUNet_AttentionBlock
  { head_dim : Z;
    layernorm_1 : LayerNorm;
    attn1 : MultiheadSelfAttention;
    layernorm_2 : LayerNorm;
    attn2 : MultiheadSelfAttention;
    layernorm_3 : LayerNorm;
    ffn_gate : GeGELU;
    ffn_out : Linear;
    gradient_checkpointing : bool }.

Definition UNet_AttentionBlock_init
    (num_heads embedding_dim cond_dim : Z) (use_lora : bool)
  : result UNet_AttentionBlock :=
  r <- py_mod embedding_dim num_heads ;;
  if negb (r =? 0)
  then Raise (ValueError "Number of heads must be divisible by Embedding Dimension")
  else
    hd <- py_floordiv embedding_dim num_heads ;;
    ln1 <- LayerNorm_init embedding_dim ;;
    a1 <- MultiheadSelfAttention_init num_heads embedding_dim None false ;;
    ln2 <- LayerNorm_init embedding_dim ;;
    a2 <- MultiheadSelfAttention_init num_heads embedding_dim (Some cond_dim) false ;;
    ln3 <- LayerNorm_init embedding_dim ;;
    g <- GeGELU_init embedding_dim (embedding_dim * 4) ;;
    l <- Linear_init (embedding_dim * 4) embedding_dim ;;
    let a1 := if use_lora then enable_lora a1 else a1 in
    let a2 := if use_lora then enable_lora a2 else a2 in
    Ok (mkUNet_AttentionBlock hd ln1 a1 ln2 a2 ln3 g l false).

(** [self.ffn]: [nn.Sequential(GeGELU(...), nn.Linear(...))]. *)
Definition ffn_forward (self : UNet_AttentionBlock) (x : Tensor) : result Tensor :=
  x <- GeGELU_forward (ffn_gate self) x ;;
  Linear_forward (ffn_out self) x.

Definition UNet_AttentionBlock_forward
    (self : UNet_AttentionBlock) (x : Tensor) (cond : option Tensor)
  : result Tensor :=
  let residual_x := x in
  x <- LayerNorm_forward (layernorm_1 self) x ;;
  x <- (if gradient_checkpointing self
        then checkpoint (fun x => MultiheadSelfAttention_forward (attn1 self) x None) x
        else MultiheadSelfAttention_forward (attn1 self) x None) ;;
  x <- iadd x residual_x ;;
  let residual_x := x in
  x <- LayerNorm_forward (layernorm_2 self) x ;;
  x <- (if gradient_checkpointing self
        then checkpoint (fun '(x, cond) => MultiheadSelfAttention_forward (attn2 self) x cond) (x, cond)
        else MultiheadSelfAttention_forward (attn2 self) x cond) ;;
  x <- iadd x residual_x ;;
  let residual_x := x in
  x <- LayerNorm_forward (layernorm_3 self) x ;;
  x <- ffn_forward self x ;;
  x <- iadd x residual_x ;;
  Ok x.

(** *** UNet_TransformerEncoder *)

Record UNet_TransformerEncoder : Type := mkUNet_TransformerEncoder
  { te_groupnorm : GroupNorm;
    conv_input : Conv2d;
    transformer_block : UNet_AttentionBlock;
    conv_output : Conv2d }.

Definition UNet_TransformerEncoder_init
    (num_heads embedding_dim cond_dim : Z) (use_lora : bool)
  : result UNet_TransformerEncoder :=
  let channels := embedding_dim * num_heads in
  gn <- GroupNorm_init 32 channels ;;
  ci <- Conv2d_init channels channels 1 1 0 ;;
  tb <- UNet_AttentionBlock_init num_heads channels cond_dim use_lora ;;
  co <- Conv2d_init channels channels 1 1 0 ;;
  Ok (mkUNet_TransformerEncoder gn ci tb co).

Definition UNet_TransformerEncoder_forward
    (self : UNet_TransformerEncoder) (x : Tensor) (cond : option Tensor)
  : result Tensor :=
  '(b, c, h, w) <- unpack4 (shape x) ;;
  let x_in := x in
  x <- GroupNorm_forward (te_groupnorm self) x ;;
  x <- Conv2d_forward (conv_input self) x ;;
  x <- view_infer x b c ;;
  x <- transpose_last2 x ;;
  x <- UNet_AttentionBlock_forward (transformer_block self) x cond ;;
  x <- transpose_last2 x ;;
  x <- view4 x b c h w ;;
  x <- Conv2d_forward (conv_output self) x ;;
  x <- iadd x x_in ;;
  Ok x.

(** *** UNet_ResBlock *)

(** [proj_input] is [nn.Identity()] or a 1x1 convolution. *)
Inductive ProjInput : Type :=
| ProjIdentity
| ProjConv (c : Conv2d).

Record UNet_ResBlock : Type := mkUNet_ResBlock
  { groupnorm_1 : GroupNorm;
    conv_1 : Conv2d;
    groupnorm_2 : GroupNorm;
    conv_2 : Conv2d;
    t_embed : Linear;
    proj_input : ProjInput }.

Definition UNet_ResBlock_init (in_channels out_channels t_embed_dim : Z)
  : result UNet_ResBlock :=
  gn1 <- GroupNorm_init 32 in_channels ;;
  c1 <- Conv2d_init in_channels out_channels 3 1 1 ;;
  gn2 <- GroupNorm_init 32 out_channels ;;
  c2 <- Conv2d_init out_channels out_channels 3 1 1 ;;
  te <- Linear_init t_embed_dim out_channels ;;
  pj <- (if in_channels =? out_channels
         then Ok ProjIdentity
         else c <- Conv2d_init in_channels out_channels 1 1 0 ;; Ok (ProjConv c)) ;;
  Ok (mkUNet_ResBlock gn1 c1 gn2 c2 te pj).

Definition ProjInput_forward (p : ProjInput) (x : Tensor) : result Tensor :=
  match p with
  | ProjIdentity => Ok x
  | ProjConv c => Conv2d_forward c x
  end.

Definition UNet_ResBlock_forward (self : UNet_ResBlock) (x t_emb : Tensor)
  : result Tensor :=
  h <- GroupNorm_forward (groupnorm_1 self) x ;;
  let h := silu h in
  h <- Conv2d_forward (conv_1 self) h ;;
  let time := silu t_emb in
  time <- Linear_forward (t_embed self) time ;;
  time4 <- index_none2 time ;;
  h <- iadd h time4 ;;
  h <- GroupNorm_forward (groupnorm_2 self) h ;;
  let h := silu h in
  h <- Conv2d_forward (conv_2 self) h ;;
  x <- ProjInput_forward (proj_input self) x ;;
  h <- iadd h x ;;
  Ok h.

(** *** TimeEmbedding *)

Record TimeEmbedding : Type := mkTimeEmbedding
  { t_embed_dim : Z;
    te_linear_1 : Linear;
    te_linear_2 : Linear }.

Definition TimeEmbedding_init (t_embed_dim : Z) : result TimeEmbedding :=
  l1 <- Linear_init t_embed_dim (t_embed_dim * 4) ;;
  l2 <- Linear_init (t_embed_dim * 4) (t_embed_dim * 4) ;;
  Ok (mkTimeEmbedding t_embed_dim l1 l2).

Definition _get_time_embedding (self : TimeEmbedding) (timestep : Tensor)
  : result Tensor :=
  let half := t_embed_dim self / 2 in
  let freqs := mkTensor [Z.max 0 half] (Const (OFreqs half)) in
  tcol <- index_col timestep ;;
  frow <- index_row freqs ;;
  x <- binop OMul tcol frow ;;
  cat_last (pointwise OCos x) (pointwise OSin x).

Definition TimeEmbedding_forward (self : TimeEmbedding) (timestep : Tensor)
  : result Tensor :=
  t_emb <- _get_time_embedding self timestep ;;
  y <- Linear_forward (te_linear_1 self) t_emb ;;
  Linear_forward (te_linear_2 self) (silu y).

(** *** TimeStepSequential *)

(** The layers this code puts into a [TimeStepSequential] are residual
    blocks and transformer encoders; [forward] dispatches on the class. *)
Inductive Layer : Type :=
| ResLayer (r : UNet_ResBlock)
| TransformerLayer (t : UNet_TransformerEncoder).

#[warnings="-notation-for-abbreviation"]
Notation TimeStepSequential := (list Layer).

Definition Layer_forward (layer : Layer) (x t_emb : Tensor) (cond : option Tensor)
  : result Tensor :=
  match layer with
  | ResLayer r => UNet_ResBlock_forward r x t_emb
  | TransformerLayer t => UNet_TransformerEncoder_forward t x cond
  end.

Fixpoint TimeStepSequential_forward
    (self : TimeStepSequential) (x t_emb : Tensor) (cond : option Tensor)
  : result Tensor :=
  match self with
  | [] => Ok x
  | layer :: rest =>
      x <- Layer_forward layer x t_emb cond ;;
      TimeStepSequential_forward rest x t_emb cond
  end.

(** *** UNet_Downsample and UNet_Upsample *)

Record UNet_Downsample : Type := mkUNet_Downsample { down_conv : Conv2d }.

Definition UNet_Downsample_init (in_channels : Z) : result UNet_Downsample :=
  c <- Conv2d_init in_channels in_channels 3 2 1 ;;
  Ok (mkUNet_Downsample c).

Definition UNet_Downsample_forward (self : UNet_Downsample) (x : Tensor)
  : result Tensor :=
  Conv2d_forward (down_conv self) x.

Record UNet_Upsample : Type := mkUNet_Upsample { up_conv : Conv2d }.

Definition UNet_Upsample_init (in_channels : Z) : result UNet_Upsample :=
  c <- Conv2d_init in_channels in_channels 3 1 1 ;;
  Ok (mkUNet_Upsample c).

Definition UNet_Upsample_forward (self : UNet_Upsample) (x : Tensor) (upscale : bool)
  : result Tensor :=
  x <- (if upscale then interpolate_nearest2 x else Ok x) ;;
  Conv2d_forward (up_conv self) x.

(** ** Python lists used as a stack: [l[-1]], [l.append(x)], [l.pop()] *)

Definition py_last {A : Type} (l : list A) : result A :=
  match rev l with
  | x :: _ => Ok x
  | [] => Raise (IndexError "list index out of range")
  end.

Definition py_append {A : Type} (l : list A) (x : A) : list A := l ++ [x].

Definition py_pop {A : Type} (l : list A) : result (A * list A) :=
  match rev l with
  | x :: r => Ok (x, rev r)
  | [] => Raise (IndexError "pop from empty list")
  end.

Definition len {A : Type} (l : list A) : Z := Z.of_nat (List.length l).

(** [range(n)] *)
Definition range (n : Z) : list nat := seq 0 (Z.to_nat n).

Fixpoint mapM {A B : Type} (f : A -> result B) (l : list A) : result (list B) :=
  match l with
  | [] => Ok []
  | a :: l' => b <- f a ;; bs <- mapM f l' ;; Ok (b :: bs)
  end.

(** *** UNet_Encoder *)

Inductive DownsampleModule : Type :=
| DownConv (d : UNet_Downsample)
| DownIdentity.

Record DownStage : Type := mkDownStage
  { down_block : list TimeStepSequential;
    downsample : DownsampleModule }.

Record UNet_Encoder : Type := mkUNet_Encoder
  { conv_in : Conv2d;
    down : list DownStage }.

Definition UNet_Encoder_stage
    (num_heads t_embed_dim cond_dim : Z) (ch_multiplier : list Z)
    (use_lora : bool) (i : nat) : result DownStage :=
  let ch := 320 in
  let in_ch_multiplier := 1 :: ch_multiplier in
  let in_channels := ch * nth i in_ch_multiplier 0 in
  let out_channels := ch * nth i ch_multiplier 0 in
  if negb (Z.of_nat i =? len ch_multiplier - 1)
  then
    r1 <- UNet_ResBlock_init in_channels out_channels t_embed_dim ;;
    e1 <- py_floordiv out_channels num_heads ;;
    t1 <- UNet_TransformerEncoder_init num_heads e1 cond_dim use_lora ;;
    r2 <- UNet_ResBlock_init out_channels out_channels t_embed_dim ;;
    e2 <- py_floordiv out_channels num_heads ;;
    t2 <- UNet_TransformerEncoder_init num_heads e2 cond_dim use_lora ;;
    d <- UNet_Downsample_init out_channels ;;
    Ok (mkDownStage
          [[ResLayer r1; TransformerLayer t1]; [ResLayer r2; TransformerLayer t2]]
          (DownConv d))
  else
    r1 <- UNet_ResBlock_init in_channels out_channels t_embed_dim ;;
    r2 <- UNet_ResBlock_init out_channels out_channels t_embed_dim ;;
    Ok (mkDownStage [[ResLayer r1]; [ResLayer r2]] DownIdentity).

Definition UNet_Encoder_init
    (in_channels num_heads t_embed_dim cond_dim : Z) (ch_multiplier : list Z)
    (use_lora : bool) : result UNet_Encoder :=
  let ch := 320 in
  ci <- Conv2d_init in_channels ch 3 1 1 ;;
  stages <- mapM (UNet_Encoder_stage num_heads t_embed_dim cond_dim ch_multiplier use_lora)
              (range (len ch_multiplier)) ;;
  Ok (mkUNet_Encoder ci stages).

Definition DownsampleModule_forward (m : DownsampleModule) (x : Tensor)
  : result Tensor :=
  match m with
  | DownConv d => UNet_Downsample_forward d x
  | DownIdentity => Ok x
  end.

(** [isinstance(down.downsample, nn.Identity)] *)
Definition is_identity_down (m : DownsampleModule) : bool :=
  match m with DownIdentity => true | DownConv _ => false end.

(** The loop [for layer in down.block] of the encoder. *)
Fixpoint encoder_block_loop
    (block : list TimeStepSequential) (x t_emb : Tensor) (cond : option Tensor)
    (skip_connections : list Tensor) : result (Tensor * list Tensor) :=
  match block with
  | [] => Ok (x, skip_connections)
  | layer :: rest =>
      x <- TimeStepSequential_forward layer x t_emb cond ;;
      let skip_connections := py_append skip_connections x in
      encoder_block_loop rest x t_emb cond skip_connections
  end.

(** The loop [for down in self.down]. *)
Fixpoint encoder_down_loop
    (stages : list DownStage) (x t_emb : Tensor) (cond : option Tensor)
    (skip_connections : list Tensor) : result (Tensor * list Tensor) :=
  match stages with
  | [] => Ok (x, skip_connections)
  | d :: rest =>
      '(x, skip_connections) <-
         encoder_block_loop (down_block d) x t_emb cond skip_connections ;;
      x <- DownsampleModule_forward (downsample d) x ;;
      let skip_connections :=
        if negb (is_identity_down (downsample d))
        then py_append skip_connections x
        else skip_connections in
      encoder_down_loop rest x t_emb cond skip_connections
  end.

Definition UNet_Encoder_forward
    (self : UNet_Encoder) (x t_emb : Tensor) (cond : option Tensor)
  : result (Tensor * list Tensor) :=
  x <- Conv2d_forward (conv_in self) x ;;
  let skip_connections := [x] in
  encoder_down_loop (down self) x t_emb cond skip_connections.

(** *** UNet_Decoder *)

Inductive UpsampleModule : Type :=
| UpConv (u : UNet_Upsample)
| UpIdentity.

Record UpStage : Type := mkUpStage
  { up_block : list TimeStepSequential;
    upsample : UpsampleModule }.

Record UNet_Decoder : Type := mkUNet_Decoder { up : list UpStage }.

Definition UNet_Decoder_stage
    (num_heads t_embed_dim cond_dim : Z) (ch_multiplier : list Z)
    (use_lora : bool) (i : nat) : result UpStage :=
  let ch := 320 in
  let decoder_channels := ch_multiplier ++ [4] in
  let in_ch := nth (i + 1) decoder_channels 0 * ch in
  let out_ch := nth i decoder_channels 0 * ch in
  let mid_ch := if 0 <? Z.of_nat i
                then nth (i - 1) decoder_channels 0 * ch
                else ch in
  block <-
    (if Z.of_nat i =? len ch_multiplier - 1
     then
       r1 <- UNet_ResBlock_init (in_ch + out_ch) out_ch t_embed_dim ;;
       r2 <- UNet_ResBlock_init (out_ch + out_ch) out_ch t_embed_dim ;;
       r3 <- UNet_ResBlock_init (out_ch + mid_ch) out_ch t_embed_dim ;;
       Ok [[ResLayer r1]; [ResLayer r2]; [ResLayer r3]]
     else
       r1 <- UNet_ResBlock_init (in_ch + out_ch) out_ch t_embed_dim ;;
       e1 <- py_floordiv out_ch num_heads ;;
       t1 <- UNet_TransformerEncoder_init num_heads e1 cond_dim use_lora ;;
       r2 <- UNet_ResBlock_init (out_ch + out_ch) out_ch t_embed_dim ;;
       e2 <- py_floordiv out_ch num_heads ;;
       t2 <- UNet_TransformerEncoder_init num_heads e2 cond_dim use_lora ;;
       r3 <- UNet_ResBlock_init (out_ch + mid_ch) out_ch t_embed_dim ;;
       e3 <- py_floordiv out_ch num_heads ;;
       t3 <- UNet_TransformerEncoder_init num_heads e3 cond_dim use_lora ;;
       Ok [[ResLayer r1; TransformerLayer t1];
           [ResLayer r2; TransformerLayer t2];
           [ResLayer r3; TransformerLayer t3]]) ;;
  ups <- (if negb (Z.of_nat i =? 0)
          then u <- UNet_Upsample_init out_ch ;; Ok (UpConv u)
          else Ok UpIdentity) ;;
  Ok (mkUpStage block ups).

Definition UNet_Decoder_init
    (num_heads t_embed_dim cond_dim : Z) (ch_multiplier : list Z)
    (use_lora : bool) : result UNet_Decoder :=
  stages <- mapM (UNet_Decoder_stage num_heads t_embed_dim cond_dim ch_multiplier use_lora)
              (rev (range (len ch_multiplier))) ;;
  Ok (mkUNet_Decoder stages).

(** [up.upsample(x)] and [up.upsample(x, upscale=False)]: the keyword is
    [Some false] when it is passed.  [nn.Identity.forward] takes the input
    only. *)
Definition UpsampleModule_call (m : UpsampleModule) (x : Tensor) (upscale : option bool)
  : result Tensor :=
  match m, upscale with
  | UpConv u, Some b => UNet_Upsample_forward u x b
  | UpConv u, None => UNet_Upsample_forward u x true
  | UpIdentity, None => Ok x
  | UpIdentity, Some _ =>
      Raise (TypeError "forward() got an unexpected keyword argument 'upscale'")
  end.

(** The loop [for layer in up.block] of the decoder. *)
Fixpoint decoder_block_loop
    (block : list TimeStepSequential) (x : Tensor) (skip_connections : list Tensor)
    (t_emb : Tensor) (cond : option Tensor) : result (Tensor * list Tensor) :=
  match block with
  | [] => Ok (x, skip_connections)
  | layer :: rest =>
      '(tmp, skip_connections) <- py_pop skip_connections ;;
      x <- cat1 x tmp ;;
      x <- TimeStepSequential_forward layer x t_emb cond ;;
      decoder_block_loop rest x skip_connections t_emb cond
  end.

(** [skip_connections and skip_connections[-1].shape[-1] == prev_hw] *)
Definition next_skip_matches (skip_connections : list Tensor) (prev_hw : Z)
  : result bool :=
  match skip_connections with
  | [] => Ok false
  | _ :: _ =>
      top <- py_last skip_connections ;;
      hw <- shape_last (shape top) ;;
      Ok (hw =? prev_hw)
  end.

(** One iteration of [for up in self.up]. *)
Definition decoder_stage
    (u : UpStage) (x : Tensor) (skip_connections : list Tensor)
    (t_emb : Tensor) (cond : option Tensor) : result (Tensor * list Tensor) :=
  top <- py_last skip_connections ;;
  prev_hw <- shape_last (shape top) ;;
  '(x, skip_connections) <-
     decoder_block_loop (up_block u) x skip_connections t_emb cond ;;
  same <- next_skip_matches skip_connections prev_hw ;;
  x <- (if same
        then UpsampleModule_call (upsample u) x (Some false)
        else UpsampleModule_call (upsample u) x None) ;;
  Ok (x, skip_connections).

Fixpoint decoder_up_loop
    (stages : list UpStage) (x : Tensor) (skip_connections : list Tensor)
    (t_emb : Tensor) (cond : option Tensor) : result (Tensor * list Tensor) :=
  match stages with
  | [] => Ok (x, skip_connections)
  | u :: rest =>
      '(x, skip_connections) <- decoder_stage u x skip_connections t_emb cond ;;
      decoder_up_loop rest x skip_connections t_emb cond
  end.

(** The list is the caller's object: what is left of it after the call is
    returned next to the activation. *)
Definition UNet_Decoder_forward
    (self : UNet_Decoder) (x : Tensor) (skip_connections : list Tensor)
    (t_emb : Tensor) (cond : option Tensor) : result (Tensor * list Tensor) :=
  decoder_up_loop (up self) x skip_connections t_emb cond.

(** *** UNet *)

Record UNet : Type := mkUNet
  { time_embedding : TimeEmbedding;
    encoder : UNet_Encoder;
    bottleneck : TimeStepSequential;
    decoder : UNet_Decoder;
    output_norm : GroupNorm;
    output_conv : Conv2d }.

Definition default_ch_multiplier : list Z := [1; 2; 4; 4].

Definition UNet_init
    (in_channels out_channels num_heads t_embed_dim cond_dim : Z) (use_lora : bool)
  : result UNet :=
  te <- TimeEmbedding_init t_embed_dim ;;
  enc <- UNet_Encoder_init in_channels num_heads (t_embed_dim * 4) cond_dim
           default_ch_multiplier use_lora ;;
  b1 <- UNet_ResBlock_init 1280 1280 (t_embed_dim * 4) ;;
  b2 <- UNet_TransformerEncoder_init 8 160 cond_dim use_lora ;;
  b3 <- UNet_ResBlock_init 1280 1280 (t_embed_dim * 4) ;;
  dec <- UNet_Decoder_init num_heads (t_embed_dim * 4) cond_dim
           default_ch_multiplier use_lora ;;
  gn <- GroupNorm_init 32 320 ;;
  co <- Conv2d_init 320 out_channels 3 1 1 ;;
  Ok (mkUNet te enc [ResLayer b1; TransformerLayer b2; ResLayer b3] dec gn co).

(** [self.output]: [nn.Sequential(GroupNorm, SiLU, Conv2d)]. *)
Definition output_forward (self : UNet) (x : Tensor) : result Tensor :=
  x <- GroupNorm_forward (output_norm self) x ;;
  Conv2d_forward (output_conv self) (silu x).

Definition UNet_forward (self : UNet) (x timestep : Tensor) (cond : Tensor)
  : result Tensor :=
  t_emb <- TimeEmbedding_forward (time_embedding self) timestep ;;
  '(x, skip_connections) <- UNet_Encoder_forward (encoder self) x t_emb (Some cond) ;;
  x <- TimeStepSequential_forward (bottleneck self) x t_emb (Some cond) ;;
  '(x, skip_connections) <-
     UNet_Decoder_forward (decoder self) x skip_connections t_emb (Some cond) ;;
  output_forward self x.

(** **** The two toggles

    [named_modules()] visits every submodule of the encoder, the bottleneck
    and the decoder; the loops assign one attribute on the modules of one
    class.  [on_attention_blocks] and [on_attention_units] are those walks
    with the assignment as an argument. *)

Section Walk.
Variable f : UNet_AttentionBlock -> UNet_AttentionBlock.

Definition walk_transformer (t : UNet_TransformerEncoder) : UNet_TransformerEncoder :=
  mkUNet_TransformerEncoder (te_groupnorm t) (conv_input t)
    (f (transformer_block t)) (conv_output t).

Definition walk_layer (l : Layer) : Layer :=
  match l with
  | ResLayer r => ResLayer r
  | TransformerLayer t => TransformerLayer (walk_transformer t)
  end.

Definition walk_sequential (s : TimeStepSequential) : TimeStepSequential :=
  map walk_layer s.

Definition walk_down_stage (d : DownStage) : DownStage :=
  mkDownStage (map walk_sequential (down_block d)) (downsample d).

Definition walk_encoder (e : UNet_Encoder) : UNet_Encoder :=
  mkUNet_Encoder (conv_in e) (map walk_down_stage (down e)).

Definition walk_up_stage (u : UpStage) : UpStage :=
  mkUpStage (map walk_sequential (up_block u)) (upsample u).

Definition walk_decoder (d : UNet_Decoder) : UNet_Decoder :=
  mkUNet_Decoder (map walk_up_stage (up d)).

Definition walk_unet (self : UNet) : UNet :=
  mkUNet (time_embedding self)
    (walk_encoder (encoder self))
    (walk_sequential (bottleneck self))
    (walk_decoder (decoder self))
    (output_norm self) (output_conv self).
End Walk.

Definition set_gradient_checkpointing (v : bool) (b : UNet_AttentionBlock)
  : UNet_AttentionBlock :=
  mkUNet_AttentionBlock (head_dim b) (layernorm_1 b) (attn1 b) (layernorm_2 b)
    (attn2 b) (layernorm_3 b) (ffn_gate b) (ffn_out b) v.

Definition on_attention_units
    (g : MultiheadSelfAttention -> MultiheadSelfAttention) (b : UNet_AttentionBlock)
  : UNet_AttentionBlock :=
  mkUNet_AttentionBlock (head_dim b) (layernorm_1 b) (g (attn1 b)) (layernorm_2 b)
    (g (attn2 b)) (layernorm_3 b) (ffn_gate b) (ffn_out b) (gradient_checkpointing b).

(** A method that assigns attributes of [self] and returns [None]: the
    result is [tt] next to the model after the call. *)
Definition gradient_checkpointing_enabled (self : UNet) (enabled : bool)
  : unit * UNet :=
  (tt, walk_unet (set_gradient_checkpointing enabled) self).

Definition enable_flash_attn (self : UNet) : unit * UNet :=
  (tt, walk_unet (on_attention_units (set_use_flash_attention true)) self).

(** The flags of the model, in the order [named_modules()] meets them. *)
Definition sequential_blocks (s : TimeStepSequential) : list UNet_AttentionBlock :=
  flat_map (fun l => match l with
                     | ResLayer _ => []
                     | TransformerLayer t => [transformer_block t]
                     end) s.

Definition attention_blocks (self : UNet) : list UNet_AttentionBlock :=
  flat_map (fun d => flat_map sequential_blocks (down_block d)) (down (encoder self))
  ++ sequential_blocks (bottleneck self)
  ++ flat_map (fun u => flat_map sequential_blocks (up_block u)) (up (decoder self)).

Definition attention_units (self : UNet) : list MultiheadSelfAttention :=
  flat_map (fun b => [attn1 b; attn2 b]) (attention_blocks self).

(** ** Concrete models and inputs *)

Definition default_unet (cond_dim : Z) (use_lora : bool) : result UNet :=
  UNet_init 4 4 8 320 cond_dim use_lora.

Definition input (name : string) (s : list Z) : Tensor := mkTensor s (Sym name).

Definition shape_of (r : result Tensor) : option (list Z) :=
  match r with Ok t => Some (shape t) | Raise _ => None end.

Definition predict_noise_shape (b h w n s : Z) : option (list Z) :=
  match default_unet 768 false with
  | Ok u => shape_of (UNet_forward u (input "latent" [b; 4; h; w])
                        (input "timestep" [n]) (input "cond" [b; s; 768]))
  | Raise _ => None
  end.

(** ** What the encoder records and what the decoder takes back *)

Definition encoder_pushes (self : UNet_Encoder) (x t_emb : Tensor) (cond : option Tensor)
  : option nat :=
  match UNet_Encoder_forward self x t_emb cond with
  | Ok (_, skip_connections) => Some (List.length skip_connections)
  | Raise _ => None
  end.

Definition decoder_pops (self : UNet_Decoder) (x : Tensor) (skip_connections : list Tensor)
    (t_emb : Tensor) (cond : option Tensor) : option nat :=
  match UNet_Decoder_forward self x skip_connections t_emb cond with
  | Ok (_, rest) => Some (List.length skip_connections - List.length rest)%nat
  | Raise _ => None
  end.

(** The two exceptions of a list that is read or popped while empty. *)
Definition is_stack_underflow (e : exn) : bool :=
  match e with
  | IndexError msg =>
      String.eqb msg "pop from empty list" || String.eqb msg "list index out of range"
  | _ => false
  end.

Definition layer_count (self : UNet_Encoder) : nat :=
  list_sum (map (fun d => List.length (down_block d)) (down self)).

Definition real_downsample_count (self : UNet_Encoder) : nat :=
  List.length (filter (fun d => negb (is_identity_down (downsample d))) (down self)).

Definition decoder_layer_count (self : UNet_Decoder) : nat :=
  list_sum (map (fun u => List.length (up_block u)) (up self)).

(** Section 4.4 in its own words: the recorded activations are the output
    of [conv_in], then the output of every layer of every stage, and the
    output of the downsample of a stage when that is a real one; each is
    computed from the one before it. *)
Inductive Recorded : Type :=
| RecLayer (l : TimeStepSequential)
| RecDownsample (d : UNet_Downsample).

Definition recorded_modules (self : UNet_Encoder) : list Recorded :=
  flat_map (fun st =>
              map RecLayer (down_block st)
              ++ match downsample st with
                 | DownConv d => [RecDownsample d]
                 | DownIdentity => []
                 end) (down self).

Definition Recorded_forward (m : Recorded) (x t_emb : Tensor) (cond : option Tensor)
  : result Tensor :=
  match m with
  | RecLayer l => TimeStepSequential_forward l x t_emb cond
  | RecDownsample d => UNet_Downsample_forward d x
  end.

Fixpoint chain_outputs (ms : list Recorded) (x t_emb : Tensor) (cond : option Tensor)
  : result (list Tensor) :=
  match ms with
  | [] => Ok []
  | m :: rest =>
      y <- Recorded_forward m x t_emb cond ;;
      ys <- chain_outputs rest y t_emb cond ;;
      Ok (y :: ys)
  end.

Definition spec_skip_stack (self : UNet_Encoder) (x t_emb : Tensor) (cond : option Tensor)
  : result (list Tensor) :=
  x0 <- Conv2d_forward (conv_in self) x ;;
  ys <- chain_outputs (recorded_modules self) x0 t_emb cond ;;
  Ok (x0 :: ys).

(** ** The values of the sinusoidal embedding *)

Module TimeEmbeddingValues.
Local Open Scope R_scope.

(** [torch.arange(0, half, dtype=torch.long)] *)
Definition arange (half : Z) : list Z :=
  map Z.of_nat (seq 0 (Z.to_nat half)).

(** [torch.pow(10000, -torch.arange(0, half)/half)] *)
Definition freqs (half : Z) : list R :=
  map (fun i => Rpower 10000 (IZR (- i) / IZR half)) (arange half).

(** One row of [_get_time_embedding]: the embedding of one timestep. *)
Definition embedding_row (t_embed_dim : Z) (timestep : Z) : list R :=
  let half := (t_embed_dim / 2)%Z in
  let x := map (fun f => IZR timestep * f) (freqs half) in
  map cos x ++ map sin x.

Definition _get_time_embedding (t_embed_dim : Z) (timestep : list Z) : list (list R) :=
  map (embedding_row t_embed_dim) timestep.
End TimeEmbeddingValues.

(** ** utils/datasets.py *)

Module Datasets.
Local Open Scope Q_scope.

(** Tensors are objects: a reference into a heap of value lists. *)
Definition ref : Type := nat.
Definition Heap : Type := list (list Q).

Definition M (A : Type) : Type := Heap -> result A * Heap.

Definition ret {A : Type} (a : A) : M A := fun h => (Ok a, h).

Definition bindM {A B : Type} (m : M A) (k : A -> M B) : M B :=
  fun h => match m h with
           | (Ok a, h') => k a h'
           | (Raise e, h') => (Raise e, h')
           end.

Definition lift {A : Type} (r : result A) : M A := fun h => (r, h).

Fixpoint store (h : Heap) (x : ref) (v : list Q) : Heap :=
  match h, x with
  | [], _ => []
  | _ :: h', O => v :: h'
  | c :: h', S x' => c :: store h' x' v
  end.

(** [x op= c] on every element of the object [x]. *)
Definition inplace (f : Q -> Q) (x : ref) : M unit :=
  fun h => match nth_error h x with
           | Some v => (Ok tt, store h x (map f v))
           | None => (Raise (RuntimeError "no such tensor"), h)
           end.

(** A new tensor object. *)
Definition alloc (v : list Q) : M ref :=
  fun h => (Ok (List.length h), h ++ [v]).

Definition read (x : ref) : M (list Q) :=
  fun h => match nth_error h x with
           | Some v => (Ok v, h)
           | None => (Raise (RuntimeError "no such tensor"), h)
           end.

Definition py_truediv (a b : Q) : result Q :=
  if Qeq_bool b 0 then Raise ZeroDivisionError else Ok (a / b).

Definition clamp_value (lo hi v : Q) : Q :=
  let v := if Qle_bool lo v then v else lo in
  if Qle_bool v hi then v else hi.

Definition scale_img (x : ref) (old_range new_range : Q * Q) (clamp : bool) : M ref :=
  let '(old_min, old_max) := old_range in
  let '(new_min, new_max) := new_range in
  bindM (inplace (fun v => v - old_min) x) (fun _ =>
  bindM (lift (py_truediv (new_max - new_min) (old_max - old_min))) (fun k =>
  bindM (inplace (fun v => v * k) x) (fun _ =>
  bindM (inplace (fun v => v + new_min) x) (fun _ =>
  if clamp
  then bindM (read x) (fun v => alloc (map (clamp_value new_min new_max) v))
  else ret x)))).

(** The value the three updates leave in place of [v]. *)
Definition rescaled (old_range new_range : Q * Q) (v : Q) : Q :=
  (v - fst old_range)
  * ((snd new_range - fst new_range) / (snd old_range - fst old_range))
  + fst new_range.

(** *** DreamboothDataset and create_dataloaders *)

(** What [load_data] finds under a data directory. *)
Record DirContents : Type := mkDirContents
  { generated_jpg : list string;
    generated_label : option string;
    train_jpg : list string;
    train_label : option string }.

Record DreamboothDataset : Type := mkDreamboothDataset
  { imgs_path : list string;
    labels : list string;
    img_size : Z * Z }.

Definition open_read (path : string) (content : option string) : result string :=
  match content with
  | Some s => Ok s
  | None => Raise (FileNotFoundError path)
  end.

Definition load_data (dir : DirContents) : result (list string * list string) :=
  generated_img_label <- open_read "generated_data/label.txt" (generated_label dir) ;;
  train_img_label <- open_read "train_data/label.txt" (train_label dir) ;;
  Ok (generated_jpg dir ++ train_jpg dir,
      map (fun _ => generated_img_label) (generated_jpg dir)
      ++ map (fun _ => train_img_label) (train_jpg dir)).

Definition DreamboothDataset_init (dir : DirContents) (img_size : Z * Z)
  : result DreamboothDataset :=
  '(imgs, labels) <- load_data dir ;;
  Ok (mkDreamboothDataset imgs labels img_size).

(** [len(dataset)] *)
Definition dataset_len (d : DreamboothDataset) : Z := len (imgs_path d).

Record Subset : Type := mkSubset
  { subset_dataset : DreamboothDataset;
    indices : list nat }.

(** [l[a:b]] *)
Definition slice_index (n i : Z) : Z :=
  if (i <? 0)%Z then Z.max (i + n) 0 else Z.min i n.

Definition py_slice {A : Type} (l : list A) (a b : Z) : list A :=
  let a' := slice_index (len l) a in
  let b' := slice_index (len l) b in
  firstn (Z.to_nat (b' - a')) (skipn (Z.to_nat a') l).

(** [itertools.accumulate(lengths)] *)
Fixpoint accumulate (acc : Z) (lengths : list Z) : list Z :=
  match lengths with
  | [] => []
  | l :: rest => (acc + l)%Z :: accumulate (acc + l)%Z rest
  end.

(** [torch.utils.data.random_split(dataset, lengths)] with integer
    lengths; [randperm] is the random source. *)
Definition random_split (randperm : Z -> list nat) (dataset : DreamboothDataset)
    (lengths : list Z) : result (list Subset) :=
  let total := fold_right Z.add 0%Z lengths in
  if negb (total =? dataset_len dataset)%Z
  then Raise (ValueError "Sum of input lengths does not equal the length of the input dataset!")
  else
    let idx := randperm total in
    Ok (map (fun '(offset, length) =>
               mkSubset dataset (py_slice idx (offset - length) offset))
          (combine (accumulate 0 lengths) lengths)).

Record DataLoader : Type := mkDataLoader
  { dl_dataset : Subset;
    dl_batch_size : Z;
    dl_shuffle : bool;
    dl_num_workers : Z }.

(** [DataLoader(dataset, batch_size=..., shuffle=..., num_workers=...)]
    with the argument checks of its constructor and of the sampler it
    builds. *)
Definition DataLoader_init (dataset : Subset) (batch_size : Z) (shuffle : bool)
    (num_workers : Z) : result DataLoader :=
  if (num_workers <? 0)%Z
  then Raise (ValueError "num_workers option should be non-negative")
  else if shuffle && (len (indices dataset) <=? 0)%Z
  then Raise (ValueError "num_samples should be a positive integer value")
  else if (batch_size <=? 0)%Z
  then Raise (ValueError "batch_size should be a positive integer value")
  else Ok (mkDataLoader dataset batch_size shuffle num_workers).

(** [int(q)]: truncation toward zero. *)
Definition py_int (q : Q) : Z := Z.quot (Qnum q) (Zpos (Qden q)).

Definition train_size_of (train_test_split : Q) (dataset : DreamboothDataset) : Z :=
  py_int (train_test_split * inject_Z (dataset_len dataset)).

Definition create_dataloaders
    (fs : string -> DirContents) (randperm : Z -> list nat)
    (data_dir : string) (train_test_split : Q) (batch_size num_workers : Z)
    (img_size : Z * Z) : result (DataLoader * DataLoader) :=
  dataset <- DreamboothDataset_init (fs data_dir) img_size ;;
  let train_size := train_size_of train_test_split dataset in
  let test_size := (dataset_len dataset - train_size)%Z in
  subsets <- random_split randperm dataset [train_size; test_size] ;;
  match subsets with
  | [train_dataset; test_dataset] =>
      train_dataloader <- DataLoader_init train_dataset batch_size true num_workers ;;
      test_dataloader <- DataLoader_init train_dataset batch_size false num_workers ;;
      Ok (train_dataloader, test_dataloader)
  | _ => Raise (ValueError "wrong number of values to unpack (expected 2)")
  end.
End Datasets.

(** ** Predicates used to state the properties *)

(** The call returns, and what it returns satisfies [P]. *)
Definition returns {A : Type} (r : result A) (P : A -> Prop) : Prop :=
  match r with
  | Ok a => P a
  | Raise _ => False
  end.

Definition has_shape (s : list Z) (t : Tensor) : Prop := shape t = s.

(** [b] can be broadcast into [a] without changing [a]; both reversed. *)
Fixpoint fits (b a : list Z) : Prop :=
  match b, a with
  | [], _ => True
  | y :: b', x :: a' => (y = x \/ y = 1) /\ fits b' a'
  | _ :: _, [] => False
  end.

(** A layer that maps [cin] channels to [cout] channels at size [h], [w]. *)
Definition maps_channels (t_emb : Tensor) (cond : option Tensor) (b : Z)
    (l : TimeStepSequential) (cin cout h w : Z) : Prop :=
  forall z, shape z = [b; cin; h; w] ->
            returns (TimeStepSequential_forward l z t_emb cond)
              (has_shape [b; cout; h; w]).

Definition empty_unet : UNet :=
  mkUNet (mkTimeEmbedding 0 (mkLinear 0 0) (mkLinear 0 0))
    (mkUNet_Encoder (mkConv2d 0 0 0 0 0) []) [] (mkUNet_Decoder [])
    (mkGroupNorm 0 0) (mkConv2d 0 0 0 0 0).

Definition unet_768 : UNet :=
  Eval vm_compute in
    match default_unet 768 false with Ok u => u | Raise _ => empty_unet end.

(** The index of the last stage of a schedule: [i == len(ch_multiplier) - 1]. *)
Definition is_last_index (cm : list Z) (i : nat) : bool :=
  Z.of_nat i =? len cm - 1.

(** The call does not end in the exception of an empty list. *)
Definition no_underflow {A : Type} (r : result A) : Prop :=
  match r with
  | Raise e => is_stack_underflow e = false
  | Ok _ => True
  end.

(** Pushes of the encoder pass and pops of the decoder pass that is run on
    what the encoder returned, with the layers [mid] in between. *)
Definition pushes_and_pops (enc : UNet_Encoder) (mid : TimeStepSequential)
    (dec : UNet_Decoder) (x t_emb : Tensor) (cond : option Tensor)
  : option (nat * nat) :=
  match UNet_Encoder_forward enc x t_emb cond with
  | Ok (y, skip_connections) =>
      match TimeStepSequential_forward mid y t_emb cond with
      | Ok z =>
          match decoder_pops dec z skip_connections t_emb cond with
          | Some pops => Some (List.length skip_connections, pops)
          | None => None
          end
      | Raise _ => None
      end
  | Raise _ => None
  end.

(** The encoder and the decoder of the empty schedule. *)
Definition empty_encoder : UNet_Encoder := mkUNet_Encoder (mkConv2d 4 320 3 1 1) [].
Definition empty_decoder : UNet_Decoder := mkUNet_Decoder [].

(** Section 4.6 in its own words: after the layers of a stage the decoder
    upsamples (nearest-neighbour doubling, then the 3x3 convolution) unless
    the next skip tensor already has the current size ([same]), in which
    case only the convolution is applied; the innermost stage applies the
    identity. *)
Definition spec_upsample (ups : UpsampleModule) (same : bool) (x : Tensor)
  : result Tensor :=
  match ups with
  | UpIdentity => Ok x
  | UpConv u =>
      if same
      then Conv2d_forward (up_conv u) x
      else z <- interpolate_nearest2 x ;; Conv2d_forward (up_conv u) z
  end.

(** The deepest decoder stage of the default model. *)
Definition deepest_up_stage : UpStage :=
  Eval vm_compute in
    match UNet_Decoder_stage 8 1280 768 default_ch_multiplier false 3 with
    | Ok u => u
    | Raise _ => mkUpStage [] UpIdentity
    end.

(** The transformer block of the first encoder stage: 8 heads, width 320. *)
Definition attention_block_320 : UNet_AttentionBlock :=
  Eval vm_compute in
    match UNet_AttentionBlock_init 8 320 768 false with
    | Ok b => b
    | Raise _ =>
        mkUNet_AttentionBlock 0 (mkLayerNorm 0)
          (mkMultiheadSelfAttention 0 0 None false false false) (mkLayerNorm 0)
          (mkMultiheadSelfAttention 0 0 None false false false) (mkLayerNorm 0)
          (mkGeGELU (mkLinear 0 0)) (mkLinear 0 0) false
    end.

(** The value the feed-forward unit computes from [x], as an expression:
    [p] is the projection, its two chunks are the value and the gate. *)
Definition ffn_term (dim : Z) (x : Term) : Term :=
  let p := App1 (OLinear (mkLinear dim (dim * 4 * 2))) x in
  let value := App1 (OChunk 0 2) p in
  let gate := App1 (OChunk 1 2) p in
  App1 (OLinear (mkLinear (dim * 4) dim)) (App2 OMul value (App1 OGELU gate)).

(** The default model after the accelerated path has been switched on. *)
Definition unet_768_flash : UNet := snd (enable_flash_attn unet_768).

(** A data directory with two generated and two training images, and a
    random source that returns the indices in decreasing order. *)
Definition example_dir (data_dir : string) : Datasets.DirContents :=
  Datasets.mkDirContents ["g0.jpg"; "g1.jpg"]%string (Some "a photo of a dog"%string)
    ["t0.jpg"; "t1.jpg"]%string (Some "a photo of sks dog"%string).

Definition example_randperm (n : Z) : list nat := rev (seq 0 (Z.to_nat n)).

Definition example_loaders : Datasets.DataLoader * Datasets.DataLoader :=
  Eval vm_compute in
    match Datasets.create_dataloaders example_dir example_randperm "data"
            (1 # 2) 2 0 (512, 512) with
    | Ok p => p
    | Raise _ =>
        let d := Datasets.mkDataLoader
                   (Datasets.mkSubset (Datasets.mkDreamboothDataset [] [] (0, 0)) [])
                   0 false 0 in
        (d, d)
    end.

From Stdlib Require Import Lra.
From Stdlib Require Lqa.

(** ** Values used to instantiate further properties *)



(** Every exception the call can raise satisfies [P]. *)
Definition raises_only {A : Type} (P : exn -> Prop) (r : result A) : Prop :=
  match r with
  | Raise e => P e
  | Ok _ => True
  end.

(** The exception of UNet_AttentionBlock.__init__. *)
Definition heads_error : exn :=
  ValueError "Number of heads must be divisible by Embedding Dimension".

(** ** models/activation_fn.py: the values of QuickGELU *)

Module ActivationValues.
Local Open Scope R_scope.


End ActivationValues.

(** ** The levels of the default model *)

(** The size a level of the encoder hands to the next one: the output size
    of the stride-2 convolution of [UNet_Downsample]. *)
Definition half_up (h : Z) : Z := (h + 1) / 2.

(** A level of height [h] and width [w] that the decoder can come back to
    from the level below it. *)
Definition level_ok (h w : Z) : bool :=
  ((h =? 1) && (w =? 1)) || (Z.even h && Z.even w).

(** The shapes of the twelve tensors the default encoder records for a
    latent of height [h] and width [w]. *)
Definition default_skip_shapes (b h w : Z) : list (list Z) :=
  let h1 := half_up h in let w1 := half_up w in
  let h2 := half_up h1 in let w2 := half_up w1 in
  let h3 := half_up h2 in let w3 := half_up w2 in
  [[b; 320; h; w]; [b; 320; h; w]; [b; 320; h; w];
   [b; 320; h1; w1]; [b; 640; h1; w1]; [b; 640; h1; w1];
   [b; 640; h2; w2]; [b; 1280; h2; w2]; [b; 1280; h2; w2];
   [b; 1280; h3; w3]; [b; 1280; h3; w3]; [b; 1280; h3; w3]].

(** The latent sizes the default model accepts. *)
Definition accepted_size (h w : Z) : Prop :=
  (h mod 8 = 0 /\ w mod 8 = 0) \/ (h = w /\ (h = 1 \/ h = 2 \/ h = 4)).

(** ** Reading an item of the dataset *)

Module DatasetItems.
Import Datasets.

(** [l[index]] on a Python list: a negative index counts from the end. *)
Definition py_getitem {A : Type} (l : list A) (index : Z) : result A :=
  let i := if index <? 0 then index + len l else index in
  if (i <? 0) || (len l <=? i)
  then Raise (IndexError "list index out of range")
  else match nth_error l (Z.to_nat i) with
       | Some a => Ok a
       | None => Raise (IndexError "list index out of range")
       end.

(** [DreamboothDataset.get_label] *)
Definition get_label (self : DreamboothDataset) (index : Z) : result string :=
  py_getitem (labels self) index.
End DatasetItems.

(** ** Sizes and shapes of a pass over a channel schedule *)

(** [h] doubled [k] times. *)
Definition scale (k : nat) (h : Z) : Z := 2 ^ Z.of_nat k * h.

(** The shapes of what the encoder built for [cm] records in its stages
    [i], ..., [i + m - 1] when the last of them works at height [h] and
    width [w], grouped the way the decoder takes them back: the tensor a
    stage starts from and the outputs of its two layers. *)
Fixpoint skip_groups (b : Z) (cm : list Z) (h w : Z) (i m : nat) : list (list Z) :=
  match m with
  | O => []
  | S m' =>
      [[b; 320 * nth i (1 :: cm) 0; scale m' h; scale m' w];
       [b; 320 * nth i cm 0; scale m' h; scale m' w];
       [b; 320 * nth i cm 0; scale m' h; scale m' w]]
      ++ skip_groups b cm h w (S i) m'
  end.

(** The encoder and the decoder of the schedule [2, 4]. *)
Definition encoder_2_4 : UNet_Encoder :=
  Eval vm_compute in
    match UNet_Encoder_init 4 8 1280 768 [2; 4] false with
    | Ok e => e
    | Raise _ => mkUNet_Encoder (mkConv2d 0 0 0 0 0) []
    end.

Definition decoder_2_4 : UNet_Decoder :=
  Eval vm_compute in
    match UNet_Decoder_init 8 1280 768 [2; 4] false with
    | Ok d => d
    | Raise _ => mkUNet_Decoder []
    end.
(* ====================================================================== *)
(** * Properties *)
(* ====================================================================== *)

(** ** The error monad *)

Lemma bind_Ok_inv {A B : Type} (r : result A) (k : A -> result B) (b : B) :
  bind r k = Ok b -> exists a, r = Ok a /\ k a = Ok b.
Proof.
  destruct r as [a|e]; simpl; intros H; [eauto | discriminate].
Qed.

Lemma bind_Raise_inv {A B : Type} (r : result A) (k : A -> result B) (e : exn) :
  bind r k = Raise e -> r = Raise e \/ exists a, r = Ok a /\ k a = Raise e.
Proof.
  destruct r as [a|e']; simpl; intros H; [right; eauto | left; congruence].
Qed.

Lemma returns_bind {A B : Type} (r : result A) (k : A -> result B)
      (P : A -> Prop) (Q : B -> Prop) :
  returns r P -> (forall a, P a -> returns (k a) Q) -> returns (bind r k) Q.
Proof.
  destruct r as [a|e]; simpl; intros H HK; [apply HK, H | contradiction].
Qed.

Lemma returns_weaken {A : Type} (r : result A) (P Q : A -> Prop) :
  returns r P -> (forall a, P a -> Q a) -> returns r Q.
Proof.
  destruct r; simpl; auto.
Qed.

Lemma returns_Ok {A : Type} (r : result A) (P : A -> Prop) :
  returns r P -> exists a, r = Ok a /\ P a.
Proof.
  destruct r; simpl; intros H; [eauto | contradiction].
Qed.

(** Decompose [bind]s in a hypothesis [H : ... = Ok _]. *)
Ltac inv_ok H :=
  repeat match type of H with
         | bind _ _ = Ok _ =>
             let a := fresh "a" in
             let Ha := fresh "Ha" in
             apply bind_Ok_inv in H; destruct H as (a & Ha & H)
         end.

(** ** Shapes *)

Lemma list_eqb_refl (s : list Z) : list_eqb s s = true.
Proof.
  induction s as [|x s IH]; simpl; [reflexivity|].
  now rewrite Z.eqb_refl, IH.
Qed.

Lemma list_eqb_eq (a b : list Z) : list_eqb a b = true <-> a = b.
Proof.
  split; [|intros ->; apply list_eqb_refl].
  revert b; induction a as [|x a IH]; intros [|y b]; simpl; try discriminate; auto.
  rewrite andb_true_iff, Z.eqb_eq. intros [-> H]. f_equal. auto.
Qed.

Lemma broadcast_rev_fits (b a : list Z) :
  fits b a -> broadcast_rev a b = Some a.
Proof.
  revert a; induction b as [|y b IH]; intros [|x a]; simpl; auto; try tauto.
  intros [Hy Hf]. rewrite (IH _ Hf).
  destruct (Z.eqb_spec x y); [reflexivity|].
  destruct Hy as [->| ->]; [congruence|].
  destruct (Z.eqb_spec x 1); [congruence|]. reflexivity.
Qed.

Lemma fits_refl (a : list Z) : fits a a.
Proof. induction a; simpl; auto. Qed.

Lemma iadd_returns (x y : Tensor) :
  fits (rev (shape y)) (rev (shape x)) ->
  returns (iadd x y) (has_shape (shape x)).
Proof.
  intros Hf. unfold iadd, broadcast_shapes.
  rewrite (broadcast_rev_fits _ _ Hf). simpl.
  rewrite rev_involutive, list_eqb_refl. reflexivity.
Qed.

Lemma iadd_same (x y : Tensor) :
  shape y = shape x -> returns (iadd x y) (has_shape (shape x)).
Proof.
  intros E. apply iadd_returns. rewrite E. apply fits_refl.
Qed.

Lemma binop_same (o : Op) (x y : Tensor) :
  shape y = shape x -> returns (binop o x y) (has_shape (shape x)).
Proof.
  intros E. unfold binop, broadcast_shapes. rewrite E.
  rewrite (broadcast_rev_fits _ _ (fits_refl _)). simpl.
  now rewrite rev_involutive.
Qed.

Lemma Conv2d_forward_returns (m : Conv2d) (x : Tensor) (b h w : Z) :
  shape x = [b; conv_in_channels m; h; w] ->
  kernel_size m <= h + 2 * padding m ->
  kernel_size m <= w + 2 * padding m ->
  returns (Conv2d_forward m x)
    (has_shape [b; conv_out_channels m;
                (h + 2 * padding m - kernel_size m) / stride m + 1;
                (w + 2 * padding m - kernel_size m) / stride m + 1]).
Proof.
  intros E Hh Hw. unfold Conv2d_forward. rewrite E.
  rewrite Z.eqb_refl. cbn [negb].
  destruct (Z.ltb_spec (h + 2 * padding m) (kernel_size m)); [lia|].
  destruct (Z.ltb_spec (w + 2 * padding m) (kernel_size m)); [lia|].
  cbn [orb returns]. reflexivity.
Qed.

(** A 3x3 convolution with stride 1 and padding 1, or a 1x1 convolution
    with stride 1 and no padding, keeps the spatial size. *)
Lemma Conv2d_same (cin cout k p : Z) (x : Tensor) (b h w : Z) :
  (k = 3 /\ p = 1) \/ (k = 1 /\ p = 0) ->
  shape x = [b; cin; h; w] -> 1 <= h -> 1 <= w ->
  returns (Conv2d_forward (mkConv2d cin cout k 1 p) x) (has_shape [b; cout; h; w]).
Proof.
  intros Hk E Hh Hw.
  eapply returns_weaken.
  - apply (Conv2d_forward_returns _ x b h w); cbn [conv_in_channels kernel_size padding];
      [exact E | lia | lia].
  - intros y Hy. unfold has_shape in *. rewrite Hy.
    cbn [conv_out_channels kernel_size padding stride].
    rewrite !Z.div_1_r. repeat f_equal; lia.
Qed.

(** The strided convolution of the downsample halves an even size. *)
Lemma Conv2d_halve (c : Z) (x : Tensor) (b h w : Z) :
  shape x = [b; c; 2 * h; 2 * w] -> 1 <= h -> 1 <= w ->
  returns (Conv2d_forward (mkConv2d c c 3 2 1) x) (has_shape [b; c; h; w]).
Proof.
  intros E Hh Hw.
  eapply returns_weaken.
  - apply (Conv2d_forward_returns _ x b (2 * h) (2 * w));
      cbn [conv_in_channels kernel_size padding]; [exact E | lia | lia].
  - intros y Hy. unfold has_shape in *. rewrite Hy.
    cbn [conv_out_channels kernel_size padding stride].
    repeat f_equal.
    + replace (2 * h + 2 * 1 - 3) with (1 + (h - 1) * 2) by lia.
      rewrite Z.div_add by lia. change (1 / 2) with 0. lia.
    + replace (2 * w + 2 * 1 - 3) with (1 + (w - 1) * 2) by lia.
      rewrite Z.div_add by lia. change (1 / 2) with 0. lia.
Qed.

Lemma GroupNorm_forward_returns (m : GroupNorm) (x : Tensor) (b : Z) (r : list Z) :
  shape x = b :: num_channels m :: r ->
  returns (GroupNorm_forward m x) (has_shape (shape x)).
Proof.
  intros E. unfold GroupNorm_forward. rewrite E, Z.eqb_refl.
  cbn [returns]. unfold has_shape. reflexivity.
Qed.

Lemma shape_last_snoc (s : list Z) (d : Z) : shape_last (s ++ [d]) = Ok d.
Proof. unfold shape_last. now rewrite rev_unit. Qed.

Lemma set_last_snoc (s : list Z) (d e : Z) : set_last (s ++ [d]) e = s ++ [e].
Proof.
  unfold set_last. rewrite rev_unit. simpl. now rewrite rev_involutive.
Qed.

Lemma Linear_forward_returns (m : Linear) (x : Tensor) (s : list Z) :
  shape x = s ++ [in_features m] ->
  returns (Linear_forward m x) (has_shape (s ++ [out_features m])).
Proof.
  intros E. unfold Linear_forward. rewrite E, shape_last_snoc, Z.eqb_refl.
  cbn [returns]. unfold has_shape. cbn [shape]. apply set_last_snoc.
Qed.

Lemma LayerNorm_forward_returns (m : LayerNorm) (x : Tensor) (s : list Z) :
  shape x = s ++ [normalized_shape m] ->
  returns (LayerNorm_forward m x) (has_shape (shape x)).
Proof.
  intros E. unfold LayerNorm_forward. rewrite E, shape_last_snoc, Z.eqb_refl.
  cbn [returns]. unfold has_shape. reflexivity.
Qed.

(** ** Constructors: what a successful construction built *)

Ltac inv_step H :=
  match type of H with
  | bind _ _ = Ok _ =>
      let a := fresh "a" in
      let Ha := fresh "Ha" in
      apply bind_Ok_inv in H; destruct H as (a & Ha & H)
  | (if ?c then _ else _) = Ok _ =>
      let E := fresh "E" in
      destruct c eqn:E; try discriminate H
  | Raise _ = Ok _ => discriminate H
  end.

Ltac inv_init H := repeat inv_step H.

Lemma check_size_inv (n : Z) (u : unit) : check_size n = Ok u -> 0 <= n.
Proof.
  unfold check_size. destruct (Z.ltb_spec n 0); [discriminate | auto].
Qed.

Lemma check_size_ok (n : Z) : 0 <= n -> check_size n = Ok tt.
Proof.
  intros H. unfold check_size. destruct (Z.ltb_spec n 0); [lia | reflexivity].
Qed.

Lemma Linear_init_inv (i o : Z) (m : Linear) :
  Linear_init i o = Ok m -> m = mkLinear i o.
Proof.
  unfold Linear_init. intros H. inv_init H. congruence.
Qed.

Lemma Conv2d_init_inv (cin cout k s p : Z) (m : Conv2d) :
  Conv2d_init cin cout k s p = Ok m -> m = mkConv2d cin cout k s p.
Proof.
  unfold Conv2d_init. intros H. inv_init H. congruence.
Qed.

Lemma GroupNorm_init_inv (g c : Z) (m : GroupNorm) :
  GroupNorm_init g c = Ok m -> m = mkGroupNorm g c.
Proof.
  unfold GroupNorm_init. intros H. inv_init H. congruence.
Qed.

Lemma LayerNorm_init_inv (d : Z) (m : LayerNorm) :
  LayerNorm_init d = Ok m -> m = mkLayerNorm d.
Proof.
  unfold LayerNorm_init. intros H. inv_init H. congruence.
Qed.

Lemma GeGELU_init_inv (i o : Z) (g : GeGELU) :
  GeGELU_init i o = Ok g -> g = mkGeGELU (mkLinear i (o * 2)).
Proof.
  unfold GeGELU_init. intros H. inv_init H.
  apply Linear_init_inv in Ha. congruence.
Qed.

Lemma MultiheadSelfAttention_init_inv (nh dim : Z) (cd : option Z) (bias : bool)
      (m : MultiheadSelfAttention) :
  MultiheadSelfAttention_init nh dim cd bias = Ok m ->
  m = mkMultiheadSelfAttention nh dim cd bias false false.
Proof.
  unfold MultiheadSelfAttention_init. intros H. inv_init H. congruence.
Qed.

(** ** Shapes through the blocks *)

Ltac step := eapply returns_bind.

Lemma GeGELU_forward_returns (i o : Z) (x : Tensor) (s : list Z) :
  0 < o -> shape x = s ++ [i] ->
  returns (GeGELU_forward (mkGeGELU (mkLinear i (o * 2))) x) (has_shape (s ++ [o])).
Proof.
  intros Ho E. unfold GeGELU_forward. cbn [proj].
  step. { apply (Linear_forward_returns (mkLinear i (o * 2)) x s). exact E. }
  cbn [out_features]. intros y Hy. unfold has_shape in Hy.
  unfold chunk2_last. rewrite Hy, shape_last_snoc. cbn [bind].
  replace ((o * 2 + 1) / 2) with o
    by (rewrite Z.div_add_l by lia; change (1 / 2) with 0; lia).
  destruct (Z.leb_spec (o * 2 - o) 0); [lia|].
  rewrite !set_last_snoc.
  replace (o * 2 - o) with o by lia.
  eapply returns_weaken. { apply binop_same. reflexivity. }
  intros z Hz. exact Hz.
Qed.

Lemma attention_self_returns (m : MultiheadSelfAttention) (x : Tensor) (b s : Z) :
  attn_cond_dim m = None ->
  shape x = [b; s; attn_embedding_dim m] ->
  returns (MultiheadSelfAttention_forward m x None) (has_shape (shape x)).
Proof.
  intros Hc E. unfold MultiheadSelfAttention_forward. rewrite Hc, E.
  rewrite !Z.eqb_refl. reflexivity.
Qed.

Lemma attention_cross_returns (m : MultiheadSelfAttention) (x cond : Tensor)
      (b s s' cd : Z) :
  attn_cond_dim m = Some cd ->
  shape x = [b; s; attn_embedding_dim m] ->
  shape cond = [b; s'; cd] ->
  returns (MultiheadSelfAttention_forward m x (Some cond)) (has_shape (shape x)).
Proof.
  intros Hc E Ec. unfold MultiheadSelfAttention_forward. rewrite Hc, E, Ec.
  rewrite !Z.eqb_refl. reflexivity.
Qed.

Lemma enable_lora_dims (use_lora : bool) (m : MultiheadSelfAttention) :
  let m' := if use_lora then enable_lora m else m in
  attn_embedding_dim m' = attn_embedding_dim m /\ attn_cond_dim m' = attn_cond_dim m.
Proof. destruct use_lora; simpl; auto. Qed.

Lemma UNet_AttentionBlock_forward_returns
      (nh dim cd : Z) (use_lora : bool) (blk : UNet_AttentionBlock)
      (x cond : Tensor) (b s s' : Z) :
  UNet_AttentionBlock_init nh dim cd use_lora = Ok blk ->
  0 < dim ->
  shape x = [b; s; dim] ->
  shape cond = [b; s'; cd] ->
  returns (UNet_AttentionBlock_forward blk x (Some cond)) (has_shape [b; s; dim]).
Proof.
  intros Hi Hd E Ec. unfold UNet_AttentionBlock_init in Hi. inv_init Hi.
  apply LayerNorm_init_inv in Ha1, Ha3, Ha5.
  apply MultiheadSelfAttention_init_inv in Ha2, Ha4.
  apply GeGELU_init_inv in Ha6. apply Linear_init_inv in Ha7.
  injection Hi as <-. subst.
  unfold UNet_AttentionBlock_forward, checkpoint, ffn_forward.
  cbn [layernorm_1 layernorm_2 layernorm_3 attn1 attn2 ffn_gate ffn_out
       gradient_checkpointing].
  assert (Hx : shape x = [b; s] ++ [dim]) by exact E.
  step. { apply (LayerNorm_forward_returns (mkLayerNorm dim) x [b; s]). exact E. }
  intros y1 H1. unfold has_shape in H1.
  step. { apply (attention_self_returns _ y1 b s).
          - destruct use_lora; reflexivity.
          - rewrite H1, E. destruct use_lora; reflexivity. }
  intros y2 H2. unfold has_shape in H2.
  step. { apply iadd_same. congruence. }
  intros y3 H3. unfold has_shape in H3.
  assert (E3 : shape y3 = [b; s; dim]) by congruence.
  step. { apply (LayerNorm_forward_returns (mkLayerNorm dim) y3 [b; s]). exact E3. }
  intros y4 H4. unfold has_shape in H4.
  step. { apply (attention_cross_returns _ y4 cond b s s' cd).
          - destruct use_lora; reflexivity.
          - rewrite H4, E3. destruct use_lora; reflexivity.
          - exact Ec. }
  intros y5 H5. unfold has_shape in H5.
  step. { apply iadd_same. congruence. }
  intros y6 H6. unfold has_shape in H6.
  assert (E6 : shape y6 = [b; s; dim]) by congruence.
  step. { apply (LayerNorm_forward_returns (mkLayerNorm dim) y6 [b; s]). exact E6. }
  intros y7 H7. unfold has_shape in H7.
  step.
  { step. { apply (GeGELU_forward_returns dim (dim * 4) y7 [b; s]); [lia|congruence]. }
    intros y8 H8.
    apply (Linear_forward_returns (mkLinear (dim * 4) dim) y8 [b; s]). exact H8. }
  cbn [out_features app]. intros y9 H9. unfold has_shape in H9.
  step. { apply iadd_same. congruence. }
  intros y10 H10. unfold has_shape in *. cbn [returns]. congruence.
Qed.

Lemma view_infer_returns (x : Tensor) (b c h w : Z) :
  shape x = [b; c; h; w] -> 0 < b -> 0 < c ->
  returns (view_infer x b c) (has_shape [b; c; h * w]).
Proof.
  intros E Hb Hc. unfold view_infer.
  destruct (Z.ltb_spec b 0); [lia|]. destruct (Z.ltb_spec c 0); [lia|].
  cbn [orb]. destruct (Z.eqb_spec (b * c) 0); [nia|].
  rewrite E. unfold numel. cbn [fold_right].
  replace (b * (c * (h * (w * 1)))) with (h * w * (b * c)) by ring.
  rewrite Z.mod_mul by assumption. rewrite Z.div_mul by assumption.
  reflexivity.
Qed.

Lemma view4_returns (x : Tensor) (b c h w : Z) :
  shape x = [b; c; h * w] ->
  returns (view4 x b c h w) (has_shape [b; c; h; w]).
Proof.
  intros E. unfold view4. rewrite E. unfold numel. cbn [fold_right].
  replace (b * (c * (h * w * 1))) with (b * (c * (h * (w * 1)))) by ring.
  rewrite Z.eqb_refl. reflexivity.
Qed.

Lemma transpose_last2_returns (x : Tensor) (b c d : Z) :
  shape x = [b; c; d] ->
  returns (transpose_last2 x) (has_shape [b; d; c]).
Proof.
  intros E. unfold transpose_last2. rewrite E. reflexivity.
Qed.

Lemma UNet_TransformerEncoder_forward_returns
      (nh e cd : Z) (use_lora : bool) (te : UNet_TransformerEncoder)
      (x cond : Tensor) (b h w s' : Z) :
  UNet_TransformerEncoder_init nh e cd use_lora = Ok te ->
  0 < e * nh -> 0 < b -> 1 <= h -> 1 <= w ->
  shape x = [b; e * nh; h; w] ->
  shape cond = [b; s'; cd] ->
  returns (UNet_TransformerEncoder_forward te x (Some cond))
    (has_shape [b; e * nh; h; w]).
Proof.
  intros Hi Hc Hb Hh Hw E Ec.
  unfold UNet_TransformerEncoder_init in Hi. inv_init Hi.
  apply GroupNorm_init_inv in Ha. apply Conv2d_init_inv in Ha0, Ha2.
  injection Hi as <-. subst. set (c := e * nh) in *.
  unfold UNet_TransformerEncoder_forward.
  cbn [te_groupnorm conv_input transformer_block conv_output].
  rewrite E. cbn [unpack4 bind].
  step. { apply (GroupNorm_forward_returns (mkGroupNorm 32 c) x b [h; w]). exact E. }
  intros y1 H1. unfold has_shape in H1. rewrite E in H1.
  step. { apply (Conv2d_same c c 1 0 y1 b h w); auto. }
  intros y2 H2.
  step. { apply (view_infer_returns y2 b c h w); auto. }
  intros y3 H3.
  step. { apply (transpose_last2_returns y3 _ _ _ H3). }
  intros y4 H4.
  step. { apply (UNet_AttentionBlock_forward_returns nh c cd use_lora a1 y4 cond
                   b (h * w) s' Ha1 Hc H4 Ec). }
  intros y5 H5.
  step. { apply (transpose_last2_returns y5 _ _ _ H5). }
  intros y6 H6.
  step. { apply (view4_returns y6 b c h w H6). }
  intros y7 H7.
  step. { apply (Conv2d_same c c 1 0 y7 b h w); auto. }
  intros y8 H8. unfold has_shape in H8.
  step. { apply iadd_same. congruence. }
  intros y9 H9. unfold has_shape in *. cbn [returns]. congruence.
Qed.

Lemma UNet_ResBlock_forward_returns
      (cin cout td : Z) (r : UNet_ResBlock) (x t_emb : Tensor) (b h w n : Z) :
  UNet_ResBlock_init cin cout td = Ok r ->
  1 <= h -> 1 <= w ->
  shape x = [b; cin; h; w] ->
  shape t_emb = [n; td] -> n = b \/ n = 1 ->
  returns (UNet_ResBlock_forward r x t_emb) (has_shape [b; cout; h; w]).
Proof.
  intros Hi Hh Hw E Et Hn.
  unfold UNet_ResBlock_init in Hi. inv_init Hi.
  apply GroupNorm_init_inv in Ha, Ha1. apply Conv2d_init_inv in Ha0, Ha2.
  apply Linear_init_inv in Ha3. injection Hi as <-. subst.
  unfold UNet_ResBlock_forward.
  cbn [groupnorm_1 conv_1 groupnorm_2 conv_2 t_embed proj_input].
  step. { apply (GroupNorm_forward_returns (mkGroupNorm 32 cin) x b [h; w]). exact E. }
  intros y1 H1. unfold has_shape in H1. rewrite E in H1.
  step. { apply (Conv2d_same cin cout 3 1 (silu y1) b h w); auto. }
  intros y2 H2. unfold has_shape in H2.
  step. { apply (Linear_forward_returns (mkLinear td cout) (silu t_emb) [n]). exact Et. }
  cbn [out_features app]. intros y3 H3. unfold has_shape in H3.
  step. { unfold index_none2. rewrite H3. cbn [returns].
          instantiate (1 := has_shape [n; cout; 1; 1]). reflexivity. }
  intros y4 H4. unfold has_shape in H4.
  step. { apply iadd_returns. rewrite H4, H2. cbn [rev app fits]. intuition. }
  intros y5 H5. unfold has_shape in H5. rewrite H2 in H5.
  step. { apply (GroupNorm_forward_returns (mkGroupNorm 32 cout) y5 b [h; w]). exact H5. }
  intros y6 H6. unfold has_shape in H6. rewrite H5 in H6.
  step. { apply (Conv2d_same cout cout 3 1 (silu y6) b h w); auto. }
  intros y7 H7. unfold has_shape in H7.
  step.
  { instantiate (1 := has_shape [b; cout; h; w]).
    destruct (Z.eqb_spec cin cout) as [->|Hne].
    - injection Ha4 as <-. exact E.
    - inv_init Ha4. apply Conv2d_init_inv in Ha. injection Ha4 as <-. subst.
      apply (Conv2d_same cin cout 1 0 x b h w); auto. }
  intros y8 H8. unfold has_shape in H8.
  step. { apply iadd_same. congruence. }
  intros y9 H9. unfold has_shape in *. cbn [returns]. congruence.
Qed.

Lemma TimeEmbedding_forward_returns
      (td half : Z) (te : TimeEmbedding) (timestep : Tensor) (n : Z) :
  TimeEmbedding_init td = Ok te ->
  td = 2 * half -> 0 <= half ->
  shape timestep = [n] ->
  returns (TimeEmbedding_forward te timestep) (has_shape [n; td * 4]).
Proof.
  intros Hi Htd Hh E. unfold TimeEmbedding_init in Hi. inv_init Hi.
  apply Linear_init_inv in Ha, Ha0. injection Hi as <-. subst a a0.
  unfold TimeEmbedding_forward. cbn [time_embedding te_linear_1 te_linear_2].
  assert (Hdiv : td / 2 = half)
    by (subst td; rewrite (Z.mul_comm 2 half); apply Z.div_mul; lia).
  step.
  { instantiate (1 := has_shape [n; td]).
    unfold _get_time_embedding. cbn [t_embed_dim]. rewrite Hdiv.
    rewrite Z.max_r by lia.
    unfold index_col, index_row. rewrite E. cbn [shape bind].
    unfold binop, broadcast_shapes. cbn [shape rev app broadcast_rev].
    assert (Hb : (if 1 =? half then Some [1; n]
                  else if 1 =? 1 then Some [half; n]
                       else if half =? 1 then Some [1; n] else None)
                 = Some [half; n]).
    { destruct (Z.eqb_spec 1 half) as [<-|]; reflexivity. }
    destruct (Z.eqb_spec n 1) as [->|Hn].
    - rewrite Hb. cbn [option_map rev app bind].
      unfold cat_last, pointwise. cbn [shape rev app list_eqb].
      rewrite Z.eqb_refl. cbn [andb returns]. unfold has_shape. cbn [shape rev app].
      repeat f_equal. lia.
    - replace (1 =? 1) with true in * by reflexivity.
      cbn match. rewrite Hb. cbn [option_map rev app bind].
      unfold cat_last, pointwise. cbn [shape rev app list_eqb].
      rewrite Z.eqb_refl. cbn [andb returns]. unfold has_shape. cbn [shape rev app].
      repeat f_equal. lia. }
  intros y1 H1.
  step. { apply (Linear_forward_returns (mkLinear td (td * 4)) y1 [n]).
          exact H1. }
  cbn [out_features app]. intros y2 H2.
  apply (Linear_forward_returns (mkLinear (td * 4) (td * 4)) (silu y2) [n]).
  exact H2.
Qed.

Arguments UNet_ResBlock_init : simpl never.
Arguments UNet_TransformerEncoder_init : simpl never.
Arguments UNet_Downsample_init : simpl never.
Arguments UNet_Upsample_init : simpl never.
Arguments TimeEmbedding_init : simpl never.
Arguments Conv2d_init : simpl never.
Arguments GroupNorm_init : simpl never.

(** Two shapes are equal when their sizes are. *)
Ltac shape_eq :=
  repeat (apply (f_equal2 (@cons Z)); [try reflexivity; try lia|]);
  try reflexivity.

Lemma sequential_res_returns
      (cin cout td : Z) (r : UNet_ResBlock) (x t_emb : Tensor)
      (cond : option Tensor) (b h w n : Z) :
  UNet_ResBlock_init cin cout td = Ok r ->
  1 <= h -> 1 <= w ->
  shape x = [b; cin; h; w] ->
  shape t_emb = [n; td] -> n = b \/ n = 1 ->
  returns (TimeStepSequential_forward [ResLayer r] x t_emb cond)
    (has_shape [b; cout; h; w]).
Proof.
  intros Hi Hh Hw E Et Hn. cbn [TimeStepSequential_forward Layer_forward].
  step. { apply (UNet_ResBlock_forward_returns cin cout td r x t_emb b h w n); auto. }
  intros y Hy. exact Hy.
Qed.

Lemma sequential_res_transformer_returns
      (cin cout td nh e cd : Z) (use_lora : bool)
      (r : UNet_ResBlock) (te : UNet_TransformerEncoder)
      (x t_emb cond : Tensor) (b h w n s : Z) :
  UNet_ResBlock_init cin cout td = Ok r ->
  UNet_TransformerEncoder_init nh e cd use_lora = Ok te ->
  e * nh = cout -> 0 < cout -> 0 < b ->
  1 <= h -> 1 <= w ->
  shape x = [b; cin; h; w] ->
  shape t_emb = [n; td] -> n = b \/ n = 1 ->
  shape cond = [b; s; cd] ->
  returns (TimeStepSequential_forward [ResLayer r; TransformerLayer te] x t_emb (Some cond))
    (has_shape [b; cout; h; w]).
Proof.
  intros Hr Ht He Hc Hb Hh Hw E Et Hn Ec.
  cbn [TimeStepSequential_forward Layer_forward].
  step. { apply (UNet_ResBlock_forward_returns cin cout td r x t_emb b h w n); auto. }
  intros y Hy. subst cout.
  step. { apply (UNet_TransformerEncoder_forward_returns nh e cd use_lora te y cond
                   b h w s); auto. }
  intros z Hz. exact Hz.
Qed.

Lemma cat1_returns (x y : Tensor) (b c c' h w : Z) :
  shape x = [b; c; h; w] -> shape y = [b; c'; h; w] ->
  returns (cat1 x y) (has_shape [b; c + c'; h; w]).
Proof.
  intros E E'. unfold cat1. rewrite E, E'.
  rewrite Z.eqb_refl, list_eqb_refl. reflexivity.
Qed.

Lemma UNet_Upsample_doubles (c : Z) (u : UNet_Upsample) (x : Tensor) (b h w : Z) :
  UNet_Upsample_init c = Ok u ->
  1 <= h -> 1 <= w ->
  shape x = [b; c; h; w] ->
  returns (UNet_Upsample_forward u x true) (has_shape [b; c; 2 * h; 2 * w]).
Proof.
  intros Hi Hh Hw E. unfold UNet_Upsample_init in Hi. inv_init Hi.
  apply Conv2d_init_inv in Ha. injection Hi as <-. subst.
  unfold UNet_Upsample_forward. cbn [up_conv].
  step.
  { instantiate (1 := has_shape [b; c; 2 * h; 2 * w]).
    unfold interpolate_nearest2. rewrite E.
    destruct (Z.leb_spec h 0); [lia|]. destruct (Z.leb_spec w 0); [lia|].
    cbn [orb returns]. unfold has_shape. cbn [shape]. shape_eq. }
  intros y Hy. apply (Conv2d_same c c 3 1 y b (2 * h) (2 * w)); [auto | exact Hy | lia | lia].
Qed.

Lemma UNet_Downsample_halves (c : Z) (d : UNet_Downsample) (x : Tensor) (b h w : Z) :
  UNet_Downsample_init c = Ok d ->
  1 <= h -> 1 <= w ->
  shape x = [b; c; 2 * h; 2 * w] ->
  returns (UNet_Downsample_forward d x) (has_shape [b; c; h; w]).
Proof.
  intros Hi Hh Hw E. unfold UNet_Downsample_init in Hi. inv_init Hi.
  apply Conv2d_init_inv in Ha. injection Hi as <-. subst.
  unfold UNet_Downsample_forward. cbn [down_conv].
  apply Conv2d_halve; auto.
Qed.

(** ** The list used as a stack *)

Lemma py_pop_snoc {A : Type} (l : list A) (a : A) : py_pop (l ++ [a]) = Ok (a, l).
Proof. unfold py_pop. now rewrite rev_unit, rev_involutive. Qed.

Lemma py_last_snoc {A : Type} (l : list A) (a : A) : py_last (l ++ [a]) = Ok a.
Proof. unfold py_last. now rewrite rev_unit. Qed.

(** ** One stage of the encoder and of the decoder *)

Section Stage.
Variables (t_emb : Tensor) (cond : option Tensor).
Variables (b h w : Z).
#[warnings="-notation-for-abbreviation"]
Local Notation maps_channels := (maps_channels t_emb cond b).

Lemma encoder_stage_down
      (l1 l2 : TimeStepSequential) (d : UNet_Downsample) (cin cout : Z)
      (x : Tensor) (skips : list Tensor) (rest : list DownStage) :
  maps_channels l1 cin cout (2 * h) (2 * w) ->
  maps_channels l2 cout cout (2 * h) (2 * w) ->
  UNet_Downsample_init cout = Ok d ->
  1 <= h -> 1 <= w ->
  shape x = [b; cin; 2 * h; 2 * w] ->
  exists a1 a2 a3,
    shape a1 = [b; cout; 2 * h; 2 * w] /\
    shape a2 = [b; cout; 2 * h; 2 * w] /\
    shape a3 = [b; cout; h; w] /\
    encoder_down_loop (mkDownStage [l1; l2] (DownConv d) :: rest) x t_emb cond skips
    = encoder_down_loop rest a3 t_emb cond (((skips ++ [a1]) ++ [a2]) ++ [a3]).
Proof.
  intros H1 H2 Hd Hh Hw E.
  destruct (returns_Ok _ _ (H1 x E)) as (a1 & E1 & S1).
  destruct (returns_Ok _ _ (H2 a1 S1)) as (a2 & E2 & S2).
  destruct (returns_Ok _ _ (UNet_Downsample_halves cout d a2 b h w Hd Hh Hw S2))
    as (a3 & E3 & S3).
  exists a1, a2, a3. repeat split; auto.
  cbn [encoder_down_loop encoder_block_loop down_block downsample
       DownsampleModule_forward is_identity_down negb].
  rewrite E1. cbn [bind]. rewrite E2. cbn [bind]. rewrite E3. cbn [bind].
  reflexivity.
Qed.

Lemma encoder_stage_last
      (l1 l2 : TimeStepSequential) (cin cout : Z)
      (x : Tensor) (skips : list Tensor) (rest : list DownStage) :
  maps_channels l1 cin cout h w ->
  maps_channels l2 cout cout h w ->
  shape x = [b; cin; h; w] ->
  exists a1 a2,
    shape a1 = [b; cout; h; w] /\
    shape a2 = [b; cout; h; w] /\
    encoder_down_loop (mkDownStage [l1; l2] DownIdentity :: rest) x t_emb cond skips
    = encoder_down_loop rest a2 t_emb cond ((skips ++ [a1]) ++ [a2]).
Proof.
  intros H1 H2 E.
  destruct (returns_Ok _ _ (H1 x E)) as (a1 & E1 & S1).
  destruct (returns_Ok _ _ (H2 a1 S1)) as (a2 & E2 & S2).
  exists a1, a2. repeat split; auto.
  cbn [encoder_down_loop encoder_block_loop down_block downsample
       DownsampleModule_forward is_identity_down negb].
  rewrite E1. cbn [bind]. rewrite E2. cbn [bind]. reflexivity.
Qed.

Lemma decoder_block_returns
      (l1 l2 l3 : TimeStepSequential) (cin cout cmid : Z)
      (x a1 a2 a3 : Tensor) (base : list Tensor) :
  maps_channels l1 (cin + cout) cout h w ->
  maps_channels l2 (cout + cout) cout h w ->
  maps_channels l3 (cout + cmid) cout h w ->
  shape x = [b; cin; h; w] ->
  shape a3 = [b; cout; h; w] ->
  shape a2 = [b; cout; h; w] ->
  shape a1 = [b; cmid; h; w] ->
  exists y,
    shape y = [b; cout; h; w] /\
    decoder_block_loop [l1; l2; l3] x (((base ++ [a1]) ++ [a2]) ++ [a3]) t_emb cond
    = Ok (y, base).
Proof.
  intros H1 H2 H3 E E3 E2 E1.
  destruct (returns_Ok _ _ (cat1_returns x a3 b cin cout h w E E3)) as (c1 & C1 & S1).
  destruct (returns_Ok _ _ (H1 c1 S1)) as (y1 & Y1 & T1).
  destruct (returns_Ok _ _ (cat1_returns y1 a2 b cout cout h w T1 E2)) as (c2 & C2 & S2).
  destruct (returns_Ok _ _ (H2 c2 S2)) as (y2 & Y2 & T2).
  destruct (returns_Ok _ _ (cat1_returns y2 a1 b cout cmid h w T2 E1)) as (c3 & C3 & S3).
  destruct (returns_Ok _ _ (H3 c3 S3)) as (y3 & Y3 & T3).
  exists y3. split; [exact T3|].
  cbn [decoder_block_loop].
  rewrite py_pop_snoc. cbn [bind]. rewrite C1. cbn [bind]. rewrite Y1. cbn [bind].
  rewrite py_pop_snoc. cbn [bind]. rewrite C2. cbn [bind]. rewrite Y2. cbn [bind].
  rewrite py_pop_snoc. cbn [bind]. rewrite C3. cbn [bind]. rewrite Y3. cbn [bind].
  reflexivity.
Qed.

(** A decoder stage whose upsample is a real one and that finds a next
    skip tensor of another width doubles the spatial size. *)
Lemma decoder_stage_up
      (l1 l2 l3 : TimeStepSequential) (u : UNet_Upsample) (cin cout cmid : Z)
      (x a1 a2 a3 : Tensor) (base : list Tensor) :
  maps_channels l1 (cin + cout) cout h w ->
  maps_channels l2 (cout + cout) cout h w ->
  maps_channels l3 (cout + cmid) cout h w ->
  UNet_Upsample_init cout = Ok u ->
  1 <= h -> 1 <= w ->
  shape x = [b; cin; h; w] ->
  shape a3 = [b; cout; h; w] ->
  shape a2 = [b; cout; h; w] ->
  shape a1 = [b; cmid; h; w] ->
  next_skip_matches base w = Ok false ->
  exists y,
    shape y = [b; cout; 2 * h; 2 * w] /\
    decoder_stage (mkUpStage [l1; l2; l3] (UpConv u)) x
      (((base ++ [a1]) ++ [a2]) ++ [a3]) t_emb cond
    = Ok (y, base).
Proof.
  intros H1 H2 H3 Hu Hh Hw E E3 E2 E1 Hnext.
  destruct (decoder_block_returns l1 l2 l3 cin cout cmid x a1 a2 a3 base
              H1 H2 H3 E E3 E2 E1) as (y & Sy & Ey).
  destruct (returns_Ok _ _ (UNet_Upsample_doubles cout u y b h w Hu Hh Hw Sy))
    as (z & Ez & Sz).
  exists z. split; [exact Sz|].
  unfold decoder_stage. cbn [up_block upsample].
  rewrite py_last_snoc. cbn [bind]. rewrite E3. cbn [shape_last rev app bind].
  rewrite Ey. cbn [bind]. rewrite Hnext. cbn [bind UpsampleModule_call].
  rewrite Ez. reflexivity.
Qed.

(** The last decoder stage: the list is empty after its three pops and
    the identity is applied. *)
Lemma decoder_stage_identity
      (l1 l2 l3 : TimeStepSequential) (cin cout cmid : Z)
      (x a1 a2 a3 : Tensor) :
  maps_channels l1 (cin + cout) cout h w ->
  maps_channels l2 (cout + cout) cout h w ->
  maps_channels l3 (cout + cmid) cout h w ->
  shape x = [b; cin; h; w] ->
  shape a3 = [b; cout; h; w] ->
  shape a2 = [b; cout; h; w] ->
  shape a1 = [b; cmid; h; w] ->
  exists y,
    shape y = [b; cout; h; w] /\
    decoder_stage (mkUpStage [l1; l2; l3] UpIdentity) x [a1; a2; a3] t_emb cond
    = Ok (y, []).
Proof.
  intros H1 H2 H3 E E3 E2 E1.
  destruct (decoder_block_returns l1 l2 l3 cin cout cmid x a1 a2 a3 []
              H1 H2 H3 E E3 E2 E1) as (y & Sy & Ey).
  exists y. split; [exact Sy|].
  unfold decoder_stage. cbn [up_block upsample].
  change [a1; a2; a3] with ((([] ++ [a1]) ++ [a2]) ++ [a3]).
  rewrite py_last_snoc. cbn [bind]. rewrite E3. cbn [shape_last rev app bind].
  change ([a1; a2; a3]) with ((([] ++ [a1]) ++ [a2]) ++ [a3]).
  rewrite Ey. reflexivity.
Qed.
End Stage.

(** ** What [__init__] builds, stage by stage *)

Lemma mapM_cons_inv {A B : Type} (f : A -> result B) (a : A) (l : list A) (r : list B) :
  mapM f (a :: l) = Ok r ->
  exists b bs, f a = Ok b /\ mapM f l = Ok bs /\ r = b :: bs.
Proof.
  cbn [mapM]. intros H. inv_init H. injection H as <-. eauto.
Qed.

Lemma mapM_nil_inv {A B : Type} (f : A -> result B) (r : list B) :
  mapM f [] = Ok r -> r = [].
Proof. cbn [mapM]. congruence. Qed.

Lemma UNet_Encoder_stage_inv
      (nh td cd : Z) (cm : list Z) (use_lora : bool) (i : nat) (d : DownStage) :
  UNet_Encoder_stage nh td cd cm use_lora i = Ok d ->
  let cin := 320 * nth i (1 :: cm) 0 in
  let cout := 320 * nth i cm 0 in
  (Z.of_nat i <> len cm - 1 /\
   exists r1 t1 r2 t2 ds e,
     UNet_ResBlock_init cin cout td = Ok r1 /\
     py_floordiv cout nh = Ok e /\
     UNet_TransformerEncoder_init nh e cd use_lora = Ok t1 /\
     UNet_ResBlock_init cout cout td = Ok r2 /\
     UNet_TransformerEncoder_init nh e cd use_lora = Ok t2 /\
     UNet_Downsample_init cout = Ok ds /\
     d = mkDownStage [[ResLayer r1; TransformerLayer t1];
                      [ResLayer r2; TransformerLayer t2]] (DownConv ds))
  \/
  (Z.of_nat i = len cm - 1 /\
   exists r1 r2,
     UNet_ResBlock_init cin cout td = Ok r1 /\
     UNet_ResBlock_init cout cout td = Ok r2 /\
     d = mkDownStage [[ResLayer r1]; [ResLayer r2]] DownIdentity).
Proof.
  unfold UNet_Encoder_stage. intros H. cbv zeta.
  destruct (Z.eqb_spec (Z.of_nat i) (len cm - 1)) as [Hi|Hi]; cbn [negb] in H.
  - right. split; [exact Hi|]. inv_init H. injection H as <-. eauto 10.
  - left. split; [exact Hi|]. inv_init H. injection H as <-.
    assert (a3 = a0) by congruence. subst a3.
    exists a, a1, a2, a4, a5, a0. repeat split; auto.
Qed.

Lemma UNet_Decoder_stage_inv
      (nh td cd : Z) (cm : list Z) (use_lora : bool) (i : nat) (u : UpStage) :
  UNet_Decoder_stage nh td cd cm use_lora i = Ok u ->
  let dc := cm ++ [4] in
  let cin := nth (i + 1) dc 0 * 320 in
  let cout := nth i dc 0 * 320 in
  let cmid := if 0 <? Z.of_nat i then nth (i - 1) dc 0 * 320 else 320 in
  exists l1 l2 l3 ups,
    u = mkUpStage [l1; l2; l3] ups /\
    (exists r1 r2 r3,
       UNet_ResBlock_init (cin + cout) cout td = Ok r1 /\
       UNet_ResBlock_init (cout + cout) cout td = Ok r2 /\
       UNet_ResBlock_init (cout + cmid) cout td = Ok r3 /\
       ((Z.of_nat i = len cm - 1 /\
         l1 = [ResLayer r1] /\ l2 = [ResLayer r2] /\ l3 = [ResLayer r3])
        \/
        (Z.of_nat i <> len cm - 1 /\
         exists e t1 t2 t3,
           py_floordiv cout nh = Ok e /\
           UNet_TransformerEncoder_init nh e cd use_lora = Ok t1 /\
           UNet_TransformerEncoder_init nh e cd use_lora = Ok t2 /\
           UNet_TransformerEncoder_init nh e cd use_lora = Ok t3 /\
           l1 = [ResLayer r1; TransformerLayer t1] /\
           l2 = [ResLayer r2; TransformerLayer t2] /\
           l3 = [ResLayer r3; TransformerLayer t3]))) /\
    ((Z.of_nat i <> 0 /\ exists up, UNet_Upsample_init cout = Ok up /\ ups = UpConv up)
     \/ (Z.of_nat i = 0 /\ ups = UpIdentity)).
Proof.
  unfold UNet_Decoder_stage. intros H. cbv zeta.
  apply bind_Ok_inv in H. destruct H as (blk & Hb & H).
  apply bind_Ok_inv in H. destruct H as (ups & Hu & H).
  injection H as <-.
  assert (Hups :
    (Z.of_nat i <> 0 /\ exists up,
        UNet_Upsample_init (nth i (cm ++ [4]) 0 * 320) = Ok up /\ ups = UpConv up)
    \/ (Z.of_nat i = 0 /\ ups = UpIdentity)).
  { destruct (Z.eqb_spec (Z.of_nat i) 0) as [Hi|Hi]; cbn [negb] in Hu.
    - right. split; [exact Hi | congruence].
    - left. split; [exact Hi|]. inv_init Hu. injection Hu as <-. eauto. }
  destruct (Z.eqb_spec (Z.of_nat i) (len cm - 1)) as [Hi|Hi].
  - inv_init Hb. injection Hb as <-.
    do 4 eexists. split; [reflexivity|]. split; [|exact Hups].
    exists a, a0, a1. repeat split; auto.
  - inv_init Hb. injection Hb as <-.
    assert (a3 = a0) by congruence. assert (a6 = a0) by congruence. subst a3 a6.
    do 4 eexists. split; [reflexivity|]. split; [|exact Hups].
    exists a, a2, a5. repeat split; auto. right. split; [exact Hi|].
    exists a0, a1, a4, a7. repeat split; auto.
Qed.

(** ** The encoder of the default configuration *)

Section DefaultPass.
Variables (cd : Z) (use_lora : bool).
Variables (t_emb cond : Tensor) (b n s : Z).
Hypothesis Hb : 0 < b.
Hypothesis Ht : shape t_emb = [n; 1280].
Hypothesis Hn : n = b \/ n = 1.
Hypothesis Hc : shape cond = [b; s; cd].

Lemma res_layer_maps (cin cout : Z) (r : UNet_ResBlock) (h w : Z) :
  UNet_ResBlock_init cin cout 1280 = Ok r ->
  1 <= h -> 1 <= w ->
  maps_channels t_emb (Some cond) b [ResLayer r] cin cout h w.
Proof.
  intros Hr Hh Hw z Hz.
  apply (sequential_res_returns cin cout 1280 r z t_emb (Some cond) b h w n); auto.
Qed.

Lemma res_transformer_layer_maps
      (cin cout e : Z) (r : UNet_ResBlock) (te : UNet_TransformerEncoder) (h w : Z) :
  UNet_ResBlock_init cin cout 1280 = Ok r ->
  UNet_TransformerEncoder_init 8 e cd use_lora = Ok te ->
  e * 8 = cout -> 0 < cout ->
  1 <= h -> 1 <= w ->
  maps_channels t_emb (Some cond) b [ResLayer r; TransformerLayer te] cin cout h w.
Proof.
  intros Hr Hte He Hco Hh Hw z Hz.
  apply (sequential_res_transformer_returns cin cout 1280 8 e cd use_lora r te
           z t_emb cond b h w n s); auto.
Qed.

Lemma default_encoder_returns (enc : UNet_Encoder) (x : Tensor) (h w : Z) :
  UNet_Encoder_init 4 8 1280 cd default_ch_multiplier use_lora = Ok enc ->
  1 <= h -> 1 <= w ->
  shape x = [b; 4; 8 * h; 8 * w] ->
  exists y skips,
    UNet_Encoder_forward enc x t_emb (Some cond) = Ok (y, skips) /\
    shape y = [b; 1280; h; w] /\
    map shape skips =
      [[b; 320; 8 * h; 8 * w]; [b; 320; 8 * h; 8 * w]; [b; 320; 8 * h; 8 * w];
       [b; 320; 4 * h; 4 * w]; [b; 640; 4 * h; 4 * w]; [b; 640; 4 * h; 4 * w];
       [b; 640; 2 * h; 2 * w]; [b; 1280; 2 * h; 2 * w]; [b; 1280; 2 * h; 2 * w];
       [b; 1280; h; w]; [b; 1280; h; w]; [b; 1280; h; w]].
Proof.
  intros Hi Hh Hw E. unfold UNet_Encoder_init in Hi. cbv zeta in Hi.
  apply bind_Ok_inv in Hi. destruct Hi as (ci & Hci & Hi).
  apply bind_Ok_inv in Hi. destruct Hi as (stages & Hst & Hi).
  injection Hi as <-. apply Conv2d_init_inv in Hci. subst ci.
  change (range (len default_ch_multiplier)) with [0; 1; 2; 3]%nat in Hst.
  apply mapM_cons_inv in Hst. destruct Hst as (d0 & st0 & H0 & Hst & ->).
  apply mapM_cons_inv in Hst. destruct Hst as (d1 & st1 & H1 & Hst & ->).
  apply mapM_cons_inv in Hst. destruct Hst as (d2 & st2 & H2 & Hst & ->).
  apply mapM_cons_inv in Hst. destruct Hst as (d3 & st3 & H3 & Hst & ->).
  apply mapM_nil_inv in Hst. subst st3.
  apply UNet_Encoder_stage_inv in H0, H1, H2, H3.
  destruct H0 as [(_ & r01 & t01 & r02 & t02 & ds0 & e0 & R01 & F0 & T01 & R02 & T02 & D0 & ->)
                 |(Hbad & _)]; [|discriminate Hbad].
  destruct H1 as [(_ & r11 & t11 & r12 & t12 & ds1 & e1 & R11 & F1 & T11 & R12 & T12 & D1 & ->)
                 |(Hbad & _)]; [|discriminate Hbad].
  destruct H2 as [(_ & r21 & t21 & r22 & t22 & ds2 & e2 & R21 & F2 & T21 & R22 & T22 & D2 & ->)
                 |(Hbad & _)]; [|discriminate Hbad].
  destruct H3 as [(Hbad & _)|(_ & r31 & r32 & R31 & R32 & ->)];
    [exfalso; apply Hbad; reflexivity|].
  injection F0 as <-. injection F1 as <-. injection F2 as <-.
  unfold UNet_Encoder_forward. cbn [conv_in down].
  destruct (returns_Ok _ _
              (Conv2d_same 4 320 3 1 x b (8 * h) (8 * w)
                 (or_introl (conj eq_refl eq_refl)) E ltac:(lia) ltac:(lia)))
    as (x0 & E0 & S0).
  rewrite E0. cbn [bind].
  assert (S0' : shape x0 = [b; 320; 2 * (4 * h); 2 * (4 * w)])
    by (rewrite S0; shape_eq).
  destruct (encoder_stage_down t_emb (Some cond) b (4 * h) (4 * w)
              [ResLayer r01; TransformerLayer t01] [ResLayer r02; TransformerLayer t02]
              ds0 320 320 x0 [x0]
              [mkDownStage [[ResLayer r11; TransformerLayer t11];
                            [ResLayer r12; TransformerLayer t12]] (DownConv ds1);
               mkDownStage [[ResLayer r21; TransformerLayer t21];
                            [ResLayer r22; TransformerLayer t22]] (DownConv ds2);
               mkDownStage [[ResLayer r31]; [ResLayer r32]] DownIdentity])
    as (a1 & a2 & a3 & A1 & A2 & A3 & Eq0);
    [ apply (res_transformer_layer_maps 320 320 40); auto; lia
    | apply (res_transformer_layer_maps 320 320 40); auto; lia
    | exact D0 | lia | lia | exact S0' | ].
  rewrite Eq0. clear Eq0. cbn [app].
  assert (A3' : shape a3 = [b; 320; 2 * (2 * h); 2 * (2 * w)])
    by (rewrite A3; shape_eq).
  destruct (encoder_stage_down t_emb (Some cond) b (2 * h) (2 * w)
              [ResLayer r11; TransformerLayer t11] [ResLayer r12; TransformerLayer t12]
              ds1 320 640 a3 [x0; a1; a2; a3]
              [mkDownStage [[ResLayer r21; TransformerLayer t21];
                            [ResLayer r22; TransformerLayer t22]] (DownConv ds2);
               mkDownStage [[ResLayer r31]; [ResLayer r32]] DownIdentity])
    as (b1 & b2 & b3 & B1 & B2 & B3 & Eq1);
    [ apply (res_transformer_layer_maps 320 640 80); auto; lia
    | apply (res_transformer_layer_maps 640 640 80); auto; lia
    | exact D1 | lia | lia | exact A3' | ].
  rewrite Eq1. clear Eq1. cbn [app].
  destruct (encoder_stage_down t_emb (Some cond) b h w
              [ResLayer r21; TransformerLayer t21] [ResLayer r22; TransformerLayer t22]
              ds2 640 1280 b3 [x0; a1; a2; a3; b1; b2; b3]
              [mkDownStage [[ResLayer r31]; [ResLayer r32]] DownIdentity])
    as (c1 & c2 & c3 & C1 & C2 & C3 & Eq2);
    [ apply (res_transformer_layer_maps 640 1280 160); auto; lia
    | apply (res_transformer_layer_maps 1280 1280 160); auto; lia
    | exact D2 | lia | lia | exact B3 | ].
  rewrite Eq2. clear Eq2. cbn [app].
  destruct (encoder_stage_last t_emb (Some cond) b h w
              [ResLayer r31] [ResLayer r32] 1280 1280 c3
              [x0; a1; a2; a3; b1; b2; b3; c1; c2; c3] [])
    as (d1 & d2 & D1' & D2' & Eq3);
    [ apply res_layer_maps; auto | apply res_layer_maps; auto | exact C3 | ].
  rewrite Eq3. clear Eq3. cbn [app encoder_down_loop].
  exists d2, [x0; a1; a2; a3; b1; b2; b3; c1; c2; c3; d1; d2].
  split; [reflexivity|]. split; [exact D2'|].
  cbn [map]. rewrite S0, A1, A2, A3, B1, B2, B3, C1, C2, C3, D1', D2'.
  repeat (apply (f_equal2 (@cons (list Z))); [shape_eq|]). reflexivity.
Qed.
End DefaultPass.

Lemma next_skip_differs (base : list Tensor) (top : Tensor) (w w' : Z) :
  shape_last (shape top) = Ok w' -> w' <> w ->
  next_skip_matches (base ++ [top]) w = Ok false.
Proof.
  intros Hs Hne. unfold next_skip_matches.
  destruct (base ++ [top]) eqn:E; [destruct base; discriminate|].
  rewrite <- E, py_last_snoc. cbn [bind]. rewrite Hs. cbn [bind].
  destruct (Z.eqb_spec w' w); [contradiction | reflexivity].
Qed.

(** Name the elements of a list whose shapes are known. *)
Ltac name_skips H :=
  repeat match type of H with
         | map shape ?l = _ :: _ =>
             let k := fresh "k" in
             let S := fresh "S" in
             destruct l as [|k l]; [discriminate H|];
             cbn [map] in H; injection H as S H
         | map shape ?l = [] =>
             destruct l; [clear H | discriminate H]
         end.

Section DefaultDecoder.
Variables (cd : Z) (use_lora : bool).
Variables (t_emb cond : Tensor) (b n s : Z).
Hypothesis Hb : 0 < b.
Hypothesis Ht : shape t_emb = [n; 1280].
Hypothesis Hn : n = b \/ n = 1.
Hypothesis Hc : shape cond = [b; s; cd].

Lemma default_decoder_returns
      (dec : UNet_Decoder) (x : Tensor) (skips : list Tensor) (h w : Z) :
  UNet_Decoder_init 8 1280 cd default_ch_multiplier use_lora = Ok dec ->
  1 <= h -> 1 <= w ->
  shape x = [b; 1280; h; w] ->
  map shape skips =
    [[b; 320; 8 * h; 8 * w]; [b; 320; 8 * h; 8 * w]; [b; 320; 8 * h; 8 * w];
     [b; 320; 4 * h; 4 * w]; [b; 640; 4 * h; 4 * w]; [b; 640; 4 * h; 4 * w];
     [b; 640; 2 * h; 2 * w]; [b; 1280; 2 * h; 2 * w]; [b; 1280; 2 * h; 2 * w];
     [b; 1280; h; w]; [b; 1280; h; w]; [b; 1280; h; w]] ->
  exists y,
    UNet_Decoder_forward dec x skips t_emb (Some cond) = Ok (y, []) /\
    shape y = [b; 320; 8 * h; 8 * w].
Proof.
  intros Hi Hh Hw E Hs. name_skips Hs.
  unfold UNet_Decoder_init in Hi.
  apply bind_Ok_inv in Hi. destruct Hi as (stages & Hst & Hi).
  injection Hi as <-.
  change (rev (range (len default_ch_multiplier))) with [3; 2; 1; 0]%nat in Hst.
  apply mapM_cons_inv in Hst. destruct Hst as (u3 & st0 & H3 & Hst & ->).
  apply mapM_cons_inv in Hst. destruct Hst as (u2 & st1 & H2 & Hst & ->).
  apply mapM_cons_inv in Hst. destruct Hst as (u1 & st2 & H1 & Hst & ->).
  apply mapM_cons_inv in Hst. destruct Hst as (u0 & st3 & H0 & Hst & ->).
  apply mapM_nil_inv in Hst. subst st3.
  apply UNet_Decoder_stage_inv in H3, H2, H1, H0.
  cbv zeta in H3, H2, H1, H0.
  destruct H3 as (l31 & l32 & l33 & ups3 & -> & (r31 & r32 & r33 & R31 & R32 & R33 & L3) & U3).
  destruct L3 as [(_ & -> & -> & ->)|(Hbad & _)];
    [|exfalso; apply Hbad; reflexivity].
  destruct U3 as [(_ & up3 & U3 & ->)|(Hbad & _)]; [|discriminate Hbad].
  destruct H2 as (l21 & l22 & l23 & ups2 & -> & (r21 & r22 & r23 & R21 & R22 & R23 & L2) & U2).
  destruct L2 as [(Hbad & _)|(_ & e2 & t21 & t22 & t23 & F2 & T21 & T22 & T23 & -> & -> & ->)];
    [discriminate Hbad|].
  destruct U2 as [(_ & up2 & U2 & ->)|(Hbad & _)]; [|discriminate Hbad].
  destruct H1 as (l11 & l12 & l13 & ups1 & -> & (r11 & r12 & r13 & R11 & R12 & R13 & L1) & U1).
  destruct L1 as [(Hbad & _)|(_ & e1 & t11 & t12 & t13 & F1 & T11 & T12 & T13 & -> & -> & ->)];
    [discriminate Hbad|].
  destruct U1 as [(_ & up1 & U1 & ->)|(Hbad & _)]; [|discriminate Hbad].
  destruct H0 as (l01 & l02 & l03 & ups0 & -> & (r01 & r02 & r03 & R01 & R02 & R03 & L0) & U0).
  destruct L0 as [(Hbad & _)|(_ & e0 & t01 & t02 & t03 & F0 & T01 & T02 & T03 & -> & -> & ->)];
    [discriminate Hbad|].
  destruct U0 as [(Hbad & _)|(_ & ->)]; [exfalso; apply Hbad; reflexivity|].
  injection F2 as <-. injection F1 as <-. injection F0 as <-.
  unfold UNet_Decoder_forward. cbn [up decoder_up_loop].
  (* the deepest stage: residual blocks only *)
  destruct (decoder_stage_up t_emb (Some cond) b h w
              [ResLayer r31] [ResLayer r32] [ResLayer r33] up3 1280 1280 1280
              x k8 k9 k10 [k; k0; k1; k2; k3; k4; k5; k6; k7])
    as (y3 & Y3 & E3);
    [ apply (res_layer_maps t_emb cond b n Ht Hn (1280 + 1280) 1280); auto
    | apply (res_layer_maps t_emb cond b n Ht Hn (1280 + 1280) 1280); auto
    | apply (res_layer_maps t_emb cond b n Ht Hn (1280 + 1280) 1280); auto
    | exact U3 | exact Hh | exact Hw | exact E | exact S10 | exact S9 | exact S8
    | apply (next_skip_differs [k; k0; k1; k2; k3; k4; k5; k6] k7 w (2 * w));
      [rewrite S7; reflexivity | lia]
    | ].
  cbn [app] in E3. rewrite E3. clear E3. cbn [bind].
  destruct (decoder_stage_up t_emb (Some cond) b (2 * h) (2 * w)
              [ResLayer r21; TransformerLayer t21] [ResLayer r22; TransformerLayer t22]
              [ResLayer r23; TransformerLayer t23] up2 1280 1280 640
              y3 k5 k6 k7 [k; k0; k1; k2; k3; k4])
    as (y2 & Y2 & E2);
    [ apply (res_transformer_layer_maps cd use_lora t_emb cond b n s Hb Ht Hn Hc
               (1280 + 1280) 1280 160); auto; lia
    | apply (res_transformer_layer_maps cd use_lora t_emb cond b n s Hb Ht Hn Hc
               (1280 + 1280) 1280 160); auto; lia
    | apply (res_transformer_layer_maps cd use_lora t_emb cond b n s Hb Ht Hn Hc
               (1280 + 640) 1280 160); auto; lia
    | exact U2 | lia | lia | exact Y3 | exact S7 | exact S6 | exact S5
    | apply (next_skip_differs [k; k0; k1; k2; k3] k4 (2 * w) (4 * w));
      [rewrite S4; reflexivity | lia]
    | ].
  cbn [app] in E2. rewrite E2. clear E2. cbn [bind].
  assert (Y2' : shape y2 = [b; 1280; 4 * h; 4 * w]) by (rewrite Y2; shape_eq).
  destruct (decoder_stage_up t_emb (Some cond) b (4 * h) (4 * w)
              [ResLayer r11; TransformerLayer t11] [ResLayer r12; TransformerLayer t12]
              [ResLayer r13; TransformerLayer t13] up1 1280 640 320
              y2 k2 k3 k4 [k; k0; k1])
    as (y1 & Y1 & E1);
    [ apply (res_transformer_layer_maps cd use_lora t_emb cond b n s Hb Ht Hn Hc
               (1280 + 640) 640 80); auto; lia
    | apply (res_transformer_layer_maps cd use_lora t_emb cond b n s Hb Ht Hn Hc
               (640 + 640) 640 80); auto; lia
    | apply (res_transformer_layer_maps cd use_lora t_emb cond b n s Hb Ht Hn Hc
               (640 + 320) 640 80); auto; lia
    | exact U1 | lia | lia | exact Y2' | exact S4 | exact S3 | exact S2
    | apply (next_skip_differs [k; k0] k1 (4 * w) (8 * w));
      [rewrite S1; reflexivity | lia]
    | ].
  cbn [app] in E1. rewrite E1. clear E1. cbn [bind].
  assert (Y1' : shape y1 = [b; 640; 8 * h; 8 * w]) by (rewrite Y1; shape_eq).
  destruct (decoder_stage_identity t_emb (Some cond) b (8 * h) (8 * w)
              [ResLayer r01; TransformerLayer t01] [ResLayer r02; TransformerLayer t02]
              [ResLayer r03; TransformerLayer t03] 640 320 320
              y1 k k0 k1)
    as (y0 & Y0 & E0);
    [ apply (res_transformer_layer_maps cd use_lora t_emb cond b n s Hb Ht Hn Hc
               (640 + 320) 320 40); auto; lia
    | apply (res_transformer_layer_maps cd use_lora t_emb cond b n s Hb Ht Hn Hc
               (320 + 320) 320 40); auto; lia
    | apply (res_transformer_layer_maps cd use_lora t_emb cond b n s Hb Ht Hn Hc
               (320 + 320) 320 40); auto; lia
    | exact Y1' | exact S1 | exact S0 | exact S
    | ].
  rewrite E0. cbn [bind]. exists y0. split; [reflexivity | exact Y0].
Qed.
End DefaultDecoder.
(** ** The forward pass keeps the shape of the latent *)

(** C1.  The UNet built with the default sizes (4 latent channels, 8 heads,
    time width 320, any conditioning width) maps a latent of shape
    [b, 4, h, w], [h] and [w] positive multiples of 8, a timestep batch (one
    step per latent, or a single one broadcast) and a conditioning sequence
    [b, s, cond_dim] to a tensor of the shape of the latent. *)
Theorem predict_noise_keeps_shape
        (cd : Z) (use_lora : bool) (u : UNet) (x timestep cond : Tensor)
        (b h w n s : Z) :
  default_unet cd use_lora = Ok u ->
  0 < b -> 0 < h -> 0 < w -> h mod 8 = 0 -> w mod 8 = 0 ->
  shape x = [b; 4; h; w] ->
  shape timestep = [n] -> n = b \/ n = 1 ->
  shape cond = [b; s; cd] ->
  exists y, UNet_forward u x timestep cond = Ok y /\ shape y = shape x.
Proof.
  intros Hu Hb Hh Hw Hh8 Hw8 E Et Hn Ec.
  assert (Eh : h = 8 * (h / 8)) by (apply Z.div_exact; lia).
  assert (Ew : w = 8 * (w / 8)) by (apply Z.div_exact; lia).
  set (h8 := h / 8) in *. set (w8 := w / 8) in *.
  assert (Hh1 : 1 <= h8) by lia. assert (Hw1 : 1 <= w8) by lia.
  unfold default_unet, UNet_init in Hu.
  apply bind_Ok_inv in Hu. destruct Hu as (te & Hte & Hu).
  apply bind_Ok_inv in Hu. destruct Hu as (enc & Henc & Hu).
  apply bind_Ok_inv in Hu. destruct Hu as (b1 & Hb1 & Hu).
  apply bind_Ok_inv in Hu. destruct Hu as (b2 & Hb2 & Hu).
  apply bind_Ok_inv in Hu. destruct Hu as (b3 & Hb3 & Hu).
  apply bind_Ok_inv in Hu. destruct Hu as (dec & Hdec & Hu).
  apply bind_Ok_inv in Hu. destruct Hu as (gn & Hgn & Hu).
  apply bind_Ok_inv in Hu. destruct Hu as (co & Hco & Hu).
  injection Hu as <-.
  apply GroupNorm_init_inv in Hgn. apply Conv2d_init_inv in Hco. subst gn co.
  unfold UNet_forward.
  cbn [time_embedding encoder bottleneck decoder].
  (* the time embedding, computed once *)
  destruct (returns_Ok _ _
              (TimeEmbedding_forward_returns 320 160 te timestep n Hte eq_refl
                 ltac:(lia) Et)) as (t_emb & Etemb & St).
  change (320 * 4) with 1280 in *. unfold has_shape in St.
  rewrite Etemb. cbn [bind].
  (* encoder *)
  assert (E8 : shape x = [b; 4; 8 * h8; 8 * w8]) by (rewrite E; shape_eq).
  destruct (default_encoder_returns cd use_lora t_emb cond b n s Hb St Hn Ec
              enc x h8 w8 Henc Hh1 Hw1 E8) as (xe & skips & Eenc & Sxe & Sskips).
  rewrite Eenc. cbn [bind].
  (* bottleneck *)
  destruct (returns_Ok _ _
              (UNet_ResBlock_forward_returns 1280 1280 1280 b1 xe t_emb b h8 w8 n
                 Hb1 Hh1 Hw1 Sxe St Hn)) as (m1 & Em1 & Sm1).
  destruct (returns_Ok _ _
              (UNet_TransformerEncoder_forward_returns 8 160 cd use_lora b2 m1 cond
                 b h8 w8 s Hb2 ltac:(lia) Hb Hh1 Hw1 Sm1 Ec)) as (m2 & Em2 & Sm2).
  destruct (returns_Ok _ _
              (UNet_ResBlock_forward_returns 1280 1280 1280 b3 m2 t_emb b h8 w8 n
                 Hb3 Hh1 Hw1 Sm2 St Hn)) as (m3 & Em3 & Sm3).
  cbn [TimeStepSequential_forward Layer_forward].
  rewrite Em1. cbn [bind]. rewrite Em2. cbn [bind]. rewrite Em3. cbn [bind].
  (* decoder *)
  destruct (default_decoder_returns cd use_lora t_emb cond b n s Hb St Hn Ec
              dec m3 skips h8 w8 Hdec Hh1 Hw1 Sm3 Sskips) as (xd & Edec & Sxd).
  rewrite Edec. cbn [bind].
  (* output projection *)
  unfold output_forward. cbn [output_norm output_conv].
  destruct (returns_Ok _ _
              (GroupNorm_forward_returns (mkGroupNorm 32 320) xd b [8 * h8; 8 * w8] Sxd))
    as (o1 & Eo1 & So1).
  unfold has_shape in So1. rewrite Sxd in So1.
  rewrite Eo1. cbn [bind].
  destruct (returns_Ok _ _
              (Conv2d_same 320 4 3 1 (silu o1) b (8 * h8) (8 * w8)
                 (or_introl (conj eq_refl eq_refl)) So1 ltac:(lia) ltac:(lia)))
    as (o2 & Eo2 & So2).
  exists o2. split; [exact Eo2|]. rewrite So2, E8. reflexivity.
Qed.

Lemma predict_noise_keeps_shape_witness :
  exists y,
    UNet_forward unet_768 (input "latent" [1; 4; 64; 64]) (input "timestep" [1])
      (input "cond" [1; 77; 768]) = Ok y
    /\ shape y = [1; 4; 64; 64].
Proof.
  apply (predict_noise_keeps_shape 768 false unet_768
           (input "latent" [1; 4; 64; 64]) (input "timestep" [1])
           (input "cond" [1; 77; 768]) 1 64 64 1 77);
    try reflexivity; lia.
Defined.

(** The scenario of the specification, and two inputs the hypotheses rule
    out: a size that is not a multiple of 8 and a timestep batch that fits
    neither the latent batch nor 1. *)
Example predict_noise_64 : predict_noise_shape 1 64 64 1 77 = Some [1; 4; 64; 64].
Proof. vm_compute. reflexivity. Qed.

Example predict_noise_12_fails : predict_noise_shape 1 12 12 1 77 = None.
Proof. vm_compute. reflexivity. Qed.

Example predict_noise_timestep_batch_fails : predict_noise_shape 2 8 16 3 77 = None.
Proof. vm_compute. reflexivity. Qed.

(** ** What the encoder records *)

Section Recorded.
Variables (t_emb : Tensor) (cond : option Tensor).

Lemma last_default_irrelevant {A : Type} (a d d' : A) (l : list A) :
  last (a :: l) d = last (a :: l) d'.
Proof.
  revert a. induction l as [|z l IH]; intros a; [reflexivity|].
  change (last (z :: l) d = last (z :: l) d'). apply IH.
Qed.

Lemma last_cons_default {A : Type} (a d : A) (l : list A) :
  last (a :: l) d = last l a.
Proof.
  destruct l as [|z l]; [reflexivity|].
  change (last (z :: l) d = last (z :: l) a). apply last_default_irrelevant.
Qed.

Lemma last_app_cons {A : Type} (l l' : list A) (a d : A) :
  last (l ++ a :: l') d = last l' a.
Proof.
  induction l as [|z l IH]; cbn [app].
  - apply last_cons_default.
  - destruct l; cbn [app] in *; exact IH.
Qed.

Lemma chain_outputs_app (ms1 ms2 : list Recorded) (x : Tensor) :
  chain_outputs (ms1 ++ ms2) x t_emb cond =
  (ys1 <- chain_outputs ms1 x t_emb cond ;;
   ys2 <- chain_outputs ms2 (last ys1 x) t_emb cond ;;
   Ok (ys1 ++ ys2)).
Proof.
  revert x. induction ms1 as [|m ms1 IH]; intros x; cbn [app chain_outputs bind last].
  - destruct (chain_outputs ms2 x t_emb cond); reflexivity.
  - destruct (Recorded_forward m x t_emb cond) as [y|e]; cbn [bind]; [|reflexivity].
    rewrite IH. destruct (chain_outputs ms1 y t_emb cond) as [ys1|e]; cbn [bind];
      [|reflexivity].
    rewrite last_cons_default.
    destruct (chain_outputs ms2 (last ys1 y) t_emb cond); reflexivity.
Qed.


Lemma chain_outputs_length (ms : list Recorded) (x : Tensor) (ys : list Tensor) :
  chain_outputs ms x t_emb cond = Ok ys -> List.length ys = List.length ms.
Proof.
  revert x ys. induction ms as [|m ms IH]; intros x ys; cbn [chain_outputs].
  - intros H. injection H as <-. reflexivity.
  - intros H. inv_init H. injection H as <-. cbn [List.length]. f_equal. eauto.
Qed.

Lemma encoder_block_loop_spec (block : list TimeStepSequential) (x : Tensor)
      (skips : list Tensor) :
  encoder_block_loop block x t_emb cond skips =
  (ys <- chain_outputs (map RecLayer block) x t_emb cond ;;
   Ok (last ys x, skips ++ ys)).
Proof.
  revert x skips. induction block as [|l block IH]; intros x skips;
    cbn [encoder_block_loop map chain_outputs bind Recorded_forward].
  - now rewrite app_nil_r.
  - destruct (TimeStepSequential_forward l x t_emb cond) as [y|e]; cbn [bind];
      [|reflexivity].
    rewrite IH. unfold py_append.
    destruct (chain_outputs (map RecLayer block) y t_emb cond) as [ys|e]; cbn [bind];
      [|reflexivity].
    now rewrite last_cons_default, <- app_assoc.
Qed.

Lemma encoder_down_loop_spec (stages : list DownStage) (x : Tensor)
      (skips : list Tensor) :
  encoder_down_loop stages x t_emb cond skips =
  (ys <- chain_outputs (recorded_modules (mkUNet_Encoder (mkConv2d 0 0 0 0 0) stages))
           x t_emb cond ;;
   Ok (last ys x, skips ++ ys)).
Proof.
  unfold recorded_modules. cbn [down].
  revert x skips. induction stages as [|d stages IH]; intros x skips;
    cbn [encoder_down_loop flat_map chain_outputs bind].
  - now rewrite app_nil_r.
  - rewrite encoder_block_loop_spec. rewrite !chain_outputs_app.
    destruct (chain_outputs (map RecLayer (down_block d)) x t_emb cond) as [ys1|e];
      cbn [bind]; [|reflexivity].
    destruct (downsample d) as [dc|];
      cbn [DownsampleModule_forward is_identity_down negb chain_outputs bind
           Recorded_forward].
    + destruct (UNet_Downsample_forward dc (last ys1 x)) as [z|e]; cbn [bind];
        [|reflexivity].
      rewrite last_last, IH. unfold py_append.
      destruct (chain_outputs _ z t_emb cond) as [ys2|e]; cbn [bind]; [|reflexivity].
      rewrite <- !app_assoc. cbn [app].
      now rewrite last_app_cons.
    + rewrite app_nil_r. rewrite IH.
      destruct (chain_outputs _ (last ys1 x) t_emb cond) as [ys2|e]; cbn [bind];
        [|reflexivity].
      rewrite <- app_assoc. f_equal. f_equal.
      clear. destruct ys2 as [|z ys2]; [now rewrite app_nil_r|].
      now rewrite last_app_cons, last_cons_default.
Qed.

Lemma UNet_Encoder_forward_spec (self : UNet_Encoder) (x : Tensor) :
  UNet_Encoder_forward self x t_emb cond =
  (skips <- spec_skip_stack self x t_emb cond ;; Ok (last skips x, skips)).
Proof.
  unfold UNet_Encoder_forward, spec_skip_stack.
  destruct (Conv2d_forward (conv_in self) x) as [x0|e]; cbn [bind]; [|reflexivity].
  rewrite encoder_down_loop_spec. unfold recorded_modules. cbn [down].
  destruct (chain_outputs _ x0 t_emb cond) as [ys|e]; cbn [bind]; [|reflexivity].
  now rewrite last_cons_default.
Qed.
End Recorded.

Lemma recorded_modules_length (self : UNet_Encoder) :
  List.length (recorded_modules self)
  = (layer_count self + real_downsample_count self)%nat.
Proof.
  unfold recorded_modules, layer_count, real_downsample_count.
  induction (down self) as [|d stages IH]; [reflexivity|].
  cbn [flat_map map filter]. unfold list_sum in *. cbn [fold_right].
  rewrite !length_app, length_map, IH.
  destruct (downsample d); cbn [is_identity_down negb List.length]; lia.
Qed.

(** ** The stages [__init__] builds for a schedule *)

Lemma mapM_Forall2 {A B : Type} (f : A -> result B) (l : list A) (r : list B) :
  mapM f l = Ok r -> Forall2 (fun a b => f a = Ok b) l r.
Proof.
  revert r. induction l as [|a l IH]; intros r H.
  - apply mapM_nil_inv in H. subst. constructor.
  - apply mapM_cons_inv in H. destruct H as (b & bs & Hb & Hbs & ->).
    constructor; auto.
Qed.

Lemma range_len {A : Type} (l : list A) : range (len l) = seq 0 (List.length l).
Proof. unfold range, len. now rewrite Nat2Z.id. Qed.

Lemma UNet_Encoder_stage_counts
      (nh td cd : Z) (cm : list Z) (use_lora : bool) (i : nat) (d : DownStage) :
  UNet_Encoder_stage nh td cd cm use_lora i = Ok d ->
  List.length (down_block d) = 2%nat /\
  is_identity_down (downsample d) = is_last_index cm i.
Proof.
  intros H. apply UNet_Encoder_stage_inv in H. cbv zeta in H. unfold is_last_index.
  destruct H as [(Hi & r1 & t1 & r2 & t2 & ds & e & _ & _ & _ & _ & _ & _ & ->)
                |(Hi & r1 & r2 & _ & _ & ->)]; cbn [down_block downsample
                                                     is_identity_down List.length].
  - split; [reflexivity|]. symmetry. now apply Z.eqb_neq.
  - split; [reflexivity|]. symmetry. now apply Z.eqb_eq.
Qed.

Lemma UNet_Decoder_stage_counts
      (nh td cd : Z) (cm : list Z) (use_lora : bool) (i : nat) (u : UpStage) :
  UNet_Decoder_stage nh td cd cm use_lora i = Ok u ->
  List.length (up_block u) = 3%nat.
Proof.
  intros H. apply UNet_Decoder_stage_inv in H. cbv zeta in H.
  destruct H as (l1 & l2 & l3 & ups & -> & _). reflexivity.
Qed.

Lemma stages_counts (cm : list Z) (idx : list nat) (stages : list DownStage) :
  Forall2 (fun i d => List.length (down_block d) = 2%nat /\
                      is_identity_down (downsample d) = is_last_index cm i)
          idx stages ->
  list_sum (map (fun d => List.length (down_block d)) stages)
  = (2 * List.length idx)%nat /\
  List.length (filter (fun d => negb (is_identity_down (downsample d))) stages)
  = List.length (filter (fun i => negb (is_last_index cm i)) idx).
Proof.
  induction 1 as [|i d idx stages (Hl & Hd) _ (IH1 & IH2)]; [split; reflexivity|].
  cbn [map filter List.length]. unfold list_sum in *. cbn [fold_right].
  rewrite Hl, IH1, Hd. split; [lia|].
  destruct (is_last_index cm i); cbn [negb List.length]; congruence.
Qed.

Lemma filter_all {A : Type} (f : A -> bool) (l : list A) :
  (forall a, In a l -> f a = true) -> filter f l = l.
Proof.
  induction l as [|a l IH]; intros H; [reflexivity|].
  cbn [filter]. rewrite (H a (or_introl eq_refl)). f_equal.
  apply IH. intros b Hb. apply H. now right.
Qed.

Lemma not_last_count (cm : list Z) :
  List.length (filter (fun i => negb (is_last_index cm i)) (seq 0 (List.length cm)))
  = (List.length cm - 1)%nat.
Proof.
  unfold is_last_index, len.
  destruct (List.length cm) as [|m]; [reflexivity|].
  rewrite seq_S, filter_app, length_app. cbn [plus filter].
  replace (Z.of_nat m =? Z.of_nat (S m) - 1) with true
    by (symmetry; apply Z.eqb_eq; lia).
  cbn [negb List.length].
  rewrite filter_all.
  - rewrite length_seq. lia.
  - intros i Hi. apply in_seq in Hi.
    apply negb_true_iff, Z.eqb_neq. lia.
Qed.

Lemma UNet_Encoder_init_counts
      (inc nh td cd : Z) (cm : list Z) (use_lora : bool) (enc : UNet_Encoder) :
  UNet_Encoder_init inc nh td cd cm use_lora = Ok enc ->
  layer_count enc = (2 * List.length cm)%nat /\
  real_downsample_count enc = (List.length cm - 1)%nat.
Proof.
  unfold UNet_Encoder_init. cbv zeta. intros H.
  apply bind_Ok_inv in H. destruct H as (ci & _ & H).
  apply bind_Ok_inv in H. destruct H as (stages & Hst & H).
  injection H as <-. unfold layer_count, real_downsample_count. cbn [down].
  apply mapM_Forall2 in Hst. rewrite range_len in Hst.
  destruct (stages_counts cm (seq 0 (List.length cm)) stages) as (H1 & H2).
  - eapply Forall2_impl; [|exact Hst].
    intros i d Hd. exact (UNet_Encoder_stage_counts _ _ _ _ _ _ _ Hd).
  - rewrite H1, H2, length_seq, not_last_count. split; reflexivity.
Qed.

Lemma UNet_Decoder_init_counts
      (nh td cd : Z) (cm : list Z) (use_lora : bool) (dec : UNet_Decoder) :
  UNet_Decoder_init nh td cd cm use_lora = Ok dec ->
  List.length (up dec) = List.length cm /\
  Forall (fun u => List.length (up_block u) = 3%nat) (up dec).
Proof.
  unfold UNet_Decoder_init. intros H.
  apply bind_Ok_inv in H. destruct H as (stages & Hst & H).
  injection H as <-. cbn [up].
  apply mapM_Forall2 in Hst. rewrite range_len in Hst. split.
  - apply Forall2_length in Hst. now rewrite length_rev, length_seq in Hst.
  - clear -Hst. induction Hst as [|i u idx stages Hu _ IH]; constructor; auto.
    exact (UNet_Decoder_stage_counts _ _ _ _ _ _ _ Hu).
Qed.

Lemma UNet_Encoder_forward_length (enc : UNet_Encoder) (x t_emb : Tensor)
      (cond : option Tensor) :
  match UNet_Encoder_forward enc x t_emb cond with
  | Ok (_, skips) =>
      List.length skips = (1 + layer_count enc + real_downsample_count enc)%nat
  | Raise _ => True
  end.
Proof.
  rewrite UNet_Encoder_forward_spec. unfold spec_skip_stack.
  destruct (Conv2d_forward (conv_in enc) x) as [x0|e]; cbn [bind]; [|exact I].
  destruct (chain_outputs (recorded_modules enc) x0 t_emb cond) as [ys|e] eqn:E;
    cbn [bind]; [|exact I].
  apply chain_outputs_length in E. cbn [List.length].
  rewrite E, recorded_modules_length. lia.
Qed.

Lemma UNet_Encoder_init_identity
      (inc nh td cd : Z) (cm : list Z) (use_lora : bool) (enc : UNet_Encoder) :
  UNet_Encoder_init inc nh td cd cm use_lora = Ok enc ->
  map (fun d => is_identity_down (downsample d)) (down enc)
  = map (is_last_index cm) (range (len cm)).
Proof.
  unfold UNet_Encoder_init. cbv zeta. intros H.
  apply bind_Ok_inv in H. destruct H as (ci & _ & H).
  apply bind_Ok_inv in H. destruct H as (stages & Hst & H).
  injection H as <-. cbn [down].
  apply mapM_Forall2 in Hst.
  induction Hst as [|i d idx stages Hd _ IH]; [reflexivity|].
  cbn [map]. rewrite IH. f_equal.
  exact (proj2 (UNet_Encoder_stage_counts _ _ _ _ _ _ _ Hd)).
Qed.

(** C4.  The encoder records the output of [conv_in], then the output of
    every layer of every stage and the output of every real downsample, each
    computed from the one before; the identity of the last stage records
    nothing.  A schedule of [n] stages has [2 n] layers and [n - 1] real
    downsamples, the identity being that of the last stage alone; for the
    default schedule that is 1 + 8 + 3 = 12 entries. *)
Theorem encoder_records_every_layer
        (inc nh td cd : Z) (cm : list Z) (use_lora : bool) (enc : UNet_Encoder)
        (x t_emb : Tensor) (cond : option Tensor) :
  UNet_Encoder_init inc nh td cd cm use_lora = Ok enc ->
  UNet_Encoder_forward enc x t_emb cond
  = (skips <- spec_skip_stack enc x t_emb cond ;; Ok (last skips x, skips))
  /\ layer_count enc = (2 * List.length cm)%nat
  /\ real_downsample_count enc = (List.length cm - 1)%nat
  /\ map (fun d => is_identity_down (downsample d)) (down enc)
     = map (is_last_index cm) (range (len cm))
  /\ match UNet_Encoder_forward enc x t_emb cond with
     | Ok (_, skips) =>
         List.length skips = (1 + layer_count enc + real_downsample_count enc)%nat
     | Raise _ => True
     end
  /\ (cm = default_ch_multiplier ->
      match UNet_Encoder_forward enc x t_emb cond with
      | Ok (_, skips) => List.length skips = (1 + 8 + 3)%nat
      | Raise _ => True
      end).
Proof.
  intros Hi. pose proof (UNet_Encoder_init_counts _ _ _ _ _ _ _ Hi) as (Hl & Hd).
  pose proof (UNet_Encoder_forward_length enc x t_emb cond) as Hlen.
  split; [apply UNet_Encoder_forward_spec|].
  split; [exact Hl|]. split; [exact Hd|].
  split; [exact (UNet_Encoder_init_identity _ _ _ _ _ _ _ Hi)|]. split; [exact Hlen|].
  intros ->. destruct (UNet_Encoder_forward enc x t_emb cond) as [[y skips]|e];
    [|exact I].
  rewrite Hlen, Hl, Hd. reflexivity.
Qed.

Lemma encoder_records_every_layer_witness :
  layer_count (encoder unet_768) = 8%nat
  /\ real_downsample_count (encoder unet_768) = 3%nat
  /\ match UNet_Encoder_forward (encoder unet_768) (input "latent" [1; 4; 64; 64])
            (input "t_embed" [1; 1280]) (Some (input "cond" [1; 77; 768])) with
     | Ok (_, skips) => List.length skips = 12%nat
     | Raise _ => True
     end.
Proof.
  destruct (encoder_records_every_layer 4 8 1280 768 default_ch_multiplier false
              (encoder unet_768) (input "latent" [1; 4; 64; 64])
              (input "t_embed" [1; 1280]) (Some (input "cond" [1; 77; 768])))
    as (_ & Hl & Hd & _ & _ & H12); [reflexivity|].
  split; [exact Hl|]. split; [exact Hd|]. exact (H12 eq_refl).
Defined.

(** The default encoder on a 64x64 latent does return, with 12 entries. *)
Example default_encoder_pushes_12 :
  encoder_pushes (encoder unet_768) (input "latent" [1; 4; 64; 64])
    (input "t_embed" [1; 1280]) (Some (input "cond" [1; 77; 768])) = Some 12%nat.
Proof. vm_compute. reflexivity. Qed.

(** ** No layer raises the exception of an empty list *)

Lemma no_underflow_bind {A B : Type} (r : result A) (k : A -> result B) :
  no_underflow r -> (forall a, no_underflow (k a)) -> no_underflow (bind r k).
Proof.
  destruct r as [a|e]; cbn [bind no_underflow]; auto.
Qed.

Create HintDb nu.

Ltac nu :=
  repeat match goal with
         | |- no_underflow (bind _ _) => apply no_underflow_bind; [|intros ?]
         | |- no_underflow (match ?x with _ => _ end) => destruct x
         | |- no_underflow (Ok _) => exact I
         | |- no_underflow (Raise _) => reflexivity
         end;
  auto with nu.

Lemma shape_last_nu (s : list Z) : no_underflow (shape_last s).
Proof. unfold shape_last. nu. Qed.
#[local] Hint Resolve shape_last_nu : nu.

Lemma iadd_nu (x y : Tensor) : no_underflow (iadd x y).
Proof. unfold iadd. nu. Qed.
#[local] Hint Resolve iadd_nu : nu.

Lemma binop_nu (o : Op) (x y : Tensor) : no_underflow (binop o x y).
Proof. unfold binop. nu. Qed.
#[local] Hint Resolve binop_nu : nu.

Lemma Conv2d_forward_nu (m : Conv2d) (x : Tensor) : no_underflow (Conv2d_forward m x).
Proof. unfold Conv2d_forward. nu. Qed.
#[local] Hint Resolve Conv2d_forward_nu : nu.

Lemma GroupNorm_forward_nu (m : GroupNorm) (x : Tensor) :
  no_underflow (GroupNorm_forward m x).
Proof. unfold GroupNorm_forward. nu. Qed.
#[local] Hint Resolve GroupNorm_forward_nu : nu.

Lemma LayerNorm_forward_nu (m : LayerNorm) (x : Tensor) :
  no_underflow (LayerNorm_forward m x).
Proof. unfold LayerNorm_forward. nu. Qed.
#[local] Hint Resolve LayerNorm_forward_nu : nu.

Lemma Linear_forward_nu (m : Linear) (x : Tensor) : no_underflow (Linear_forward m x).
Proof. unfold Linear_forward. nu. Qed.
#[local] Hint Resolve Linear_forward_nu : nu.

Lemma cat1_nu (x y : Tensor) : no_underflow (cat1 x y).
Proof. unfold cat1. nu. Qed.
#[local] Hint Resolve cat1_nu : nu.

Lemma chunk2_last_nu (x : Tensor) : no_underflow (chunk2_last x).
Proof. unfold chunk2_last. nu. Qed.
#[local] Hint Resolve chunk2_last_nu : nu.

Lemma view_infer_nu (x : Tensor) (b c : Z) : no_underflow (view_infer x b c).
Proof. unfold view_infer. nu. Qed.
#[local] Hint Resolve view_infer_nu : nu.

Lemma view4_nu (x : Tensor) (b c h w : Z) : no_underflow (view4 x b c h w).
Proof. unfold view4. nu. Qed.
#[local] Hint Resolve view4_nu : nu.

Lemma transpose_last2_nu (x : Tensor) : no_underflow (transpose_last2 x).
Proof. unfold transpose_last2. nu. Qed.
#[local] Hint Resolve transpose_last2_nu : nu.

Lemma unpack4_nu (s : list Z) : no_underflow (unpack4 s).
Proof. unfold unpack4. nu. Qed.
#[local] Hint Resolve unpack4_nu : nu.

Lemma index_none2_nu (x : Tensor) : no_underflow (index_none2 x).
Proof. unfold index_none2. nu. Qed.
#[local] Hint Resolve index_none2_nu : nu.

Lemma interpolate_nearest2_nu (x : Tensor) : no_underflow (interpolate_nearest2 x).
Proof. unfold interpolate_nearest2. nu. Qed.
#[local] Hint Resolve interpolate_nearest2_nu : nu.

Lemma MultiheadSelfAttention_forward_nu (m : MultiheadSelfAttention) (x : Tensor)
      (cond : option Tensor) :
  no_underflow (MultiheadSelfAttention_forward m x cond).
Proof. unfold MultiheadSelfAttention_forward. cbv zeta. nu. Qed.
#[local] Hint Resolve MultiheadSelfAttention_forward_nu : nu.

Lemma GeGELU_forward_nu (g : GeGELU) (x : Tensor) : no_underflow (GeGELU_forward g x).
Proof. unfold GeGELU_forward. nu. Qed.
#[local] Hint Resolve GeGELU_forward_nu : nu.

Lemma ffn_forward_nu (b : UNet_AttentionBlock) (x : Tensor) : no_underflow (ffn_forward b x).
Proof. unfold ffn_forward. nu. Qed.
#[local] Hint Resolve ffn_forward_nu : nu.

Lemma UNet_AttentionBlock_forward_nu (b : UNet_AttentionBlock) (x : Tensor)
      (cond : option Tensor) :
  no_underflow (UNet_AttentionBlock_forward b x cond).
Proof. unfold UNet_AttentionBlock_forward, checkpoint. cbv zeta. nu. Qed.
#[local] Hint Resolve UNet_AttentionBlock_forward_nu : nu.

Lemma UNet_TransformerEncoder_forward_nu (t : UNet_TransformerEncoder) (x : Tensor)
      (cond : option Tensor) :
  no_underflow (UNet_TransformerEncoder_forward t x cond).
Proof. unfold UNet_TransformerEncoder_forward. cbv zeta. nu. Qed.
#[local] Hint Resolve UNet_TransformerEncoder_forward_nu : nu.

Lemma UNet_ResBlock_forward_nu (r : UNet_ResBlock) (x t_emb : Tensor) :
  no_underflow (UNet_ResBlock_forward r x t_emb).
Proof. unfold UNet_ResBlock_forward, ProjInput_forward. cbv zeta. nu. Qed.
#[local] Hint Resolve UNet_ResBlock_forward_nu : nu.

Lemma TimeStepSequential_forward_nu (l : TimeStepSequential) (x t_emb : Tensor)
      (cond : option Tensor) :
  no_underflow (TimeStepSequential_forward l x t_emb cond).
Proof.
  revert x. induction l as [|layer l IH]; intros x; cbn [TimeStepSequential_forward].
  - exact I.
  - apply no_underflow_bind; [|auto]. unfold Layer_forward. nu.
Qed.
#[local] Hint Resolve TimeStepSequential_forward_nu : nu.

Lemma UpsampleModule_call_nu (m : UpsampleModule) (x : Tensor) (k : option bool) :
  no_underflow (UpsampleModule_call m x k).
Proof. unfold UpsampleModule_call, UNet_Upsample_forward. nu. Qed.
#[local] Hint Resolve UpsampleModule_call_nu : nu.

Lemma py_last_cons {A : Type} (a : A) (l : list A) : exists z, py_last (a :: l) = Ok z.
Proof.
  destruct (exists_last (l := a :: l)) as (l' & z & E); [discriminate|].
  rewrite E, py_last_snoc. eauto.
Qed.

Lemma next_skip_matches_nu (l : list Tensor) (w : Z) :
  no_underflow (next_skip_matches l w).
Proof.
  unfold next_skip_matches. destruct l as [|a l]; [exact I|].
  destruct (py_last_cons a l) as (z & ->). cbn [bind]. nu.
Qed.
#[local] Hint Resolve next_skip_matches_nu : nu.

(** ** The decoder takes back what the encoder recorded *)

Section Balance.
Variables (t_emb : Tensor) (cond : option Tensor).

Lemma decoder_block_loop_balance (block : list TimeStepSequential) (x : Tensor)
      (skips : list Tensor) :
  (List.length block <= List.length skips)%nat ->
  match decoder_block_loop block x skips t_emb cond with
  | Ok (_, rest) => List.length rest = (List.length skips - List.length block)%nat
  | Raise e => is_stack_underflow e = false
  end.
Proof.
  revert x skips. induction block as [|l block IH]; intros x skips Hlen;
    cbn [decoder_block_loop List.length] in *.
  - lia.
  - destruct (exists_last (l := skips)) as (rest & a & ->);
      [intros ->; cbn in Hlen; lia|].
    rewrite py_pop_snoc. cbn [bind].
    pose proof (cat1_nu x a) as Hc. destruct (cat1 x a) as [y|e]; cbn [bind];
      [|exact Hc].
    pose proof (TimeStepSequential_forward_nu l y t_emb cond) as Hl.
    destruct (TimeStepSequential_forward l y t_emb cond) as [z|e]; cbn [bind];
      [|exact Hl].
    rewrite length_app in *. cbn [List.length] in *.
    specialize (IH z rest ltac:(lia)).
    destruct (decoder_block_loop block z rest t_emb cond) as [[? r]|e]; [lia | exact IH].
Qed.

Lemma decoder_stage_balance (u : UpStage) (x : Tensor) (skips : list Tensor) :
  (1 <= List.length (up_block u) <= List.length skips)%nat ->
  match decoder_stage u x skips t_emb cond with
  | Ok (_, rest) => List.length rest = (List.length skips - List.length (up_block u))%nat
  | Raise e => is_stack_underflow e = false
  end.
Proof.
  intros Hlen. unfold decoder_stage.
  destruct skips as [|a skips]; [cbn in Hlen; lia|].
  destruct (py_last_cons a skips) as (top & ->). cbn [bind].
  pose proof (shape_last_nu (shape top)) as Hs.
  destruct (shape_last (shape top)) as [prev_hw|e]; cbn [bind]; [|exact Hs].
  pose proof (decoder_block_loop_balance (up_block u) x (a :: skips) ltac:(lia)) as Hb.
  destruct (decoder_block_loop (up_block u) x (a :: skips) t_emb cond) as [[y rest]|e];
    cbn [bind]; [|exact Hb].
  pose proof (next_skip_matches_nu rest prev_hw) as Hm.
  destruct (next_skip_matches rest prev_hw) as [same|e]; cbn [bind]; [|exact Hm].
  destruct same.
  - pose proof (UpsampleModule_call_nu (upsample u) y (Some false)) as Hu.
    destruct (UpsampleModule_call (upsample u) y (Some false)); cbn [bind]; auto.
  - pose proof (UpsampleModule_call_nu (upsample u) y None) as Hu.
    destruct (UpsampleModule_call (upsample u) y None); cbn [bind]; auto.
Qed.

Lemma decoder_up_loop_balance (stages : list UpStage) (x : Tensor)
      (skips : list Tensor) (k : nat) :
  Forall (fun u => List.length (up_block u) = 3%nat) stages ->
  List.length skips = (3 * List.length stages + k)%nat ->
  match decoder_up_loop stages x skips t_emb cond with
  | Ok (_, rest) => List.length rest = k
  | Raise e => is_stack_underflow e = false
  end.
Proof.
  intros Hall. revert x skips.
  induction Hall as [|u stages Hu _ IH]; intros x skips Hlen;
    cbn [decoder_up_loop List.length] in *.
  - lia.
  - pose proof (decoder_stage_balance u x skips ltac:(lia)) as Hs.
    destruct (decoder_stage u x skips t_emb cond) as [[y rest]|e]; cbn [bind];
      [|exact Hs].
    apply IH. lia.
Qed.
End Balance.

(** C2 (amended).  For every non-empty multiplier schedule the encoder
    built for it pushes 3 tensors per stage, and the decoder built for the
    same schedule, run on a list of that length, pops every one of them:
    when it returns the list is empty, and when it raises, the exception is
    not that of an empty list. *)
Theorem skip_stack_balanced
        (inc nh td cd : Z) (cm : list Z) (use_lora : bool)
        (enc : UNet_Encoder) (dec : UNet_Decoder)
        (x t_emb : Tensor) (cond : option Tensor) :
  cm <> [] ->
  UNet_Encoder_init inc nh td cd cm use_lora = Ok enc ->
  UNet_Decoder_init nh td cd cm use_lora = Ok dec ->
  (forall pushes, encoder_pushes enc x t_emb cond = Some pushes ->
                  pushes = (3 * List.length cm)%nat)
  /\ (forall (x' : Tensor) (skips : list Tensor),
         List.length skips = (3 * List.length cm)%nat ->
         match UNet_Decoder_forward dec x' skips t_emb cond with
         | Ok (_, rest) =>
             rest = []
             /\ decoder_pops dec x' skips t_emb cond = Some (3 * List.length cm)%nat
         | Raise e => is_stack_underflow e = false
         end).
Proof.
  intros Hne He Hd. split.
  - intros pushes Hp. unfold encoder_pushes in Hp.
    destruct (UNet_Encoder_init_counts _ _ _ _ _ _ _ He) as (Hl & Hr).
    pose proof (UNet_Encoder_forward_length enc x t_emb cond) as Hlen.
    destruct (UNet_Encoder_forward enc x t_emb cond) as [[y skips]|e]; [|discriminate].
    injection Hp as <-. rewrite Hlen, Hl, Hr.
    destruct cm; [contradiction|]. cbn [List.length]. lia.
  - intros x' skips Hlen.
    destruct (UNet_Decoder_init_counts _ _ _ _ _ _ Hd) as (Hn & Hall).
    pose proof (decoder_up_loop_balance t_emb cond (up dec) x' skips 0 Hall
                  ltac:(lia)) as Hb.
    unfold decoder_pops. unfold UNet_Decoder_forward in *.
    destruct (decoder_up_loop (up dec) x' skips t_emb cond) as [[y rest]|e]; [|exact Hb].
    destruct rest; [|discriminate]. split; [reflexivity|].
    cbn [List.length]. f_equal. lia.
Qed.

Lemma skip_stack_balanced_witness :
  (forall pushes,
      encoder_pushes (encoder unet_768) (input "latent" [1; 4; 64; 64])
        (input "t_embed" [1; 1280]) (Some (input "cond" [1; 77; 768])) = Some pushes ->
      pushes = (3 * List.length default_ch_multiplier)%nat)
  /\ (forall (x' : Tensor) (skips : list Tensor),
         List.length skips = (3 * List.length default_ch_multiplier)%nat ->
         match UNet_Decoder_forward (decoder unet_768) x' skips
                 (input "t_embed" [1; 1280]) (Some (input "cond" [1; 77; 768])) with
         | Ok (_, rest) =>
             rest = []
             /\ decoder_pops (decoder unet_768) x' skips (input "t_embed" [1; 1280])
                  (Some (input "cond" [1; 77; 768]))
                = Some (3 * List.length default_ch_multiplier)%nat
         | Raise e => is_stack_underflow e = false
         end).
Proof.
  apply (skip_stack_balanced 4 8 1280 768 default_ch_multiplier false
           (encoder unet_768) (decoder unet_768));
    [discriminate | reflexivity | reflexivity].
Defined.

(** The pass of the default model on a 64x64 latent: 12 pushes, 12 pops. *)
Example default_pass_12_pushes_12_pops :
  pushes_and_pops (encoder unet_768) (bottleneck unet_768) (decoder unet_768)
    (input "latent" [1; 4; 64; 64]) (input "t_embed" [1; 1280])
    (Some (input "cond" [1; 77; 768])) = Some (12%nat, 12%nat).
Proof. vm_compute. reflexivity. Qed.

(** C2 as stated fails for the empty schedule: the encoder built for it
    pushes the output of [conv_in], the decoder built for it has no stage
    and pops nothing. *)
Lemma empty_schedule_unbalanced :
  UNet_Encoder_init 4 8 1280 768 [] false = Ok empty_encoder
  /\ UNet_Decoder_init 8 1280 768 [] false = Ok empty_decoder
  /\ pushes_and_pops empty_encoder [] empty_decoder
       (input "latent" [1; 4; 64; 64]) (input "t_embed" [1; 1280])
       (Some (input "cond" [1; 77; 768])) = Some (1%nat, 0%nat).
Proof. repeat split. Qed.

(** ** The upsample rule of the decoder *)

Lemma py_last_pop_agree {A : Type} (l : list A) (top a : A) (rest : list A) :
  py_last l = Ok top -> py_pop l = Ok (a, rest) -> a = top.
Proof.
  unfold py_last, py_pop. destruct (rev l); [discriminate|]. congruence.
Qed.

Lemma cat1_trailing (x y z : Tensor) (b c h w : Z) :
  shape x = [b; c; h; w] -> cat1 x y = Ok z -> shape_last (shape y) = Ok w.
Proof.
  intros E H. unfold cat1 in H. rewrite E in H.
  destruct (shape y) as [|b' [|c' r']]; try discriminate.
  destruct ((b =? b') && list_eqb [h; w] r') eqn:Eb; [|discriminate].
  apply andb_true_iff in Eb. destruct Eb as (_ & Er).
  apply list_eqb_eq in Er. subst r'. reflexivity.
Qed.

(** C3.  For a decoder stage [u] built for index [i] and run on an input
    [x] with the list [skips], whose last entry has trailing size [prev_hw]:
    the stage has a real upsample (a 3x3 convolution, stride 1, padding 1)
    exactly when [i <> 0], the last stage built has the identity;
    [prev_hw] is the width of the 4-D input of the stage whenever its layers
    run; after the layers (one pop and one channel-wise concatenation each)
    the stage applies the doubling and the convolution, or the convolution
    alone when the next entry left on the list has trailing size [prev_hw],
    or nothing for the identity; the comparison is made on the list as it
    is at that moment, and it fails on an empty list, so the last stage of a
    balanced pass returns its activation unchanged; the doubling doubles
    both spatial sizes; the stage has three layers, and a layer takes the
    last entry off the list, concatenates it to the activation along the
    channels and runs on the result. *)
Theorem decoder_upsample_rule
        (nh td cd : Z) (cm : list Z) (use_lora : bool) (i : nat) (u : UpStage)
        (x : Tensor) (skips : list Tensor) (t_emb : Tensor) (cond : option Tensor)
        (top : Tensor) (prev_hw : Z) :
  UNet_Decoder_stage nh td cd cm use_lora i = Ok u ->
  py_last skips = Ok top ->
  shape_last (shape top) = Ok prev_hw ->
  match upsample u with
  | UpIdentity => i = 0%nat
  | UpConv m =>
      i <> 0%nat /\
      exists c, up_conv m = mkConv2d c c 3 1 1
  end
  /\ (forall b c h w,
         shape x = [b; c; h; w] ->
         is_ok (decoder_block_loop (up_block u) x skips t_emb cond) = true ->
         prev_hw = w)
  /\ match decoder_block_loop (up_block u) x skips t_emb cond with
     | Raise e => decoder_stage u x skips t_emb cond = Raise e
     | Ok (x', rest) =>
         match next_skip_matches rest prev_hw with
         | Raise e => decoder_stage u x skips t_emb cond = Raise e
         | Ok same =>
             match upsample u, same with
             | UpIdentity, true =>
                 exists msg, decoder_stage u x skips t_emb cond = Raise (TypeError msg)
             | ups, _ =>
                 decoder_stage u x skips t_emb cond
                 = (y <- spec_upsample ups same x' ;; Ok (y, rest))
             end
         end
     end
  /\ next_skip_matches [] prev_hw = Ok false
  /\ (forall rest next s w',
         shape next = s ++ [w'] ->
         next_skip_matches (rest ++ [next]) prev_hw = Ok (w' =? prev_hw))
  /\ (forall x',
         i = 0%nat ->
         decoder_block_loop (up_block u) x skips t_emb cond = Ok (x', []) ->
         decoder_stage u x skips t_emb cond = Ok (x', []))
  /\ (forall z b c h w,
         shape z = [b; c; h; w] -> 0 < h -> 0 < w ->
         shape_of (interpolate_nearest2 z) = Some [b; c; h * 2; w * 2])
  /\ List.length (up_block u) = 3%nat
  /\ (forall l block z rest tmp,
         decoder_block_loop (l :: block) z (rest ++ [tmp]) t_emb cond
         = (c <- cat1 z tmp ;;
            y <- TimeStepSequential_forward l c t_emb cond ;;
            decoder_block_loop block y rest t_emb cond)).
Proof.
  intros Hu Htop Hprev.
  pose proof (UNet_Decoder_stage_inv _ _ _ _ _ _ _ Hu) as Hinv. cbv zeta in Hinv.
  destruct Hinv as (l1 & l2 & l3 & ups & -> & _ & Hups).
  cbn [upsample up_block].
  split; [|split; [|split; [|split; [|split; [|split; [|split; [|split]]]]]]].
  - destruct Hups as [(Hi & m & Hm & ->)|(Hi & ->)]; [|lia].
    split; [lia|]. unfold UNet_Upsample_init in Hm. inv_init Hm.
    apply Conv2d_init_inv in Ha. injection Hm as <-. subst. cbn [up_conv]. eauto.
  - intros b c h w Ex Hok. cbn [decoder_block_loop] in Hok.
    destruct (py_pop skips) as [[a rest]|e] eqn:Ep; [|discriminate Hok].
    cbn [bind] in Hok. pose proof (py_last_pop_agree _ _ _ _ Htop Ep) as ->.
    destruct (cat1 x top) as [z|e] eqn:Ec; [|discriminate Hok].
    pose proof (cat1_trailing _ _ _ _ _ _ _ Ex Ec) as Hw. congruence.
  - unfold decoder_stage. cbn [up_block upsample].
    rewrite Htop. cbn [bind]. rewrite Hprev. cbn [bind].
    destruct (decoder_block_loop [l1; l2; l3] x skips t_emb cond) as [[x' rest]|e];
      cbn [bind]; [|reflexivity].
    destruct (next_skip_matches rest prev_hw) as [same|e]; cbn [bind]; [|reflexivity].
    destruct ups as [m|]; destruct same;
      cbn [UpsampleModule_call spec_upsample UNet_Upsample_forward bind];
      try reflexivity.
    eauto.
  - reflexivity.
  - intros rest next s w' Es. unfold next_skip_matches.
    destruct (rest ++ [next]) eqn:E; [destruct rest; discriminate|].
    rewrite <- E, py_last_snoc. cbn [bind]. rewrite Es, shape_last_snoc. reflexivity.
  - intros x' Hi Hrun. unfold decoder_stage. cbn [up_block upsample].
    rewrite Htop. cbn [bind]. rewrite Hprev. cbn [bind]. rewrite Hrun.
    cbn [bind next_skip_matches].
    destruct Hups as [(Hne & _)|(_ & ->)]; [lia | reflexivity].
  - intros z b c h w Ez Hh Hw. unfold interpolate_nearest2. rewrite Ez.
    destruct (Z.leb_spec h 0); [exfalso; lia|].
    destruct (Z.leb_spec w 0); [exfalso; lia|]. reflexivity.
  - reflexivity.
  - intros l block z rest tmp. cbn [decoder_block_loop].
    now rewrite py_pop_snoc.
Qed.

Lemma decoder_upsample_rule_witness :
  decoder_stage deepest_up_stage (input "x" [1; 1280; 8; 8])
    [input "s0" [1; 1280; 16; 16]; input "s1" [1; 1280; 8; 8];
     input "s2" [1; 1280; 8; 8]; input "s3" [1; 1280; 8; 8]]
    (input "t_embed" [1; 1280]) None
  = match decoder_block_loop (up_block deepest_up_stage) (input "x" [1; 1280; 8; 8])
            [input "s0" [1; 1280; 16; 16]; input "s1" [1; 1280; 8; 8];
             input "s2" [1; 1280; 8; 8]; input "s3" [1; 1280; 8; 8]]
            (input "t_embed" [1; 1280]) None with
    | Ok (x', rest) =>
        y <- spec_upsample (upsample deepest_up_stage) false x' ;; Ok (y, rest)
    | Raise e => Raise e
    end.
Proof.
  destruct (decoder_upsample_rule 8 1280 768 default_ch_multiplier false 3
              deepest_up_stage (input "x" [1; 1280; 8; 8])
              [input "s0" [1; 1280; 16; 16]; input "s1" [1; 1280; 8; 8];
               input "s2" [1; 1280; 8; 8]; input "s3" [1; 1280; 8; 8]]
              (input "t_embed" [1; 1280]) None (input "s3" [1; 1280; 8; 8]) 8
              eq_refl eq_refl eq_refl) as (_ & _ & H & _).
  destruct (decoder_block_loop (up_block deepest_up_stage) (input "x" [1; 1280; 8; 8])
              [input "s0" [1; 1280; 16; 16]; input "s1" [1; 1280; 8; 8];
               input "s2" [1; 1280; 8; 8]; input "s3" [1; 1280; 8; 8]]
              (input "t_embed" [1; 1280]) None) as [[x' rest]|e] eqn:E; [|exact H].
  assert (Hrest : rest = [input "s0" [1; 1280; 16; 16]]).
  { apply (f_equal (fun r => match r with Ok (_, l) => l | Raise _ => [] end)) in E.
    rewrite <- E. vm_compute. reflexivity. }
  subst rest. exact H.
Defined.

(** The deepest stage of the default decoder doubles an 8x8 activation when
    the entry left on the list is 16 wide, and leaves it 8x8 when that entry
    is 8 wide. *)
Example deepest_stage_doubles :
  match decoder_stage deepest_up_stage (input "x" [1; 1280; 8; 8])
          [input "s0" [1; 1280; 16; 16]; input "s1" [1; 1280; 8; 8];
           input "s2" [1; 1280; 8; 8]; input "s3" [1; 1280; 8; 8]]
          (input "t_embed" [1; 1280]) None with
  | Ok (y, rest) => Some (shape y, map shape rest)
  | Raise _ => None
  end = Some ([1; 1280; 16; 16], [[1; 1280; 16; 16]]).
Proof. vm_compute. reflexivity. Qed.

Example deepest_stage_convolves_only :
  match decoder_stage deepest_up_stage (input "x" [1; 1280; 8; 8])
          [input "s0" [1; 1280; 8; 8]; input "s1" [1; 1280; 8; 8];
           input "s2" [1; 1280; 8; 8]; input "s3" [1; 1280; 8; 8]]
          (input "t_embed" [1; 1280]) None with
  | Ok (y, rest) => Some (shape y, map shape rest)
  | Raise _ => None
  end = Some ([1; 1280; 8; 8], [[1; 1280; 8; 8]]).
Proof. vm_compute. reflexivity. Qed.

(** ** The gated feed-forward unit *)

Lemma UNet_AttentionBlock_init_ffn
      (nh dim cd : Z) (use_lora : bool) (blk : UNet_AttentionBlock) :
  UNet_AttentionBlock_init nh dim cd use_lora = Ok blk ->
  ffn_gate blk = mkGeGELU (mkLinear dim (dim * 4 * 2))
  /\ ffn_out blk = mkLinear (dim * 4) dim.
Proof.
  intros Hi. unfold UNet_AttentionBlock_init in Hi. inv_init Hi.
  apply GeGELU_init_inv in Ha6. apply Linear_init_inv in Ha7.
  injection Hi as <-. subst. split; reflexivity.
Qed.

(** C5 (amended).  The feed-forward unit of a transformer block of width
    [dim] projects its input to 8 x [dim], splits the projection into a value
    half and a gate half of 4 x [dim] each, applies GELU to the gate half,
    multiplies the two halves elementwise and projects the 4 x [dim] wide
    product back to [dim]. *)
Theorem ffn_is_gated_gelu
        (nh dim cd : Z) (use_lora : bool) (blk : UNet_AttentionBlock)
        (x : Tensor) (s : list Z) :
  UNet_AttentionBlock_init nh dim cd use_lora = Ok blk ->
  0 < dim ->
  shape x = s ++ [dim] ->
  exists p value gate,
    Linear_forward (proj (ffn_gate blk)) x = Ok p
    /\ shape p = s ++ [8 * dim]
    /\ chunk2_last p = Ok (value, gate)
    /\ shape value = s ++ [4 * dim]
    /\ shape gate = s ++ [4 * dim]
    /\ GeGELU_forward (ffn_gate blk) x = binop OMul value (gelu gate)
    /\ in_features (ffn_out blk) = 4 * dim
    /\ ffn_forward blk x = Ok (mkTensor (s ++ [dim]) (ffn_term dim (term x))).
Proof.
  intros Hi Hd E.
  destruct (UNet_AttentionBlock_init_ffn _ _ _ _ _ Hi) as (Hg & Ho).
  rewrite Hg, Ho. cbn [proj in_features].
  set (p := mkTensor (s ++ [dim * 4 * 2])
              (App1 (OLinear (mkLinear dim (dim * 4 * 2))) (term x))).
  set (value := mkTensor (s ++ [dim * 4]) (App1 (OChunk 0 2) (term p))).
  set (gate := mkTensor (s ++ [dim * 4]) (App1 (OChunk 1 2) (term p))).
  assert (Hp : Linear_forward (mkLinear dim (dim * 4 * 2)) x = Ok p).
  { unfold Linear_forward. rewrite E, shape_last_snoc.
    cbn [in_features out_features]. now rewrite Z.eqb_refl, set_last_snoc. }
  assert (Hc : chunk2_last p = Ok (value, gate)).
  { unfold chunk2_last. cbn [shape p]. rewrite shape_last_snoc. cbn [bind].
    replace ((dim * 4 * 2 + 1) / 2) with (dim * 4)
      by (rewrite Z.div_add_l by lia; change (1 / 2) with 0; lia).
    destruct (Z.leb_spec (dim * 4 * 2 - dim * 4) 0); [lia|].
    rewrite !set_last_snoc. replace (dim * 4 * 2 - dim * 4) with (dim * 4) by lia.
    reflexivity. }
  assert (Hm : binop OMul value (gelu gate)
               = Ok (mkTensor (s ++ [dim * 4])
                       (App2 OMul (term value) (App1 OGELU (term gate))))).
  { unfold binop, broadcast_shapes, gelu, pointwise. cbn [shape value gate].
    rewrite (broadcast_rev_fits _ _ (fits_refl _)). cbn [option_map].
    now rewrite rev_involutive. }
  exists p, value, gate.
  split; [exact Hp|].
  split; [cbn [shape p]; apply (f_equal (app s)); apply (f_equal2 (@cons Z));
          [lia | reflexivity]|].
  split; [exact Hc|].
  split; [cbn [shape value]; apply (f_equal (app s)); apply (f_equal2 (@cons Z));
          [lia | reflexivity]|].
  split; [cbn [shape gate]; apply (f_equal (app s)); apply (f_equal2 (@cons Z));
          [lia | reflexivity]|].
  split; [unfold GeGELU_forward; cbn [proj]; rewrite Hp; cbn [bind]; rewrite Hc;
          reflexivity|].
  split; [lia|].
  unfold ffn_forward, GeGELU_forward. rewrite Hg, Ho. cbn [proj].
  rewrite Hp. cbn [bind]. rewrite Hc. cbn [bind]. rewrite Hm. cbn [bind].
  unfold Linear_forward. cbn [shape term]. rewrite shape_last_snoc.
  cbn [in_features out_features]. rewrite Z.eqb_refl, set_last_snoc. reflexivity.
Qed.

Lemma ffn_is_gated_gelu_witness :
  exists p value gate,
    Linear_forward (proj (ffn_gate attention_block_320)) (input "x" [1; 4096; 320]) = Ok p
    /\ shape p = [1; 4096] ++ [8 * 320]
    /\ chunk2_last p = Ok (value, gate)
    /\ shape value = [1; 4096] ++ [4 * 320]
    /\ shape gate = [1; 4096] ++ [4 * 320]
    /\ GeGELU_forward (ffn_gate attention_block_320) (input "x" [1; 4096; 320])
       = binop OMul value (gelu gate)
    /\ in_features (ffn_out attention_block_320) = 4 * 320
    /\ ffn_forward attention_block_320 (input "x" [1; 4096; 320])
       = Ok (mkTensor ([1; 4096] ++ [320]) (ffn_term 320 (Sym "x"))).
Proof.
  apply (ffn_is_gated_gelu 8 320 768 false attention_block_320
           (input "x" [1; 4096; 320]) [1; 4096]); [reflexivity | lia | reflexivity].
Defined.

(** C5 as stated fails: the projection of the gated unit is 8 times as wide
    as its input, not 4 times. *)
Lemma ffn_projection_is_8x :
  UNet_AttentionBlock_init 8 320 768 false = Ok attention_block_320
  /\ shape_of (Linear_forward (proj (ffn_gate attention_block_320))
                 (input "x" [1; 4096; 320])) = Some [1; 4096; 8 * 320]
  /\ out_features (proj (ffn_gate attention_block_320)) <> 4 * 320.
Proof. repeat split. discriminate. Qed.

(** ** The configuration error of the attention block *)

Lemma UNet_AttentionBlock_init_divisible
      (num_heads embedding_dim cond_dim : Z) (use_lora : bool) :
  num_heads <> 0 -> 0 <= embedding_dim -> 0 <= cond_dim ->
  embedding_dim mod num_heads = 0 ->
  exists blk,
    UNet_AttentionBlock_init num_heads embedding_dim cond_dim use_lora = Ok blk
    /\ head_dim blk = embedding_dim / num_heads.
Proof.
  intros Hh Hd Hc E.
  unfold UNet_AttentionBlock_init, MultiheadSelfAttention_init, LayerNorm_init,
    GeGELU_init, Linear_init, py_mod, py_floordiv.
  destruct (Z.eqb_spec num_heads 0); [contradiction|].
  rewrite E. cbn [bind negb Z.eqb].
  rewrite !(check_size_ok embedding_dim), !(check_size_ok cond_dim),
    !(check_size_ok (embedding_dim * 4)), !(check_size_ok (embedding_dim * 4 * 2))
    by lia.
  cbn [bind]. eexists. split; reflexivity.
Qed.

Lemma UNet_AttentionBlock_init_indivisible
      (num_heads embedding_dim cond_dim : Z) (use_lora : bool) :
  num_heads <> 0 ->
  embedding_dim mod num_heads <> 0 ->
  UNet_AttentionBlock_init num_heads embedding_dim cond_dim use_lora
  = Raise (ValueError "Number of heads must be divisible by Embedding Dimension").
Proof.
  intros Hh E. unfold UNet_AttentionBlock_init, py_mod.
  destruct (Z.eqb_spec num_heads 0); [contradiction|]. cbn [bind].
  destruct (Z.eqb_spec (embedding_dim mod num_heads) 0); [contradiction|].
  reflexivity.
Qed.

(** C6.  For a positive head count (and non-negative widths) the
    construction of an attention block raises [ValueError] exactly when the
    embedding width is not a multiple of the head count; no block exists
    then, so no forward pass can start; otherwise the construction returns a
    block whose [head_dim] is the quotient. *)
Theorem attention_block_configuration_error
        (num_heads embedding_dim cond_dim : Z) (use_lora : bool) :
  0 < num_heads -> 0 <= embedding_dim -> 0 <= cond_dim ->
  ((exists msg, UNet_AttentionBlock_init num_heads embedding_dim cond_dim use_lora
                = Raise (ValueError msg))
   <-> embedding_dim mod num_heads <> 0)
  /\ (embedding_dim mod num_heads <> 0 ->
      is_ok (UNet_AttentionBlock_init num_heads embedding_dim cond_dim use_lora) = false)
  /\ (embedding_dim mod num_heads = 0 ->
      exists blk,
        UNet_AttentionBlock_init num_heads embedding_dim cond_dim use_lora = Ok blk
        /\ head_dim blk = embedding_dim / num_heads).
Proof.
  intros Hh Hd Hc.
  destruct (Z.eq_dec (embedding_dim mod num_heads) 0) as [E|E].
  - destruct (UNet_AttentionBlock_init_divisible num_heads embedding_dim cond_dim
                use_lora ltac:(lia) Hd Hc E) as (blk & Hblk & Hhd).
    rewrite Hblk. split; [|split].
    + split; [intros (msg & H); discriminate | intros H; contradiction].
    + intros H; contradiction.
    + intros _. eauto.
  - rewrite (UNet_AttentionBlock_init_indivisible num_heads embedding_dim cond_dim
               use_lora ltac:(lia) E).
    split; [|split].
    + split; [intros _; exact E | intros _; eauto].
    + intros _. reflexivity.
    + intros H; contradiction.
Qed.

Lemma attention_block_configuration_error_witness :
  ((exists msg, UNet_AttentionBlock_init 8 320 768 false = Raise (ValueError msg))
   <-> 320 mod 8 <> 0)
  /\ (320 mod 8 <> 0 -> is_ok (UNet_AttentionBlock_init 8 320 768 false) = false)
  /\ (320 mod 8 = 0 ->
      exists blk, UNet_AttentionBlock_init 8 320 768 false = Ok blk
                  /\ head_dim blk = 320 / 8).
Proof.
  apply (attention_block_configuration_error 8 320 768 false); lia.
Defined.

(** Seven heads do not divide a width of 320: the construction raises. *)
Example seven_heads_rejected :
  UNet_AttentionBlock_init 7 320 768 false
  = Raise (ValueError "Number of heads must be divisible by Embedding Dimension").
Proof. reflexivity. Qed.

(** ** The sinusoidal embedding *)

Section SinusoidValues.
Import TimeEmbeddingValues.
Local Open Scope R_scope.

Lemma nth_map_default {A : Type} (f : A -> R) (l : list A) (d : A) (k : nat) :
  (k < List.length l)%nat -> nth k (map f l) 0 = f (nth k l d).
Proof.
  intros Hk. rewrite (nth_indep _ 0 (f d)) by (now rewrite length_map).
  apply map_nth.
Qed.

Lemma arange_nth (half i : Z) :
  (0 <= i < half)%Z -> nth (Z.to_nat i) (arange half) 0%Z = i.
Proof.
  intros Hi. unfold arange.
  rewrite (nth_indep _ 0%Z (Z.of_nat 0)) by (rewrite length_map, length_seq; lia).
  rewrite map_nth, seq_nth by lia. lia.
Qed.

Lemma freqs_length (half : Z) : List.length (freqs half) = Z.to_nat half.
Proof. unfold freqs, arange. now rewrite !length_map, length_seq. Qed.

Lemma freqs_nth (half i : Z) :
  (0 <= i < half)%Z ->
  nth (Z.to_nat i) (freqs half) 0 = Rpower 10000 (- (IZR i / IZR half)).
Proof.
  intros Hi. unfold freqs.
  rewrite (nth_map_default _ _ 0%Z)
    by (unfold arange; rewrite length_map, length_seq; lia).
  rewrite arange_nth by exact Hi.
  f_equal. rewrite opp_IZR. unfold Rdiv. ring.
Qed.

(** C7.  One row of the embedding, before the feed-forward projection, is
    the cosines followed by the sines of the timestep times the
    frequencies [10000^(-i/half)], [0 <= i < half]; at timestep 0 every
    cosine entry is 1 and every sine entry is 0. *)
Theorem sinusoidal_embedding_values (t_embed_dim timestep i : Z) :
  (0 <= i < t_embed_dim / 2)%Z ->
  let half := (t_embed_dim / 2)%Z in
  let freq := Rpower 10000 (- (IZR i / IZR half)) in
  List.length (freqs half) = Z.to_nat half
  /\ nth (Z.to_nat i) (freqs half) 0 = freq
  /\ embedding_row t_embed_dim timestep
     = map (fun f => cos (IZR timestep * f)) (freqs half)
       ++ map (fun f => sin (IZR timestep * f)) (freqs half)
  /\ nth (Z.to_nat i) (embedding_row t_embed_dim timestep) 0
     = cos (IZR timestep * freq)
  /\ nth (Z.to_nat half + Z.to_nat i) (embedding_row t_embed_dim timestep) 0
     = sin (IZR timestep * freq)
  /\ nth (Z.to_nat i) (embedding_row t_embed_dim 0) 0 = 1
  /\ nth (Z.to_nat half + Z.to_nat i) (embedding_row t_embed_dim 0) 0 = 0.
Proof.
  intros Hi half freq.
  assert (Hlen : List.length (freqs half) = Z.to_nat half) by apply freqs_length.
  assert (Hf : nth (Z.to_nat i) (freqs half) 0 = freq) by (apply freqs_nth; exact Hi).
  assert (Hrow : forall t,
             embedding_row t_embed_dim t
             = map (fun f => cos (IZR t * f)) (freqs half)
               ++ map (fun f => sin (IZR t * f)) (freqs half)).
  { intros t. unfold embedding_row. fold half. now rewrite !map_map. }
  assert (Hcos : forall t,
             nth (Z.to_nat i) (embedding_row t_embed_dim t) 0 = cos (IZR t * freq)).
  { intros t. rewrite Hrow, app_nth1 by (rewrite length_map, Hlen; lia).
    rewrite (nth_map_default _ _ 0) by (rewrite Hlen; lia). now rewrite Hf. }
  assert (Hsin : forall t,
             nth (Z.to_nat half + Z.to_nat i) (embedding_row t_embed_dim t) 0
             = sin (IZR t * freq)).
  { intros t. rewrite Hrow, app_nth2 by (rewrite length_map, Hlen; lia).
    rewrite length_map, Hlen.
    replace (Z.to_nat half + Z.to_nat i - Z.to_nat half)%nat with (Z.to_nat i) by lia.
    rewrite (nth_map_default _ _ 0) by (rewrite Hlen; lia). now rewrite Hf. }
  repeat split; auto.
  - rewrite Hcos, Rmult_0_l. apply cos_0.
  - rewrite Hsin, Rmult_0_l. apply sin_0.
Qed.

Lemma sinusoidal_embedding_values_witness :
  nth 3 (embedding_row 320 0) 0 = 1
  /\ nth (160 + 3) (embedding_row 320 0) 0 = 0
  /\ nth 3 (embedding_row 320 500) 0 = cos (500 * Rpower 10000 (- (3 / 160))).
Proof.
  destruct (sinusoidal_embedding_values 320 0 3 ltac:(change (320 / 2)%Z with 160%Z; lia))
    as (_ & _ & _ & _ & _ & H1 & H0).
  destruct (sinusoidal_embedding_values 320 500 3
              ltac:(change (320 / 2)%Z with 160%Z; lia))
    as (_ & _ & _ & Hc & _).
  change (Z.to_nat 3) with 3%nat in *.
  change (Z.to_nat (320 / 2)) with 160%nat in *.
  change (320 / 2)%Z with 160%Z in Hc.
  repeat split; assumption.
Defined.
End SinusoidValues.

(** The row has the width the shape-level model gives it. *)
Lemma embedding_row_length (t_embed_dim timestep : Z) :
  Z.of_nat (List.length (TimeEmbeddingValues.embedding_row t_embed_dim timestep))
  = 2 * Z.max 0 (t_embed_dim / 2).
Proof.
  unfold TimeEmbeddingValues.embedding_row.
  rewrite length_app, !length_map.
  unfold TimeEmbeddingValues.freqs, TimeEmbeddingValues.arange.
  rewrite !length_map, length_seq. lia.
Qed.

(** ** The two toggles *)

Section WalkFacts.
Variables f g : UNet_AttentionBlock -> UNet_AttentionBlock.

Lemma walk_sequential_compose (s : TimeStepSequential) :
  walk_sequential f (walk_sequential g s) = walk_sequential (fun b => f (g b)) s.
Proof.
  unfold walk_sequential. rewrite map_map. apply map_ext.
  intros [r|t]; reflexivity.
Qed.

Lemma walk_unet_compose (m : UNet) :
  walk_unet f (walk_unet g m) = walk_unet (fun b => f (g b)) m.
Proof.
  unfold walk_unet, walk_encoder, walk_decoder.
  cbn [time_embedding encoder bottleneck decoder output_norm output_conv conv_in down up].
  f_equal.
  - f_equal. rewrite map_map. apply map_ext. intros d.
    unfold walk_down_stage. cbn [down_block downsample]. f_equal.
    rewrite map_map. apply map_ext. apply walk_sequential_compose.
  - apply walk_sequential_compose.
  - f_equal. rewrite map_map. apply map_ext. intros u.
    unfold walk_up_stage. cbn [up_block upsample]. f_equal.
    rewrite map_map. apply map_ext. apply walk_sequential_compose.
Qed.

Lemma walk_sequential_ext (s : TimeStepSequential) :
  (forall b, f b = g b) -> walk_sequential f s = walk_sequential g s.
Proof.
  intros H. unfold walk_sequential. apply map_ext.
  intros [r|t]; [reflexivity|]. unfold walk_layer, walk_transformer. now rewrite H.
Qed.

Lemma walk_unet_ext (m : UNet) :
  (forall b, f b = g b) -> walk_unet f m = walk_unet g m.
Proof.
  intros H. unfold walk_unet, walk_encoder, walk_decoder. f_equal.
  - f_equal. apply map_ext. intros d. unfold walk_down_stage. f_equal.
    apply map_ext. intros s. now apply walk_sequential_ext.
  - now apply walk_sequential_ext.
  - f_equal. apply map_ext. intros u. unfold walk_up_stage. f_equal.
    apply map_ext. intros s. now apply walk_sequential_ext.
Qed.

Lemma sequential_blocks_walk (s : TimeStepSequential) :
  sequential_blocks (walk_sequential f s) = map f (sequential_blocks s).
Proof.
  unfold sequential_blocks, walk_sequential.
  induction s as [|[r|t] s IH]; cbn [map flat_map app walk_layer walk_transformer
                                     transformer_block]; [reflexivity|exact IH|].
  now rewrite IH.
Qed.

Lemma flat_map_sequential_blocks_walk (l : list TimeStepSequential) :
  flat_map sequential_blocks (map (walk_sequential f) l)
  = map f (flat_map sequential_blocks l).
Proof.
  induction l as [|s l IH]; cbn [map flat_map]; [reflexivity|].
  now rewrite map_app, sequential_blocks_walk, IH.
Qed.

Lemma attention_blocks_walk (m : UNet) :
  attention_blocks (walk_unet f m) = map f (attention_blocks m).
Proof.
  unfold attention_blocks, walk_unet, walk_encoder, walk_decoder.
  cbn [encoder bottleneck decoder down up].
  rewrite !map_app, sequential_blocks_walk. f_equal; [|f_equal].
  - induction (down (encoder m)) as [|d l IH]; cbn [map flat_map]; [reflexivity|].
    rewrite map_app, IH. f_equal. unfold walk_down_stage. cbn [down_block].
    apply flat_map_sequential_blocks_walk.
  - induction (up (decoder m)) as [|u l IH]; cbn [map flat_map]; [reflexivity|].
    rewrite map_app, IH. f_equal. unfold walk_up_stage. cbn [up_block].
    apply flat_map_sequential_blocks_walk.
Qed.

(** A walk that leaves the forward pass of every transformer block as it
    was leaves the forward pass of the model as it was. *)
Hypothesis f_forward :
  forall b x cond, UNet_AttentionBlock_forward (f b) x cond
                   = UNet_AttentionBlock_forward b x cond.

Lemma walk_sequential_forward (s : TimeStepSequential) (x t_emb : Tensor)
      (cond : option Tensor) :
  TimeStepSequential_forward (walk_sequential f s) x t_emb cond
  = TimeStepSequential_forward s x t_emb cond.
Proof.
  revert x. unfold walk_sequential.
  induction s as [|l s IH]; intros x; cbn [map TimeStepSequential_forward];
    [reflexivity|].
  assert (Hl : Layer_forward (walk_layer f l) x t_emb cond
               = Layer_forward l x t_emb cond).
  { destruct l as [r|t]; [reflexivity|].
    cbn [walk_layer Layer_forward]. unfold UNet_TransformerEncoder_forward.
    cbn [walk_transformer te_groupnorm conv_input transformer_block conv_output].
    destruct (unpack4 (shape x)) as [[[[b c] h] w]|e]; cbn [bind]; [|reflexivity].
    destruct (GroupNorm_forward (te_groupnorm t) x); cbn [bind]; [|reflexivity].
    destruct (Conv2d_forward (conv_input t) a); cbn [bind]; [|reflexivity].
    destruct (view_infer a0 b c); cbn [bind]; [|reflexivity].
    destruct (transpose_last2 a1); cbn [bind]; [|reflexivity].
    now rewrite f_forward. }
  rewrite Hl. destruct (Layer_forward l x t_emb cond); cbn [bind]; [apply IH|reflexivity].
Qed.

Lemma walk_encoder_forward (e : UNet_Encoder) (x t_emb : Tensor) (cond : option Tensor) :
  UNet_Encoder_forward (walk_encoder f e) x t_emb cond
  = UNet_Encoder_forward e x t_emb cond.
Proof.
  unfold UNet_Encoder_forward, walk_encoder. cbn [conv_in down].
  destruct (Conv2d_forward (conv_in e) x) as [x0|err]; cbn [bind]; [|reflexivity].
  generalize [x0] as skips. generalize x0 as y.
  induction (down e) as [|d l IH]; intros y skips; cbn [map encoder_down_loop];
    [reflexivity|].
  assert (Hb : forall blk z sk,
             encoder_block_loop (map (walk_sequential f) blk) z t_emb cond sk
             = encoder_block_loop blk z t_emb cond sk).
  { induction blk as [|s blk IHb]; intros z sk; cbn [map encoder_block_loop];
      [reflexivity|].
    rewrite walk_sequential_forward.
    destruct (TimeStepSequential_forward s z t_emb cond); cbn [bind];
      [apply IHb | reflexivity]. }
  unfold walk_down_stage at 1 2 3. cbn [down_block downsample]. rewrite Hb.
  destruct (encoder_block_loop (down_block d) y t_emb cond skips) as [[z sk]|err];
    cbn [bind]; [|reflexivity].
  destruct (DownsampleModule_forward (downsample d) z); cbn [bind];
    [apply IH | reflexivity].
Qed.

Lemma walk_decoder_forward (d : UNet_Decoder) (x : Tensor) (skips : list Tensor)
      (t_emb : Tensor) (cond : option Tensor) :
  UNet_Decoder_forward (walk_decoder f d) x skips t_emb cond
  = UNet_Decoder_forward d x skips t_emb cond.
Proof.
  unfold UNet_Decoder_forward, walk_decoder. cbn [up].
  revert x skips.
  induction (up d) as [|u l IH]; intros x skips; cbn [map decoder_up_loop];
    [reflexivity|].
  assert (Hb : forall blk z sk,
             decoder_block_loop (map (walk_sequential f) blk) z sk t_emb cond
             = decoder_block_loop blk z sk t_emb cond).
  { induction blk as [|s blk IHb]; intros z sk; cbn [map decoder_block_loop];
      [reflexivity|].
    destruct (py_pop sk) as [[tmp sk']|err]; cbn [bind]; [|reflexivity].
    destruct (cat1 z tmp); cbn [bind]; [|reflexivity].
    rewrite walk_sequential_forward.
    destruct (TimeStepSequential_forward s a t_emb cond); cbn [bind];
      [apply IHb | reflexivity]. }
  assert (Hs : decoder_stage (walk_up_stage f u) x skips t_emb cond
               = decoder_stage u x skips t_emb cond).
  { unfold decoder_stage, walk_up_stage. cbn [up_block upsample]. now rewrite Hb. }
  rewrite Hs. destruct (decoder_stage u x skips t_emb cond) as [[z sk]|err];
    cbn [bind]; [apply IH | reflexivity].
Qed.

Lemma walk_unet_forward (m : UNet) (x timestep cond : Tensor) :
  UNet_forward (walk_unet f m) x timestep cond = UNet_forward m x timestep cond.
Proof.
  unfold UNet_forward, walk_unet, output_forward.
  cbn [time_embedding encoder bottleneck decoder output_norm output_conv].
  destruct (TimeEmbedding_forward (time_embedding m) timestep) as [t_emb|e];
    cbn [bind]; [|reflexivity].
  rewrite walk_encoder_forward.
  destruct (UNet_Encoder_forward (encoder m) x t_emb (Some cond)) as [[y skips]|e];
    cbn [bind]; [|reflexivity].
  rewrite walk_sequential_forward.
  destruct (TimeStepSequential_forward (bottleneck m) y t_emb (Some cond)) as [z|e];
    cbn [bind]; [|reflexivity].
  now rewrite walk_decoder_forward.
Qed.
End WalkFacts.

Lemma set_gradient_checkpointing_forward (v : bool) (b : UNet_AttentionBlock)
      (x : Tensor) (cond : option Tensor) :
  UNet_AttentionBlock_forward (set_gradient_checkpointing v b) x cond
  = UNet_AttentionBlock_forward b x cond.
Proof.
  unfold UNet_AttentionBlock_forward, checkpoint, ffn_forward.
  cbn [set_gradient_checkpointing layernorm_1 layernorm_2 layernorm_3 attn1 attn2
       ffn_gate ffn_out gradient_checkpointing].
  destruct v, (gradient_checkpointing b); reflexivity.
Qed.

Lemma set_use_flash_attention_forward (v : bool) (m : MultiheadSelfAttention)
      (x : Tensor) (cond : option Tensor) :
  MultiheadSelfAttention_forward (set_use_flash_attention v m) x cond
  = MultiheadSelfAttention_forward m x cond.
Proof.
  unfold MultiheadSelfAttention_forward, attention_accelerated, attention_reference.
  cbn [set_use_flash_attention attn_num_heads attn_embedding_dim attn_cond_dim
       lora_enabled use_flash_attention].
  destruct v, (use_flash_attention m); reflexivity.
Qed.

Lemma on_attention_units_flash_forward (v : bool) (b : UNet_AttentionBlock)
      (x : Tensor) (cond : option Tensor) :
  UNet_AttentionBlock_forward (on_attention_units (set_use_flash_attention v) b) x cond
  = UNet_AttentionBlock_forward b x cond.
Proof.
  unfold UNet_AttentionBlock_forward, checkpoint, ffn_forward.
  cbn [on_attention_units layernorm_1 layernorm_2 layernorm_3 attn1 attn2
       ffn_gate ffn_out gradient_checkpointing].
  destruct (LayerNorm_forward (layernorm_1 b) x) as [y1|e]; cbn [bind]; [|reflexivity].
  rewrite !set_use_flash_attention_forward.
  destruct (if gradient_checkpointing b
            then MultiheadSelfAttention_forward (attn1 b) y1 None
            else MultiheadSelfAttention_forward (attn1 b) y1 None) as [y2|e];
    cbn [bind]; [|reflexivity].
  destruct (iadd y2 x) as [y3|e]; cbn [bind]; [|reflexivity].
  destruct (LayerNorm_forward (layernorm_2 b) y3) as [y4|e]; cbn [bind]; [|reflexivity].
  rewrite !set_use_flash_attention_forward. reflexivity.
Qed.

(** C8 (amended).  [gradient_checkpointing_enabled] sets the recomputation
    flag of every transformer block to its argument and [enable_flash_attn]
    sets the flag of the accelerated path of every attention unit to true
    (it cannot clear it); both return nothing, calling either twice in a row
    leaves the model as calling it once does, and the forward pass of the
    model returns what it returned before the call. *)
Theorem toggles_are_idempotent_and_transparent
        (m : UNet) (enabled : bool) (x timestep cond : Tensor) :
  let m1 := snd (gradient_checkpointing_enabled m enabled) in
  let m2 := snd (enable_flash_attn m) in
  fst (gradient_checkpointing_enabled m enabled) = tt
  /\ fst (enable_flash_attn m) = tt
  /\ Forall (fun b => gradient_checkpointing b = enabled) (attention_blocks m1)
  /\ Forall (fun a => use_flash_attention a = true) (attention_units m2)
  /\ snd (gradient_checkpointing_enabled m1 enabled) = m1
  /\ snd (enable_flash_attn m2) = m2
  /\ UNet_forward m1 x timestep cond = UNet_forward m x timestep cond
  /\ UNet_forward m2 x timestep cond = UNet_forward m x timestep cond.
Proof.
  cbv zeta. unfold gradient_checkpointing_enabled, enable_flash_attn. cbn [fst snd].
  split; [reflexivity|]. split; [reflexivity|].
  split; [|split; [|split; [|split; [|split]]]].
  - rewrite attention_blocks_walk. apply Forall_forall. intros b Hb.
    apply in_map_iff in Hb. destruct Hb as (b0 & <- & _). reflexivity.
  - unfold attention_units. rewrite attention_blocks_walk.
    apply Forall_forall. intros a Ha.
    apply in_flat_map in Ha. destruct Ha as (b & Hb & Ha).
    apply in_map_iff in Hb. destruct Hb as (b0 & <- & _).
    cbn [on_attention_units attn1 attn2 In] in Ha.
    destruct Ha as [<-|[<-|[]]]; reflexivity.
  - rewrite walk_unet_compose. apply walk_unet_ext. intros b. reflexivity.
  - rewrite walk_unet_compose. apply walk_unet_ext. intros b. reflexivity.
  - apply walk_unet_forward. apply set_gradient_checkpointing_forward.
  - apply walk_unet_forward. apply on_attention_units_flash_forward.
Qed.

(** C8 as stated fails for the second toggle: it enables only.  Called on
    the default model with the accelerated path on, it leaves the path on in
    each of the 32 attention units. *)
Lemma flash_toggle_cannot_disable :
  map use_flash_attention (attention_units unet_768_flash) = repeat true 32
  /\ map use_flash_attention (attention_units (snd (enable_flash_attn unet_768_flash)))
     = repeat true 32.
Proof. split; vm_compute; reflexivity. Qed.

(** The first toggle does both: on, then off again. *)
Example checkpointing_toggle_on_off :
  map gradient_checkpointing
    (attention_blocks (snd (gradient_checkpointing_enabled unet_768 true)))
  = repeat true 16
  /\ map gradient_checkpointing
       (attention_blocks
          (snd (gradient_checkpointing_enabled
                  (snd (gradient_checkpointing_enabled unet_768 true)) false)))
     = repeat false 16.
Proof. split; vm_compute; reflexivity. Qed.

(** ** utils/datasets.py: scale_img *)

Section ScaleImg.
Import Datasets.
Local Open Scope Q_scope.

Lemma store_length (h : Heap) (x : ref) (v : list Q) :
  List.length (store h x v) = List.length h.
Proof.
  revert x. induction h as [|c h IH]; intros [|x]; cbn [store List.length]; auto.
Qed.

Lemma store_same (h : Heap) (x : ref) (v : list Q) :
  (x < List.length h)%nat -> nth_error (store h x v) x = Some v.
Proof.
  revert x. induction h as [|c h IH]; intros [|x] Hx; cbn [store nth_error List.length] in *;
    try lia; [reflexivity|]. apply IH. lia.
Qed.

Lemma store_other (h : Heap) (x y : ref) (v : list Q) :
  y <> x -> nth_error (store h x v) y = nth_error h y.
Proof.
  revert x y. induction h as [|c h IH]; intros [|x] [|y] Hne;
    cbn [store nth_error]; try reflexivity; try congruence.
  apply IH. congruence.
Qed.

Lemma inplace_run (f : Q -> Q) (h : Heap) (x : ref) (v : list Q) :
  nth_error h x = Some v ->
  inplace f x h = (Ok tt, store h x (map f v))
  /\ nth_error (store h x (map f v)) x = Some (map f v).
Proof.
  intros E. unfold inplace. rewrite E. split; [reflexivity|].
  apply store_same. apply nth_error_Some. congruence.
Qed.

(** C9.  A call of [scale_img] with [clamp=False] that returns (the old
    range is not empty) returns the very object it was given, and that
    object now holds the rescaled values in place of the ones it held; no
    object is created and no other object changes. *)
Theorem scale_img_mutates_its_input
        (h : Heap) (x : ref) (v : list Q) (old_range new_range : Q * Q) :
  nth_error h x = Some v ->
  ~ snd old_range - fst old_range == 0 ->
  exists h',
    scale_img x old_range new_range false h = (Ok x, h')
    /\ nth_error h' x = Some (map (rescaled old_range new_range) v)
    /\ List.length h' = List.length h
    /\ (forall y, y <> x -> nth_error h' y = nth_error h y).
Proof.
  intros E Hne. destruct old_range as [old_min old_max].
  destruct new_range as [new_min new_max]. cbn [fst snd] in *.
  unfold scale_img, bindM, lift, ret, py_truediv.
  destruct (inplace_run (fun v => v - old_min) h x v E) as (R1 & E1). rewrite R1.
  destruct (Qeq_bool (old_max - old_min) 0) eqn:Ez;
    [apply Qeq_bool_iff in Ez; contradiction|].
  set (k := (new_max - new_min) / (old_max - old_min)).
  destruct (inplace_run (fun v => v * k) _ x _ E1) as (R2 & E2). rewrite R2.
  destruct (inplace_run (fun v => v + new_min) _ x _ E2) as (R3 & E3). rewrite R3.
  eexists. split; [reflexivity|]. split; [|split].
  - rewrite E3, !map_map. reflexivity.
  - now rewrite !store_length.
  - intros y Hy. now rewrite !store_other by exact Hy.
Qed.

Lemma scale_img_mutates_its_input_witness :
  exists h',
    scale_img 1%nat (0, 255) (-1, 1) false [[7]; [0; 255; 51]] = (Ok 1%nat, h')
    /\ nth_error h' 1%nat = Some (map (rescaled (0, 255) (-1, 1)) [0; 255; 51])
    /\ List.length h' = 2%nat
    /\ (forall y, y <> 1%nat -> nth_error h' y = nth_error [[7]; [0; 255; 51]] y).
Proof.
  apply (scale_img_mutates_its_input [[7]; [0; 255; 51]] 1%nat [0; 255; 51]
           (0, 255) (-1, 1)); [reflexivity | discriminate].
Defined.

(** The pixel values 0, 255 and 51 of the caller's tensor are gone after
    the call: it holds -1, 1 and -3/5. *)
Example scale_img_pixels :
  match scale_img 0%nat (0, 255) (-1, 1) false [[0; 255; 51]] with
  | (Ok r, h') => Some (r, map (map Qred) h')
  | (Raise _, _) => None
  end = Some (0%nat, [[-1; 1; -3 # 5]]).
Proof. vm_compute. reflexivity. Qed.

(** With [clamp=True] the result is a new object and the input is still
    overwritten. *)
Example scale_img_clamped :
  match scale_img 0%nat (0, 255) (-1, 1) true [[0; 255; 510]] with
  | (Ok r, h') => Some (r, map (map Qred) h')
  | (Raise _, _) => None
  end = Some (1%nat, [[-1; 1; 3]; [-1; 1; 1]]).
Proof. vm_compute. reflexivity. Qed.
End ScaleImg.

(** ** utils/datasets.py: create_dataloaders *)

Section CreateDataloaders.
Import Datasets.

Lemma py_slice_prefix {A : Type} (l : list A) (k : Z) :
  0 <= k <= len l -> py_slice l (k - k) k = firstn (Z.to_nat k) l.
Proof.
  intros Hk. unfold py_slice, slice_index. rewrite Z.sub_diag.
  change (0 <? 0) with false. cbv iota.
  destruct (Z.ltb_spec k 0); [exfalso; lia|].
  rewrite (Z.min_l k) by lia. rewrite (Z.min_l 0) by lia.
  cbn [Z.to_nat skipn]. now rewrite Z.sub_0_r.
Qed.

Lemma py_slice_suffix {A : Type} (l : list A) (k : Z) :
  0 <= k <= len l -> py_slice l (len l - (len l - k)) (len l) = skipn (Z.to_nat k) l.
Proof.
  intros Hk. unfold py_slice, slice_index.
  replace (len l - (len l - k)) with k by lia.
  destruct (Z.ltb_spec k 0); [exfalso; lia|].
  destruct (Z.ltb_spec (len l) 0); [exfalso; lia|].
  rewrite (Z.min_l k) by lia. rewrite Z.min_id.
  apply firstn_all2. rewrite length_skipn. unfold len. lia.
Qed.

Lemma py_int_fraction (q : Q) (n : Z) :
  (0 <= q)%Q -> (q <= 1)%Q -> 0 <= n ->
  0 <= py_int (q * inject_Z n) <= n.
Proof.
  destruct q as [a b]. unfold Qle, py_int. cbn [Qnum Qden Qmult inject_Z].
  intros H0 H1 Hn. rewrite Z.mul_1_r in H0, H1. rewrite Z.mul_1_l in H1.
  rewrite Pos.mul_1_r.
  assert (0 <= a) by lia.
  rewrite Z.quot_div_nonneg by nia. split.
  - apply Z.div_pos; nia.
  - apply Z.div_le_upper_bound; nia.
Qed.

Lemma half_half_not_nodup {A : Type} (l : list A) :
  NoDup (l ++ l) -> l = [].
Proof.
  destruct l as [|a l]; [reflexivity|]. intros H. exfalso.
  cbn [app] in H. inversion H as [|? ? Hn _]. apply Hn.
  apply in_or_app. right. now left.
Qed.

(** C10.  When [create_dataloaders] returns for a split fraction between 0
    and 1, both loaders hold the same training subset, the first
    [int(split * len)] indices of the permutation drawn, the first with
    shuffling and the second without; the test subset, the remaining
    [len - train_size] indices, is in neither of them. *)
Theorem create_dataloaders_share_train_subset
        (fs : string -> DirContents) (randperm : Z -> list nat)
        (data_dir : string) (train_test_split : Q) (batch_size num_workers : Z)
        (img_size : Z * Z) (train_dataloader test_dataloader : DataLoader) :
  (0 <= train_test_split)%Q -> (train_test_split <= 1)%Q ->
  (forall n, 0 <= n -> Permutation (randperm n) (seq 0 (Z.to_nat n))) ->
  create_dataloaders fs randperm data_dir train_test_split batch_size num_workers img_size
  = Ok (train_dataloader, test_dataloader) ->
  exists dataset train_dataset test_dataset,
    let n := dataset_len dataset in
    let train_size := py_int (train_test_split * inject_Z n) in
    DreamboothDataset_init (fs data_dir) img_size = Ok dataset
    /\ random_split randperm dataset [train_size; n - train_size]
       = Ok [train_dataset; test_dataset]
    /\ dl_dataset train_dataloader = train_dataset
    /\ dl_dataset test_dataloader = train_dataset
    /\ dl_shuffle train_dataloader = true
    /\ dl_shuffle test_dataloader = false
    /\ len (indices train_dataset) = train_size
    /\ len (indices test_dataset) = n - train_size
    /\ Permutation (indices train_dataset ++ indices test_dataset) (seq 0 (Z.to_nat n))
    /\ (0 < n -> dl_dataset train_dataloader <> test_dataset
                 /\ dl_dataset test_dataloader <> test_dataset).
Proof.
  intros H0 H1 Hperm H. unfold create_dataloaders in H.
  apply bind_Ok_inv in H. destruct H as (dataset & Hd & H).
  unfold train_size_of in H.
  set (n := dataset_len dataset) in *.
  set (k := py_int (train_test_split * inject_Z n)) in *.
  assert (Hn : 0 <= n) by (unfold n, dataset_len, len; lia).
  assert (Hk : 0 <= k <= n) by (apply py_int_fraction; assumption).
  apply bind_Ok_inv in H. destruct H as (subsets & Hs & H).
  assert (Hsplit : random_split randperm dataset [k; n - k]
                   = Ok [mkSubset dataset (firstn (Z.to_nat k) (randperm n));
                         mkSubset dataset (skipn (Z.to_nat k) (randperm n))]).
  { unfold random_split. cbn [fold_right].
    replace (k + (n - k + 0)) with n by lia. fold n. rewrite Z.eqb_refl.
    cbn [negb accumulate combine map].
    assert (Hlen : len (randperm n) = n).
    { unfold len. rewrite (Permutation_length (Hperm n Hn)), length_seq. lia. }
    assert (P1 : py_slice (randperm n) (k - k) k = firstn (Z.to_nat k) (randperm n))
      by (apply py_slice_prefix; lia).
    assert (P2 : py_slice (randperm n) (n - (n - k)) n
                 = skipn (Z.to_nat k) (randperm n)).
    { pose proof (py_slice_suffix (randperm n) k) as P. rewrite Hlen in P.
      apply P. lia. }
    rewrite !Z.add_0_l. replace (k + (n - k)) with n by lia.
    rewrite P1, P2. reflexivity. }
  rewrite Hsplit in Hs. injection Hs as <-.
  apply bind_Ok_inv in H. destruct H as (dl1 & Hdl1 & H).
  apply bind_Ok_inv in H. destruct H as (dl2 & Hdl2 & H).
  injection H as <- <-.
  unfold DataLoader_init in Hdl1, Hdl2.
  destruct (num_workers <? 0); [discriminate|].
  cbn [andb] in Hdl1, Hdl2.
  destruct (len (indices (mkSubset dataset (firstn (Z.to_nat k) (randperm n)))) <=? 0);
    [discriminate|].
  destruct (batch_size <=? 0); [discriminate|].
  injection Hdl1 as <-. injection Hdl2 as <-.
  assert (Hlenp : List.length (randperm n) = Z.to_nat n)
    by (rewrite (Permutation_length (Hperm n Hn)); apply length_seq).
  exists dataset, (mkSubset dataset (firstn (Z.to_nat k) (randperm n))),
    (mkSubset dataset (skipn (Z.to_nat k) (randperm n))).
  cbv zeta. fold n. fold k. cbn [dl_dataset dl_shuffle indices].
  repeat split; auto.
  - unfold len. rewrite length_firstn, Hlenp. lia.
  - unfold len. rewrite length_skipn, Hlenp. lia.
  - rewrite firstn_skipn. apply Hperm, Hn.
  - intros E. injection E as E.
    assert (Hnd : NoDup (randperm n)).
    { apply (Permutation_NoDup (Permutation_sym (Hperm n Hn))). apply seq_NoDup. }
    rewrite <- (firstn_skipn (Z.to_nat k) (randperm n)) in Hnd, Hlenp.
    rewrite <- E in Hnd, Hlenp. apply half_half_not_nodup in Hnd.
    rewrite Hnd in Hlenp. cbn in Hlenp. lia.
  - intros E. injection E as E.
    assert (Hnd : NoDup (randperm n)).
    { apply (Permutation_NoDup (Permutation_sym (Hperm n Hn))). apply seq_NoDup. }
    rewrite <- (firstn_skipn (Z.to_nat k) (randperm n)) in Hnd, Hlenp.
    rewrite <- E in Hnd, Hlenp. apply half_half_not_nodup in Hnd.
    rewrite Hnd in Hlenp. cbn in Hlenp. lia.
Qed.

Lemma example_randperm_permutation (n : Z) :
  0 <= n -> Permutation (example_randperm n) (seq 0 (Z.to_nat n)).
Proof.
  intros _. unfold example_randperm. apply Permutation_sym, Permutation_rev.
Qed.

Lemma create_dataloaders_share_train_subset_witness :
  dl_dataset (fst example_loaders) = dl_dataset (snd example_loaders)
  /\ indices (dl_dataset (fst example_loaders)) = [3; 2]%nat
  /\ dl_shuffle (fst example_loaders) = true
  /\ dl_shuffle (snd example_loaders) = false.
Proof.
  destruct (create_dataloaders_share_train_subset example_dir example_randperm "data"
              (1 # 2) 2 0 (512, 512) (fst example_loaders) (snd example_loaders))
    as (dataset & train & test & _ & _ & E1 & E2 & S1 & S2 & _);
    [discriminate | discriminate | exact example_randperm_permutation | reflexivity |].
  split; [congruence|]. split; [reflexivity|]. split; [exact S1 | exact S2].
Defined.

(** Four images, half of them for training: both loaders hold the indices
    3 and 2; the indices 1 and 0 of the test subset are in neither. *)
Example example_loaders_indices :
  Datasets.create_dataloaders example_dir example_randperm "data" (1 # 2) 2 0 (512, 512)
  = Ok example_loaders
  /\ indices (dl_dataset (fst example_loaders)) = [3; 2]%nat
  /\ indices (dl_dataset (snd example_loaders)) = [3; 2]%nat.
Proof. repeat split. Qed.
End CreateDataloaders.

(* ====================================================================== *)
(** * Further properties of the blocks *)
(* ====================================================================== *)

(** ** When a block returns *)

Lemma is_ok_returns {A : Type} (r : result A) (P : A -> Prop) :
  returns r P -> is_ok r = true.
Proof. destruct r; simpl; [reflexivity | contradiction]. Qed.

Lemma is_ok_bind_raise {A B : Type} (r : result A) (k : A -> result B) :
  is_ok r = false -> is_ok (bind r k) = false.
Proof. destruct r; simpl; [discriminate | reflexivity]. Qed.

(** X1.  The gated unit (activation_fn.py, GeGELU): it returns exactly when the
    last size of its input is the width it was built for, and the result has
    the output width in its place. *)
Theorem GeGELU_returns_iff_width_fits
        (in_channels out_channels : Z) (g : GeGELU) (x : Tensor) (s : list Z) (d : Z) :
  GeGELU_init in_channels out_channels = Ok g ->
  0 < out_channels ->
  shape x = s ++ [d] ->
  (is_ok (GeGELU_forward g x) = true <-> d = in_channels)
  /\ (d = in_channels ->
      shape_of (GeGELU_forward g x) = Some (s ++ [out_channels])).
Proof.
  intros Hi Ho E. apply GeGELU_init_inv in Hi. subst g.
  assert (Hfit : d = in_channels ->
                 returns (GeGELU_forward (mkGeGELU (mkLinear in_channels (out_channels * 2))) x)
                   (has_shape (s ++ [out_channels]))).
  { intros ->. now apply GeGELU_forward_returns. }
  split; [split|].
  - intros Hok. destruct (Z.eq_dec d in_channels) as [|Hne]; [assumption|].
    exfalso. unfold GeGELU_forward, Linear_forward in Hok. cbn [proj in_features] in Hok.
    rewrite E, shape_last_snoc in Hok.
    destruct (Z.eqb_spec d in_channels); [contradiction | discriminate Hok].
  - intros Hd. exact (is_ok_returns _ _ (Hfit Hd)).
  - intros Hd. specialize (Hfit Hd).
    destruct (GeGELU_forward _ x); cbn [returns shape_of] in *; [|contradiction].
    now rewrite Hfit.
Qed.

Lemma GeGELU_returns_iff_width_fits_witness :
  (is_ok (GeGELU_forward (ffn_gate attention_block_320) (input "x" [1; 4096; 320])) = true
   <-> 320 = 320)
  /\ (320 = 320 ->
      shape_of (GeGELU_forward (ffn_gate attention_block_320) (input "x" [1; 4096; 320]))
      = Some ([1; 4096] ++ [320 * 4])).
Proof.
  apply (GeGELU_returns_iff_width_fits 320 (320 * 4) (ffn_gate attention_block_320)
           (input "x" [1; 4096; 320]) [1; 4096] 320); [reflexivity | lia | reflexivity].
Defined.

(** ** The time embedding needs an even width *)

Lemma get_time_embedding_last (te : TimeEmbedding) (timestep e : Tensor) :
  _get_time_embedding te timestep = Ok e ->
  exists d, shape_last (shape e) = Ok (d + d).
Proof.
  unfold _get_time_embedding. cbv zeta. intros H. inv_init H.
  unfold cat_last, pointwise in H. cbn [shape] in H.
  destruct (rev (shape a1)) as [|d r] eqn:Er; [discriminate H|].
  rewrite list_eqb_refl in H. injection H as <-.
  exists d. cbn [shape rev]. apply shape_last_snoc.
Qed.

(** X2.  TimeEmbedding.forward on a batch of [n] timesteps returns exactly when
    the embedding width is even (the cosine and the sine half together are
    [2 * (t_embed_dim // 2)] wide, and the first linear layer expects
    [t_embed_dim]); the result is [n, 4 * t_embed_dim]. *)
Theorem TimeEmbedding_returns_iff_even_width
        (t_embed_dim : Z) (te : TimeEmbedding) (timestep : Tensor) (n : Z) :
  TimeEmbedding_init t_embed_dim = Ok te ->
  shape timestep = [n] ->
  (is_ok (TimeEmbedding_forward te timestep) = true <-> t_embed_dim mod 2 = 0)
  /\ (t_embed_dim mod 2 = 0 ->
      shape_of (TimeEmbedding_forward te timestep) = Some [n; t_embed_dim * 4]).
Proof.
  intros Hi E.
  assert (Hnn : 0 <= t_embed_dim).
  { unfold TimeEmbedding_init in Hi. inv_init Hi.
    unfold Linear_init in Ha. inv_init Ha.
    eapply check_size_inv; eassumption. }
  assert (Hfit : t_embed_dim mod 2 = 0 ->
                 returns (TimeEmbedding_forward te timestep)
                   (has_shape [n; t_embed_dim * 4])).
  { intros Hev.
    apply (TimeEmbedding_forward_returns t_embed_dim (t_embed_dim / 2) te timestep n Hi);
      [apply Z.div_exact; lia | apply Z.div_pos; lia | exact E]. }
  split; [split|].
  - intros Hok. destruct (Z.eq_dec (t_embed_dim mod 2) 0) as [|Hodd]; [assumption|].
    exfalso. unfold TimeEmbedding_forward in Hok.
    destruct (_get_time_embedding te timestep) as [e|] eqn:Ee; [|discriminate Hok].
    destruct (get_time_embedding_last _ _ _ Ee) as (d & Hd).
    unfold TimeEmbedding_init in Hi. inv_init Hi.
    apply Linear_init_inv in Ha, Ha0. injection Hi as <-. subst.
    cbn [bind te_linear_1] in Hok. unfold Linear_forward at 1 in Hok.
    rewrite Hd in Hok. cbn [in_features] in Hok.
    destruct (Z.eqb_spec (d + d) t_embed_dim) as [Heq|]; [|discriminate Hok].
    apply Hodd. rewrite <- Heq. replace (d + d) with (d * 2) by lia.
    apply Z.mod_mul. lia.
  - intros Hev. exact (is_ok_returns _ _ (Hfit Hev)).
  - intros Hev. specialize (Hfit Hev).
    destruct (TimeEmbedding_forward te timestep); cbn [returns shape_of] in *;
      [|contradiction]. now rewrite Hfit.
Qed.

Lemma TimeEmbedding_returns_iff_even_width_witness :
  (is_ok (TimeEmbedding_forward (time_embedding unet_768) (input "timestep" [2])) = true
   <-> 320 mod 2 = 0)
  /\ (320 mod 2 = 0 ->
      shape_of (TimeEmbedding_forward (time_embedding unet_768) (input "timestep" [2]))
      = Some [2; 320 * 4]).
Proof.
  apply (TimeEmbedding_returns_iff_even_width 320 (time_embedding unet_768)
           (input "timestep" [2]) 2); reflexivity.
Defined.

(** A width of 321 builds and then fails on every batch of timesteps. *)
Example odd_time_embedding_fails :
  match TimeEmbedding_init 321 with
  | Ok te => Some (is_ok (TimeEmbedding_forward te (input "timestep" [2])))
  | Raise _ => None
  end = Some false.
Proof. vm_compute. reflexivity. Qed.

(** ** The residual block *)

Lemma iadd_time_fails (x t : Tensor) (b c h w n : Z) :
  shape x = [b; c; h; w] -> shape t = [n; c; 1; 1] ->
  n <> b -> n <> 1 -> is_ok (iadd x t) = false.
Proof.
  intros Ex Et Hb H1. unfold iadd, broadcast_shapes. rewrite Ex, Et.
  cbn [rev app broadcast_rev].
  repeat match goal with
         | |- context [Z.eqb ?p ?q] => destruct (Z.eqb_spec p q)
         end;
    cbn [option_map rev app list_eqb andb is_ok]; try reflexivity; try lia;
    repeat match goal with
           | |- context [Z.eqb ?p ?q] => destruct (Z.eqb_spec p q)
           end;
    cbn [andb is_ok]; try reflexivity; lia.
Qed.

(** What a residual block that returns tells about its inputs. *)
Lemma UNet_ResBlock_forward_ok_inv
      (cin cout td : Z) (r : UNet_ResBlock) (x t_emb : Tensor) (b c h w n k : Z) :
  UNet_ResBlock_init cin cout td = Ok r ->
  1 <= h -> 1 <= w ->
  shape x = [b; c; h; w] ->
  shape t_emb = [n; k] ->
  is_ok (UNet_ResBlock_forward r x t_emb) = true ->
  c = cin /\ k = td /\ (n = b \/ n = 1).
Proof.
  intros Hi Hh Hw E Et Hok.
  unfold UNet_ResBlock_init in Hi. inv_init Hi.
  apply GroupNorm_init_inv in Ha, Ha1. apply Conv2d_init_inv in Ha0, Ha2.
  apply Linear_init_inv in Ha3. injection Hi as <-. subst.
  unfold UNet_ResBlock_forward in Hok.
  cbn [groupnorm_1 conv_1 groupnorm_2 conv_2 t_embed proj_input] in Hok.
  unfold GroupNorm_forward at 1 in Hok. rewrite E in Hok. cbn [num_channels] in Hok.
  destruct (Z.eqb_spec c cin) as [->|]; [|discriminate Hok]. cbn [bind] in Hok.
  match type of Hok with
  | context [Conv2d_forward ?m ?y] =>
      destruct (returns_Ok _ _ (Conv2d_same cin cout 3 1 y b h w
                                  (or_introl (conj eq_refl eq_refl)) eq_refl Hh Hw))
        as (y1 & E1 & S1)
  end.
  rewrite E1 in Hok. cbn [bind] in Hok.
  unfold Linear_forward in Hok. cbn [silu pointwise shape in_features] in Hok.
  rewrite Et in Hok. cbn [shape_last rev app] in Hok.
  destruct (Z.eqb_spec k td) as [->|]; [|discriminate Hok].
  cbn [bind set_last rev app out_features index_none2 shape term] in Hok.
  split; [reflexivity|]. split; [reflexivity|].
  destruct (Z.eq_dec n b) as [|Hnb]; [now left|].
  destruct (Z.eq_dec n 1) as [|Hn1]; [now right|]. exfalso.
  match type of Hok with
  | context [iadd y1 ?t4] =>
      pose proof (iadd_time_fails y1 t4 b cout h w n S1 eq_refl Hnb Hn1) as Hf;
      destruct (iadd y1 t4); [discriminate Hf | discriminate Hok]
  end.
Qed.



(** ** The spatial transformer encoder *)



Lemma raises_only_bind {A B : Type} (P : exn -> Prop) (r : result A) (k : A -> result B) :
  raises_only P r -> (forall a, raises_only P (k a)) -> raises_only P (bind r k).
Proof. destruct r; cbn [bind raises_only]; auto. Qed.

Lemma check_size_not_heads (n : Z) :
  raises_only (fun e => e <> heads_error) (check_size n).
Proof.
  unfold check_size, heads_error. destruct (n <? 0); cbn [raises_only];
    [discriminate | exact I].
Qed.

Ltac not_heads :=
  repeat match goal with
         | |- raises_only _ (bind _ _) => apply raises_only_bind; [|intros ?]
         | |- raises_only _ (check_size _) => apply check_size_not_heads
         | |- raises_only _ (Ok _) => exact I
         | |- raises_only _ (Raise _) => cbn [raises_only]; unfold heads_error; discriminate
         | |- raises_only _ (if ?c then _ else _) => destruct c
         end.

Lemma py_mod_multiple (e nh : Z) : nh <> 0 -> py_mod (e * nh) nh = Ok 0.
Proof.
  intros Hn. unfold py_mod. destruct (Z.eqb_spec nh 0); [contradiction|].
  now rewrite Z.mod_mul.
Qed.

(** X5.  UNet_TransformerEncoder.__init__ hands [embedding_dim * num_heads] to
    the attention block, so the check of the block on the head count never
    fails; the constructor raises the error of [GroupNorm] when the channel
    count is not a multiple of 32, and otherwise builds an encoder whose
    block has [embedding_dim] as its head width. *)
Theorem UNet_TransformerEncoder_init_errors
        (nh e cd : Z) (use_lora : bool) :
  nh <> 0 ->
  UNet_TransformerEncoder_init nh e cd use_lora <> Raise heads_error
  /\ ((e * nh) mod 32 <> 0 ->
      UNet_TransformerEncoder_init nh e cd use_lora
      = Raise (ValueError "num_channels must be divisible by num_groups"))
  /\ ((e * nh) mod 32 = 0 -> 0 <= e * nh -> 0 <= cd ->
      exists te, UNet_TransformerEncoder_init nh e cd use_lora = Ok te
                 /\ head_dim (transformer_block te) = e).
Proof.
  intros Hn. split; [|split].
  - assert (H : raises_only (fun e => e <> heads_error)
                  (UNet_TransformerEncoder_init nh e cd use_lora)).
    { unfold UNet_TransformerEncoder_init, GroupNorm_init, Conv2d_init,
        UNet_AttentionBlock_init, LayerNorm_init, MultiheadSelfAttention_init,
        GeGELU_init, Linear_init, py_floordiv.
      cbv zeta. rewrite !(py_mod_multiple e nh Hn).
      unfold py_mod. change (32 =? 0) with false. cbv iota.
      destruct (Z.eqb_spec nh 0); [contradiction|]. cbn [bind].
      change (0 =? 0) with true. cbn [negb].
      not_heads. }
    intros E. rewrite E in H. cbn [raises_only] in H. now apply H.
  - intros Hm. unfold UNet_TransformerEncoder_init, GroupNorm_init, py_mod.
    change (32 =? 0) with false. cbv iota zeta. cbn [bind].
    destruct (Z.eqb_spec ((e * nh) mod 32) 0); [contradiction | reflexivity].
  - intros Hm Hc Hcd.
    destruct (UNet_AttentionBlock_init_divisible nh (e * nh) cd use_lora Hn Hc Hcd
                (Z.mod_mul e nh Hn)) as (blk & Hblk & Hhd).
    unfold UNet_TransformerEncoder_init, GroupNorm_init, Conv2d_init, py_mod.
    change (32 =? 0) with false. cbv iota zeta. cbn [bind]. rewrite Hm.
    change (0 =? 0) with true. cbn [negb].
    rewrite !(check_size_ok (e * nh)) by exact Hc. cbn [bind].
    rewrite Hblk. cbn [bind]. eexists. split; [reflexivity|].
    cbn [transformer_block]. rewrite Hhd. now apply Z.div_mul.
Qed.

Lemma UNet_TransformerEncoder_init_errors_witness :
  UNet_TransformerEncoder_init 8 40 768 false <> Raise heads_error
  /\ ((40 * 8) mod 32 <> 0 ->
      UNet_TransformerEncoder_init 8 40 768 false
      = Raise (ValueError "num_channels must be divisible by num_groups"))
  /\ ((40 * 8) mod 32 = 0 -> 0 <= 40 * 8 -> 0 <= 768 ->
      exists te, UNet_TransformerEncoder_init 8 40 768 false = Ok te
                 /\ head_dim (transformer_block te) = 40).
Proof.
  apply (UNet_TransformerEncoder_init_errors 8 40 768 false). discriminate.
Defined.

(** ** TimeStepSequential *)

(** X6.  A sequence of layers run on [x] is its first part run on [x] and its
    second part run on the result; an exception of the first part ends the
    run. *)
Theorem TimeStepSequential_forward_app
        (l1 l2 : TimeStepSequential) (x t_emb : Tensor) (cond : option Tensor) :
  TimeStepSequential_forward (l1 ++ l2) x t_emb cond
  = (y <- TimeStepSequential_forward l1 x t_emb cond ;;
     TimeStepSequential_forward l2 y t_emb cond).
Proof.
  revert x. induction l1 as [|l l1 IH]; intros x;
    cbn [app TimeStepSequential_forward bind]; [reflexivity|].
  destruct (Layer_forward l x t_emb cond); cbn [bind]; [apply IH | reflexivity].
Qed.

(** ** Values: QuickGELU and the sinusoidal embedding *)

Section MoreValues.
Import TimeEmbeddingValues ActivationValues.
Local Open Scope R_scope.



Lemma ln_10000_pos : 0 < ln 10000.
Proof. rewrite <- ln_1. apply ln_increasing; lra. Qed.

Lemma Rpower_10000_bounds (y : R) : y <= 0 -> 0 < Rpower 10000 y <= 1.
Proof.
  intros Hy. unfold Rpower. split; [apply exp_pos|].
  rewrite <- exp_0. pose proof ln_10000_pos.
  destruct (Req_dec (y * ln 10000) 0) as [->|Hne]; [lra|].
  left. apply exp_increasing. nra.
Qed.

(** X8.  The frequencies of the embedding are geometrically spaced: the first
    is 1, each next one is the one before times [10000^(-1/half)], and all
    of them lie in (0, 1]. *)
Theorem frequencies_are_geometric (half i : Z) :
  (0 <= i < half)%Z ->
  nth 0 (freqs half) 0 = 1
  /\ 0 < nth (Z.to_nat i) (freqs half) 0 <= 1
  /\ ((i + 1 < half)%Z ->
      nth (Z.to_nat (i + 1)) (freqs half) 0
      = nth (Z.to_nat i) (freqs half) 0 * Rpower 10000 (- (1 / IZR half))).
Proof.
  intros Hi.
  assert (Hh : 0 < IZR half) by (apply IZR_lt; lia).
  split; [|split].
  - change 0%nat with (Z.to_nat 0). rewrite freqs_nth by lia.
    unfold Rdiv. rewrite Rmult_0_l, Ropp_0. apply Rpower_O. lra.
  - rewrite freqs_nth by exact Hi. apply Rpower_10000_bounds.
    assert (0 <= IZR i) by (apply IZR_le; lia).
    assert (0 <= IZR i / IZR half)
      by (unfold Rdiv; apply Rmult_le_pos; [assumption|];
          left; apply Rinv_0_lt_compat; exact Hh).
    lra.
  - intros Hi1. rewrite !freqs_nth by lia. rewrite <- Rpower_plus. f_equal.
    rewrite plus_IZR. field. lra.
Qed.

Lemma frequencies_are_geometric_witness :
  nth 0 (freqs 160) 0 = 1
  /\ 0 < nth 3 (freqs 160) 0 <= 1
  /\ nth 4 (freqs 160) 0 = nth 3 (freqs 160) 0 * Rpower 10000 (- (1 / 160)).
Proof.
  destruct (frequencies_are_geometric 160 3 ltac:(lia)) as (H0 & Hb & Hr).
  split; [exact H0|]. split; [exact Hb|]. apply Hr. lia.
Defined.

Lemma embedding_row_unfold (t_embed_dim timestep : Z) :
  embedding_row t_embed_dim timestep
  = map (fun f => cos (IZR timestep * f)) (freqs (t_embed_dim / 2))
    ++ map (fun f => sin (IZR timestep * f)) (freqs (t_embed_dim / 2)).
Proof. unfold embedding_row. cbv zeta. now rewrite !map_map. Qed.

(** X9.  Every entry of a row of the embedding lies in [-1, 1], the row is
    [2 * (t_embed_dim // 2)] wide, and the cosine entry and the sine entry
    of one frequency lie on the unit circle. *)
Theorem embedding_row_on_unit_circle (t_embed_dim timestep i : Z) :
  (0 <= i < t_embed_dim / 2)%Z ->
  let half := Z.to_nat (t_embed_dim / 2) in
  let row := embedding_row t_embed_dim timestep in
  List.length row = (2 * half)%nat
  /\ Forall (fun v => -1 <= v <= 1) row
  /\ Rsqr (nth (Z.to_nat i) row 0) + Rsqr (nth (half + Z.to_nat i) row 0) = 1.
Proof.
  intros Hi half row. unfold row. rewrite embedding_row_unfold.
  pose proof (freqs_length (t_embed_dim / 2)) as Hlen. fold half in Hlen.
  split; [|split].
  - rewrite length_app, !length_map, Hlen. lia.
  - apply Forall_app. split; apply Forall_forall; intros v Hv;
      apply in_map_iff in Hv; destruct Hv as (f & <- & _).
    + apply COS_bound.
    + apply SIN_bound.
  - rewrite app_nth1 by (rewrite length_map, Hlen; unfold half; lia).
    rewrite app_nth2 by (rewrite length_map, Hlen; lia).
    rewrite length_map, Hlen.
    replace (half + Z.to_nat i - half)%nat with (Z.to_nat i) by lia.
    rewrite !(nth_map_default _ _ 0) by (rewrite Hlen; unfold half; lia).
    rewrite Rplus_comm. apply sin2_cos2.
Qed.

Lemma embedding_row_on_unit_circle_witness :
  List.length (embedding_row 320 500) = 320%nat
  /\ Forall (fun v => -1 <= v <= 1) (embedding_row 320 500)
  /\ Rsqr (nth 3 (embedding_row 320 500) 0)
     + Rsqr (nth (160 + 3) (embedding_row 320 500) 0) = 1.
Proof.
  apply (embedding_row_on_unit_circle 320 500 3).
  change (320 / 2)%Z with 160%Z. lia.
Defined.
End MoreValues.
(** ** Downsample and upsample *)

Lemma ceil_half (h : Z) : 1 <= h -> (h + 2 * 1 - 3) / 2 + 1 = (h + 1) / 2.
Proof.
  intros Hh. replace (h + 2 * 1 - 3) with (h + 1 + (-1) * 2) by lia.
  rewrite Z.div_add by lia. lia.
Qed.

Lemma UNet_Downsample_ceil (c : Z) (d : UNet_Downsample) (x : Tensor) (b h w : Z) :
  UNet_Downsample_init c = Ok d ->
  1 <= h -> 1 <= w ->
  shape x = [b; c; h; w] ->
  returns (UNet_Downsample_forward d x)
    (has_shape [b; c; (h + 1) / 2; (w + 1) / 2]).
Proof.
  intros Hi Hh Hw E. unfold UNet_Downsample_init in Hi. inv_init Hi.
  apply Conv2d_init_inv in Ha. injection Hi as <-. subst.
  unfold UNet_Downsample_forward. cbn [down_conv].
  eapply returns_weaken.
  - apply (Conv2d_forward_returns _ x b h w);
      cbn [conv_in_channels kernel_size padding]; [exact E | lia | lia].
  - intros y Hy. unfold has_shape in *. rewrite Hy.
    cbn [conv_out_channels kernel_size padding stride].
    rewrite !ceil_half by lia. reflexivity.
Qed.

Lemma UNet_Upsample_keeps (c : Z) (u : UNet_Upsample) (x : Tensor) (b h w : Z) :
  UNet_Upsample_init c = Ok u ->
  1 <= h -> 1 <= w ->
  shape x = [b; c; h; w] ->
  returns (UNet_Upsample_forward u x false) (has_shape [b; c; h; w]).
Proof.
  intros Hi Hh Hw E. unfold UNet_Upsample_init in Hi. inv_init Hi.
  apply Conv2d_init_inv in Ha. injection Hi as <-. subst.
  unfold UNet_Upsample_forward. cbn [up_conv bind].
  apply Conv2d_same; auto.
Qed.

Lemma double_ceil_half (h : Z) : 2 * ((h + 1) / 2) = h <-> Z.even h = true.
Proof.
  rewrite Z.even_spec. split.
  - intros E. exists ((h + 1) / 2). lia.
  - intros (k & ->). replace (2 * k + 1) with (1 + k * 2) by lia.
    rewrite Z.div_add by lia. change (1 / 2) with 0. lia.
Qed.

(** X10.  [UNet_Downsample] followed by [UNet_Upsample] returns on every input of
    positive height and width; each of the two sizes comes back rounded up
    to an even number, so the shape of the input is restored exactly when
    the height and the width are both even. *)
Theorem downsample_then_upsample_rounds_up
        (c : Z) (d : UNet_Downsample) (u : UNet_Upsample) (x : Tensor) (b h w : Z) :
  UNet_Downsample_init c = Ok d ->
  UNet_Upsample_init c = Ok u ->
  1 <= h -> 1 <= w ->
  shape x = [b; c; h; w] ->
  returns (y <- UNet_Downsample_forward d x ;; UNet_Upsample_forward u y true)
    (fun z => shape z = [b; c; 2 * ((h + 1) / 2); 2 * ((w + 1) / 2)]
              /\ (shape z = shape x <-> Z.even h = true /\ Z.even w = true)).
Proof.
  intros Hd Hu Hh Hw E.
  step. { apply (UNet_Downsample_ceil c d x b h w); auto. }
  intros y Hy. unfold has_shape in Hy.
  assert (Hh' : 1 <= (h + 1) / 2) by (apply Z.div_le_lower_bound; lia).
  assert (Hw' : 1 <= (w + 1) / 2) by (apply Z.div_le_lower_bound; lia).
  eapply returns_weaken.
  - apply (UNet_Upsample_doubles c u y b ((h + 1) / 2) ((w + 1) / 2)); auto.
  - intros z Hz. unfold has_shape in Hz. split; [exact Hz|].
    rewrite Hz, E. split.
    + intros Heq. injection Heq as Eh Ew. split; apply double_ceil_half; assumption.
    + intros (Eh & Ew). apply double_ceil_half in Eh, Ew. congruence.
Qed.

Lemma downsample_then_upsample_rounds_up_witness :
  returns (y <- UNet_Downsample_forward (mkUNet_Downsample (mkConv2d 320 320 3 2 1))
                  (input "x" [1; 320; 5; 8]) ;;
           UNet_Upsample_forward (mkUNet_Upsample (mkConv2d 320 320 3 1 1)) y true)
    (fun z => shape z = [1; 320; 2 * ((5 + 1) / 2); 2 * ((8 + 1) / 2)]
              /\ (shape z = shape (input "x" [1; 320; 5; 8])
                  <-> Z.even 5 = true /\ Z.even 8 = true)).
Proof.
  apply (downsample_then_upsample_rounds_up 320
           (mkUNet_Downsample (mkConv2d 320 320 3 2 1))
           (mkUNet_Upsample (mkConv2d 320 320 3 1 1))
           (input "x" [1; 320; 5; 8]) 1 5 8);
    try reflexivity; lia.
Defined.

(** ** The decoder and the list it is handed *)

Section DecoderList.
Variables (t_emb : Tensor) (cond : option Tensor).

Lemma py_pop_inv {A : Type} (l : list A) (a : A) (rest : list A) :
  py_pop l = Ok (a, rest) -> l = rest ++ [a].
Proof.
  destruct l as [|a0 l0] using rev_ind.
  - discriminate.
  - rewrite py_pop_snoc. congruence.
Qed.

Lemma decoder_block_loop_frame (block : list TimeStepSequential) (x : Tensor)
      (skips : list Tensor) :
  match decoder_block_loop block x skips t_emb cond with
  | Ok (_, rest) =>
      exists popped, skips = rest ++ popped /\ List.length popped = List.length block
  | Raise _ => True
  end.
Proof.
  revert x skips. induction block as [|l block IH]; intros x skips;
    cbn [decoder_block_loop List.length].
  - exists []. now rewrite app_nil_r.
  - destruct (py_pop skips) as [[tmp rest]|e] eqn:Ep; cbn [bind]; [|exact I].
    apply py_pop_inv in Ep. subst skips.
    destruct (cat1 x tmp) as [y|e]; cbn [bind]; [|exact I].
    destruct (TimeStepSequential_forward l y t_emb cond) as [z|e]; cbn [bind]; [|exact I].
    specialize (IH z rest).
    destruct (decoder_block_loop block z rest t_emb cond) as [[z' rest']|e]; [|exact I].
    destruct IH as (popped & -> & Hlen).
    exists (popped ++ [tmp]). rewrite app_assoc. split; [reflexivity|].
    rewrite length_app. cbn [List.length]. lia.
Qed.

Lemma decoder_stage_frame (u : UpStage) (x : Tensor) (skips : list Tensor) :
  match decoder_stage u x skips t_emb cond with
  | Ok (_, rest) =>
      exists popped,
        skips = rest ++ popped /\ List.length popped = List.length (up_block u)
  | Raise _ => True
  end.
Proof.
  unfold decoder_stage.
  destruct (py_last skips) as [top|e]; cbn [bind]; [|exact I].
  destruct (shape_last (shape top)) as [prev_hw|e]; cbn [bind]; [|exact I].
  pose proof (decoder_block_loop_frame (up_block u) x skips) as Hb.
  destruct (decoder_block_loop (up_block u) x skips t_emb cond) as [[y rest]|e];
    cbn [bind]; [|exact I].
  destruct (next_skip_matches rest prev_hw) as [same|e]; cbn [bind]; [|exact I].
  destruct (if same then _ else _) as [z|e]; cbn [bind]; [exact Hb | exact I].
Qed.

Lemma decoder_up_loop_frame (stages : list UpStage) (x : Tensor) (skips : list Tensor) :
  match decoder_up_loop stages x skips t_emb cond with
  | Ok (_, rest) =>
      exists popped,
        skips = rest ++ popped
        /\ List.length popped
           = list_sum (map (fun u => List.length (up_block u)) stages)
  | Raise _ => True
  end.
Proof.
  revert x skips. induction stages as [|u stages IH]; intros x skips;
    cbn [decoder_up_loop map].
  - exists []. now rewrite app_nil_r.
  - pose proof (decoder_stage_frame u x skips) as Hs.
    destruct (decoder_stage u x skips t_emb cond) as [[y rest]|e]; cbn [bind]; [|exact I].
    destruct Hs as (p1 & -> & Hl1).
    specialize (IH y rest).
    destruct (decoder_up_loop stages y rest t_emb cond) as [[z rest']|e]; [|exact I].
    destruct IH as (p2 & -> & Hl2).
    exists (p2 ++ p1). rewrite app_assoc. split; [reflexivity|].
    rewrite length_app. unfold list_sum in *. cbn [fold_right]. lia.
Qed.

(** X11.  Whatever the stages of a decoder are, a call that returns has removed
    exactly one entry per layer from the end of the list it was handed and
    has left the entries below them as they were; on a list with fewer
    entries than the decoder has layers the call does not return. *)
Theorem decoder_pops_from_the_end
        (self : UNet_Decoder) (x : Tensor) (skip_connections : list Tensor) :
  match UNet_Decoder_forward self x skip_connections t_emb cond with
  | Ok (_, rest) =>
      exists popped,
        skip_connections = rest ++ popped
        /\ List.length popped = decoder_layer_count self
        /\ rest = firstn (List.length skip_connections - decoder_layer_count self)
                    skip_connections
  | Raise _ => True
  end
  /\ ((List.length skip_connections < decoder_layer_count self)%nat ->
      is_ok (UNet_Decoder_forward self x skip_connections t_emb cond) = false).
Proof.
  unfold UNet_Decoder_forward, decoder_layer_count.
  pose proof (decoder_up_loop_frame (up self) x skip_connections) as Hf.
  destruct (decoder_up_loop (up self) x skip_connections t_emb cond) as [[y rest]|e].
  - destruct Hf as (popped & -> & Hlen). split.
    + exists popped. split; [reflexivity|]. split; [exact Hlen|].
      rewrite length_app, <- Hlen.
      replace (List.length rest + List.length popped - List.length popped)%nat
        with (List.length rest + 0)%nat by lia.
      rewrite firstn_app_2. cbn [firstn]. now rewrite app_nil_r.
    + rewrite length_app. lia.
  - split; [exact I | reflexivity].
Qed.

(** X12.  A decoder with at least one stage reads the last entry of the list
    before it pops anything: on an empty list the call ends in the
    [IndexError] of an index, not that of a pop; a decoder without stages
    returns its input and leaves the list alone. *)
Theorem decoder_on_empty_list (self : UNet_Decoder) (x : Tensor) :
  (up self <> [] ->
   UNet_Decoder_forward self x [] t_emb cond
   = Raise (IndexError "list index out of range"))
  /\ (up self = [] ->
      forall skip_connections,
        UNet_Decoder_forward self x skip_connections t_emb cond
        = Ok (x, skip_connections)).
Proof.
  unfold UNet_Decoder_forward. split.
  - destruct (up self) as [|u rest]; [congruence|]. intros _. reflexivity.
  - intros ->. reflexivity.
Qed.
End DecoderList.

Lemma decoder_pops_from_the_end_witness :
  is_ok (UNet_Decoder_forward (decoder unet_768) (input "x" [1; 1280; 8; 8])
           [input "skip" [1; 1280; 8; 8]] (input "t_embed" [1; 1280])
           (Some (input "cond" [1; 77; 768]))) = false.
Proof.
  apply (decoder_pops_from_the_end (input "t_embed" [1; 1280])
           (Some (input "cond" [1; 77; 768])) (decoder unet_768)
           (input "x" [1; 1280; 8; 8]) [input "skip" [1; 1280; 8; 8]]).
  vm_compute. lia.
Defined.

Lemma decoder_on_empty_list_witness :
  UNet_Decoder_forward (decoder unet_768) (input "x" [1; 1280; 8; 8]) []
    (input "t_embed" [1; 1280]) (Some (input "cond" [1; 77; 768]))
  = Raise (IndexError "list index out of range")
  /\ (forall skip_connections,
        UNet_Decoder_forward empty_decoder (input "x" [1; 1280; 8; 8]) skip_connections
          (input "t_embed" [1; 1280]) (Some (input "cond" [1; 77; 768]))
        = Ok (input "x" [1; 1280; 8; 8], skip_connections)).
Proof.
  split.
  - apply (decoder_on_empty_list (input "t_embed" [1; 1280])
             (Some (input "cond" [1; 77; 768])) (decoder unet_768)
             (input "x" [1; 1280; 8; 8])).
    discriminate.
  - apply (decoder_on_empty_list (input "t_embed" [1; 1280])
             (Some (input "cond" [1; 77; 768])) empty_decoder
             (input "x" [1; 1280; 8; 8])).
    reflexivity.
Defined.
(** ** The latent sizes the default model accepts *)

Lemma half_up_pos (h : Z) : 1 <= h -> 1 <= half_up h.
Proof. intros Hh. unfold half_up. apply Z.div_le_lower_bound; lia. Qed.

Lemma half_up_fixed (h : Z) : 1 <= h -> (half_up h = h <-> h = 1).
Proof.
  intros Hh. unfold half_up. split; [|intros ->; reflexivity].
  intros E. pose proof (Z.mul_div_le (h + 1) 2 ltac:(lia)).
  pose proof (Z.mod_pos_bound (h + 1) 2 ltac:(lia)).
  pose proof (Z.div_mod (h + 1) 2 ltac:(lia)). lia.
Qed.

Lemma half_up_double (h : Z) : 2 * half_up h = h <-> Z.even h = true.
Proof. apply double_ceil_half. Qed.

(** The size that comes back from the level below [h], [w]. *)
Lemma level_ok_spec (h w : Z) :
  1 <= h -> 1 <= w ->
  level_ok h w = true
  <-> (if w =? half_up w then [half_up h; half_up w]
       else [2 * half_up h; 2 * half_up w]) = [h; w].
Proof.
  intros Hh Hw. unfold level_ok.
  rewrite orb_true_iff, !andb_true_iff, !Z.eqb_eq, <- !half_up_double.
  pose proof (half_up_fixed h Hh) as Fh. pose proof (half_up_fixed w Hw) as Fw.
  pose proof (half_up_pos h Hh). pose proof (half_up_pos w Hw).
  destruct (Z.eqb_spec w (half_up w)) as [Ew|Ew]; split.
  - intros [(-> & ->)|(Eh & Ew')]; [reflexivity|]. exfalso. lia.
  - intros Heq. injection Heq as Eh _. left.
    split; [apply Fh; exact Eh | apply Fw; symmetry; exact Ew].
  - intros [(-> & ->)|(Eh & Ew')]; [exfalso; apply Ew; reflexivity|]. congruence.
  - intros Heq. injection Heq as Eh Ew'. right. tauto.
Qed.

Lemma accepted_size_levels (h w : Z) :
  1 <= h -> 1 <= w ->
  level_ok (half_up (half_up h)) (half_up (half_up w))
  && level_ok (half_up h) (half_up w) && level_ok h w = true
  <-> accepted_size h w.
Proof.
  intros Hh Hw. unfold accepted_size, level_ok.
  rewrite !andb_true_iff, !orb_true_iff, !andb_true_iff, !Z.eqb_eq, <- !half_up_double.
  unfold half_up. split.
  - intros H. Z.to_euclidean_division_equations. lia.
  - intros H. Z.to_euclidean_division_equations. lia.
Qed.
Section GeneralStage.
Variables (t_emb : Tensor) (cond : option Tensor).
Variables (b h w : Z).
#[warnings="-notation-for-abbreviation"]
Local Notation maps_channels := (maps_channels t_emb cond b).

Lemma encoder_stage_down_ceil
      (l1 l2 : TimeStepSequential) (d : UNet_Downsample) (cin cout : Z)
      (x : Tensor) (skips : list Tensor) (rest : list DownStage) :
  maps_channels l1 cin cout h w ->
  maps_channels l2 cout cout h w ->
  UNet_Downsample_init cout = Ok d ->
  1 <= h -> 1 <= w ->
  shape x = [b; cin; h; w] ->
  exists a1 a2 a3,
    shape a1 = [b; cout; h; w] /\
    shape a2 = [b; cout; h; w] /\
    shape a3 = [b; cout; half_up h; half_up w] /\
    encoder_down_loop (mkDownStage [l1; l2] (DownConv d) :: rest) x t_emb cond skips
    = encoder_down_loop rest a3 t_emb cond (((skips ++ [a1]) ++ [a2]) ++ [a3]).
Proof.
  intros H1 H2 Hd Hh Hw E.
  destruct (returns_Ok _ _ (H1 x E)) as (a1 & E1 & S1).
  destruct (returns_Ok _ _ (H2 a1 S1)) as (a2 & E2 & S2).
  destruct (returns_Ok _ _ (UNet_Downsample_ceil cout d a2 b h w Hd Hh Hw S2))
    as (a3 & E3 & S3).
  exists a1, a2, a3. repeat split; auto.
  cbn [encoder_down_loop encoder_block_loop down_block downsample
       DownsampleModule_forward is_identity_down negb].
  rewrite E1. cbn [bind]. rewrite E2. cbn [bind]. rewrite E3. cbn [bind].
  reflexivity.
Qed.

Lemma next_skip_snoc (base : list Tensor) (top : Tensor) (w0 w' : Z) :
  shape_last (shape top) = Ok w' ->
  next_skip_matches (base ++ [top]) w0 = Ok (w' =? w0).
Proof.
  intros Hs. unfold next_skip_matches.
  destruct (base ++ [top]) eqn:E; [destruct base; discriminate|].
  rewrite <- E, py_last_snoc. cbn [bind]. rewrite Hs. reflexivity.
Qed.

(** A decoder stage with a real upsample that finds a next skip tensor: the
    spatial size is doubled unless the width of that tensor is the width the
    stage started from. *)
Lemma decoder_stage_conv
      (l1 l2 l3 : TimeStepSequential) (u : UNet_Upsample) (cin cout cmid : Z)
      (x a1 a2 a3 top : Tensor) (base : list Tensor) (ct H W : Z) :
  maps_channels l1 (cin + cout) cout h w ->
  maps_channels l2 (cout + cout) cout h w ->
  maps_channels l3 (cout + cmid) cout h w ->
  UNet_Upsample_init cout = Ok u ->
  1 <= h -> 1 <= w ->
  shape x = [b; cin; h; w] ->
  shape a3 = [b; cout; h; w] ->
  shape a2 = [b; cout; h; w] ->
  shape a1 = [b; cmid; h; w] ->
  shape top = [b; ct; H; W] ->
  exists y,
    shape y = b :: cout :: (if W =? w then [h; w] else [2 * h; 2 * w]) /\
    decoder_stage (mkUpStage [l1; l2; l3] (UpConv u)) x
      ((((base ++ [top]) ++ [a1]) ++ [a2]) ++ [a3]) t_emb cond
    = Ok (y, base ++ [top]).
Proof.
  intros H1 H2 H3 Hu Hh Hw E E3 E2 E1 Et.
  destruct (decoder_block_returns t_emb cond b h w l1 l2 l3 cin cout cmid x a1 a2 a3
              (base ++ [top]) H1 H2 H3 E E3 E2 E1) as (y & Sy & Ey).
  assert (Hnext : next_skip_matches (base ++ [top]) w = Ok (W =? w))
    by (apply next_skip_snoc; rewrite Et; reflexivity).
  unfold decoder_stage. cbn [up_block upsample].
  rewrite py_last_snoc. cbn [bind]. rewrite E3. cbn [shape_last rev app bind].
  rewrite Ey. cbn [bind]. rewrite Hnext. cbn [bind].
  destruct (W =? w); cbn [UpsampleModule_call].
  - destruct (returns_Ok _ _ (UNet_Upsample_keeps cout u y b h w Hu Hh Hw Sy))
      as (z & Ez & Sz).
    exists z. split; [exact Sz|]. rewrite Ez. reflexivity.
  - destruct (returns_Ok _ _ (UNet_Upsample_doubles cout u y b h w Hu Hh Hw Sy))
      as (z & Ez & Sz).
    exists z. split; [exact Sz|]. rewrite Ez. reflexivity.
Qed.

(** A stage whose first layer is handed a skip tensor of another spatial
    size than its input raises in [torch.cat]. *)
Lemma decoder_stage_mismatch
      (u : UpStage) (l : TimeStepSequential) (ls : list TimeStepSequential)
      (x a : Tensor) (base : list Tensor) (bx cx ba ca : Z) (sx sa : list Z) :
  up_block u = l :: ls ->
  shape x = bx :: cx :: sx -> shape a = ba :: ca :: sa ->
  sx <> sa ->
  is_ok (decoder_stage u x (base ++ [a]) t_emb cond) = false.
Proof.
  intros Hu Ex Ea Hne. unfold decoder_stage.
  rewrite py_last_snoc. cbn [bind].
  destruct (shape_last (shape a)) as [prev_hw|e]; cbn [bind]; [|reflexivity].
  rewrite Hu. cbn [decoder_block_loop]. rewrite py_pop_snoc. cbn [bind].
  unfold cat1. rewrite Ex, Ea.
  assert (Hl : list_eqb sx sa = false).
  { destruct (list_eqb sx sa) eqn:El; [|reflexivity].
    apply list_eqb_eq in El. contradiction. }
  rewrite Hl, andb_false_r. reflexivity.
Qed.
End GeneralStage.
Section AnySize.
Variables (cd : Z) (use_lora : bool).
Variables (t_emb cond : Tensor) (b n s : Z).
Hypothesis Hb : 0 < b.
Hypothesis Ht : shape t_emb = [n; 1280].
Hypothesis Hn : n = b \/ n = 1.
Hypothesis Hc : shape cond = [b; s; cd].

(** The encoder of the default configuration returns on every latent of
    positive height and width. *)
Lemma default_encoder_any_size (enc : UNet_Encoder) (x : Tensor) (h w : Z) :
  UNet_Encoder_init 4 8 1280 cd default_ch_multiplier use_lora = Ok enc ->
  1 <= h -> 1 <= w ->
  shape x = [b; 4; h; w] ->
  exists y skips,
    UNet_Encoder_forward enc x t_emb (Some cond) = Ok (y, skips) /\
    shape y = [b; 1280; half_up (half_up (half_up h)); half_up (half_up (half_up w))] /\
    map shape skips = default_skip_shapes b h w.
Proof.
  intros Hi Hh Hw E. unfold UNet_Encoder_init in Hi. cbv zeta in Hi.
  apply bind_Ok_inv in Hi. destruct Hi as (ci & Hci & Hi).
  apply bind_Ok_inv in Hi. destruct Hi as (stages & Hst & Hi).
  injection Hi as <-. apply Conv2d_init_inv in Hci. subst ci.
  change (range (len default_ch_multiplier)) with [0; 1; 2; 3]%nat in Hst.
  apply mapM_cons_inv in Hst. destruct Hst as (d0 & st0 & H0 & Hst & ->).
  apply mapM_cons_inv in Hst. destruct Hst as (d1 & st1 & H1 & Hst & ->).
  apply mapM_cons_inv in Hst. destruct Hst as (d2 & st2 & H2 & Hst & ->).
  apply mapM_cons_inv in Hst. destruct Hst as (d3 & st3 & H3 & Hst & ->).
  apply mapM_nil_inv in Hst. subst st3.
  apply UNet_Encoder_stage_inv in H0, H1, H2, H3.
  destruct H0 as [(_ & r01 & t01 & r02 & t02 & ds0 & e0 & R01 & F0 & T01 & R02 & T02 & D0 & ->)
                 |(Hbad & _)]; [|discriminate Hbad].
  destruct H1 as [(_ & r11 & t11 & r12 & t12 & ds1 & e1 & R11 & F1 & T11 & R12 & T12 & D1 & ->)
                 |(Hbad & _)]; [|discriminate Hbad].
  destruct H2 as [(_ & r21 & t21 & r22 & t22 & ds2 & e2 & R21 & F2 & T21 & R22 & T22 & D2 & ->)
                 |(Hbad & _)]; [|discriminate Hbad].
  destruct H3 as [(Hbad & _)|(_ & r31 & r32 & R31 & R32 & ->)];
    [exfalso; apply Hbad; reflexivity|].
  injection F0 as <-. injection F1 as <-. injection F2 as <-.
  pose proof (half_up_pos h Hh) as Hh1. pose proof (half_up_pos w Hw) as Hw1.
  pose proof (half_up_pos _ Hh1) as Hh2. pose proof (half_up_pos _ Hw1) as Hw2.
  pose proof (half_up_pos _ Hh2) as Hh3. pose proof (half_up_pos _ Hw2) as Hw3.
  unfold UNet_Encoder_forward. cbn [conv_in down].
  destruct (returns_Ok _ _
              (Conv2d_same 4 320 3 1 x b h w
                 (or_introl (conj eq_refl eq_refl)) E Hh Hw))
    as (x0 & E0 & S0).
  rewrite E0. cbn [bind].
  destruct (encoder_stage_down_ceil t_emb (Some cond) b h w
              [ResLayer r01; TransformerLayer t01] [ResLayer r02; TransformerLayer t02]
              ds0 320 320 x0 [x0]
              [mkDownStage [[ResLayer r11; TransformerLayer t11];
                            [ResLayer r12; TransformerLayer t12]] (DownConv ds1);
               mkDownStage [[ResLayer r21; TransformerLayer t21];
                            [ResLayer r22; TransformerLayer t22]] (DownConv ds2);
               mkDownStage [[ResLayer r31]; [ResLayer r32]] DownIdentity])
    as (a1 & a2 & a3 & A1 & A2 & A3 & Eq0);
    [ apply (res_transformer_layer_maps cd use_lora t_emb cond b n s Hb Ht Hn Hc
               320 320 40); auto; lia
    | apply (res_transformer_layer_maps cd use_lora t_emb cond b n s Hb Ht Hn Hc
               320 320 40); auto; lia
    | exact D0 | exact Hh | exact Hw | exact S0 | ].
  rewrite Eq0. clear Eq0. cbn [app].
  destruct (encoder_stage_down_ceil t_emb (Some cond) b (half_up h) (half_up w)
              [ResLayer r11; TransformerLayer t11] [ResLayer r12; TransformerLayer t12]
              ds1 320 640 a3 [x0; a1; a2; a3]
              [mkDownStage [[ResLayer r21; TransformerLayer t21];
                            [ResLayer r22; TransformerLayer t22]] (DownConv ds2);
               mkDownStage [[ResLayer r31]; [ResLayer r32]] DownIdentity])
    as (b1 & b2 & b3 & B1 & B2 & B3 & Eq1);
    [ apply (res_transformer_layer_maps cd use_lora t_emb cond b n s Hb Ht Hn Hc
               320 640 80); auto; lia
    | apply (res_transformer_layer_maps cd use_lora t_emb cond b n s Hb Ht Hn Hc
               640 640 80); auto; lia
    | exact D1 | exact Hh1 | exact Hw1 | exact A3 | ].
  rewrite Eq1. clear Eq1. cbn [app].
  destruct (encoder_stage_down_ceil t_emb (Some cond) b
              (half_up (half_up h)) (half_up (half_up w))
              [ResLayer r21; TransformerLayer t21] [ResLayer r22; TransformerLayer t22]
              ds2 640 1280 b3 [x0; a1; a2; a3; b1; b2; b3]
              [mkDownStage [[ResLayer r31]; [ResLayer r32]] DownIdentity])
    as (c1 & c2 & c3 & C1 & C2 & C3 & Eq2);
    [ apply (res_transformer_layer_maps cd use_lora t_emb cond b n s Hb Ht Hn Hc
               640 1280 160); auto; lia
    | apply (res_transformer_layer_maps cd use_lora t_emb cond b n s Hb Ht Hn Hc
               1280 1280 160); auto; lia
    | exact D2 | exact Hh2 | exact Hw2 | exact B3 | ].
  rewrite Eq2. clear Eq2. cbn [app].
  destruct (encoder_stage_last t_emb (Some cond) b
              (half_up (half_up (half_up h))) (half_up (half_up (half_up w)))
              [ResLayer r31] [ResLayer r32] 1280 1280 c3
              [x0; a1; a2; a3; b1; b2; b3; c1; c2; c3] [])
    as (d1 & d2 & D1' & D2' & Eq3);
    [ apply (res_layer_maps t_emb cond b n Ht Hn); auto
    | apply (res_layer_maps t_emb cond b n Ht Hn); auto | exact C3 | ].
  rewrite Eq3. clear Eq3. cbn [app encoder_down_loop].
  exists d2, [x0; a1; a2; a3; b1; b2; b3; c1; c2; c3; d1; d2].
  split; [reflexivity|]. split; [exact D2'|].
  cbn [map]. rewrite S0, A1, A2, A3, B1, B2, B3, C1, C2, C3, D1', D2'.
  reflexivity.
Qed.

(** The decoder of the default configuration on what the encoder recorded:
    it returns exactly when every level can be reached from the one below
    it. *)
Lemma default_decoder_any_size
      (dec : UNet_Decoder) (x : Tensor) (skips : list Tensor) (h w : Z) :
  UNet_Decoder_init 8 1280 cd default_ch_multiplier use_lora = Ok dec ->
  1 <= h -> 1 <= w ->
  shape x = [b; 1280; half_up (half_up (half_up h)); half_up (half_up (half_up w))] ->
  map shape skips = default_skip_shapes b h w ->
  if level_ok (half_up (half_up h)) (half_up (half_up w))
     && level_ok (half_up h) (half_up w) && level_ok h w
  then exists y,
      UNet_Decoder_forward dec x skips t_emb (Some cond) = Ok (y, []) /\
      shape y = [b; 320; h; w]
  else is_ok (UNet_Decoder_forward dec x skips t_emb (Some cond)) = false.
Proof.
  intros Hi Hh Hw E Hs. unfold default_skip_shapes in Hs. cbv zeta in Hs.
  name_skips Hs.
  pose proof (half_up_pos h Hh) as Hh1. pose proof (half_up_pos w Hw) as Hw1.
  pose proof (half_up_pos _ Hh1) as Hh2. pose proof (half_up_pos _ Hw1) as Hw2.
  pose proof (half_up_pos _ Hh2) as Hh3. pose proof (half_up_pos _ Hw2) as Hw3.
  unfold UNet_Decoder_init in Hi.
  apply bind_Ok_inv in Hi. destruct Hi as (stages & Hst & Hi).
  injection Hi as <-.
  change (rev (range (len default_ch_multiplier))) with [3; 2; 1; 0]%nat in Hst.
  apply mapM_cons_inv in Hst. destruct Hst as (u3 & st0 & H3 & Hst & ->).
  apply mapM_cons_inv in Hst. destruct Hst as (u2 & st1 & H2 & Hst & ->).
  apply mapM_cons_inv in Hst. destruct Hst as (u1 & st2 & H1 & Hst & ->).
  apply mapM_cons_inv in Hst. destruct Hst as (u0 & st3 & H0 & Hst & ->).
  apply mapM_nil_inv in Hst. subst st3.
  apply UNet_Decoder_stage_inv in H3, H2, H1, H0.
  cbv zeta in H3, H2, H1, H0.
  destruct H3 as (l31 & l32 & l33 & ups3 & -> & (r31 & r32 & r33 & R31 & R32 & R33 & L3) & U3).
  destruct L3 as [(_ & -> & -> & ->)|(Hbad & _)];
    [|exfalso; apply Hbad; reflexivity].
  destruct U3 as [(_ & up3 & U3 & ->)|(Hbad & _)]; [|discriminate Hbad].
  destruct H2 as (l21 & l22 & l23 & ups2 & -> & (r21 & r22 & r23 & R21 & R22 & R23 & L2) & U2).
  destruct L2 as [(Hbad & _)|(_ & e2 & t21 & t22 & t23 & F2 & T21 & T22 & T23 & -> & -> & ->)];
    [discriminate Hbad|].
  destruct U2 as [(_ & up2 & U2 & ->)|(Hbad & _)]; [|discriminate Hbad].
  destruct H1 as (l11 & l12 & l13 & ups1 & -> & (r11 & r12 & r13 & R11 & R12 & R13 & L1) & U1).
  destruct L1 as [(Hbad & _)|(_ & e1 & t11 & t12 & t13 & F1 & T11 & T12 & T13 & -> & -> & ->)];
    [discriminate Hbad|].
  destruct U1 as [(_ & up1 & U1 & ->)|(Hbad & _)]; [|discriminate Hbad].
  destruct H0 as (l01 & l02 & l03 & ups0 & -> & (r01 & r02 & r03 & R01 & R02 & R03 & L0) & U0).
  destruct L0 as [(Hbad & _)|(_ & e0 & t01 & t02 & t03 & F0 & T01 & T02 & T03 & -> & -> & ->)];
    [discriminate Hbad|].
  destruct U0 as [(Hbad & _)|(_ & ->)]; [exfalso; apply Hbad; reflexivity|].
  injection F2 as <-. injection F1 as <-. injection F0 as <-.
  unfold UNet_Decoder_forward. cbn [up decoder_up_loop].
  set (h1 := half_up h) in *. set (w1 := half_up w) in *.
  set (h2 := half_up h1) in *. set (w2 := half_up w1) in *.
  set (h3 := half_up h2) in *. set (w3 := half_up w2) in *.
  (* the deepest stage: residual blocks only *)
  destruct (decoder_stage_conv t_emb (Some cond) b h3 w3
              [ResLayer r31] [ResLayer r32] [ResLayer r33] up3 1280 1280 1280
              x k8 k9 k10 k7 [k; k0; k1; k2; k3; k4; k5; k6] 1280 h2 w2)
    as (y3 & Y3 & E3);
    [ apply (res_layer_maps t_emb cond b n Ht Hn (1280 + 1280) 1280); auto
    | apply (res_layer_maps t_emb cond b n Ht Hn (1280 + 1280) 1280); auto
    | apply (res_layer_maps t_emb cond b n Ht Hn (1280 + 1280) 1280); auto
    | exact U3 | exact Hh3 | exact Hw3 | exact E | exact S10 | exact S9 | exact S8
    | exact S7 | ].
  cbn [app] in E3. rewrite E3. clear E3. cbn [bind].
  destruct (level_ok h2 w2) eqn:Lv2; cbn [andb].
  2:{ apply is_ok_bind_raise.
      change [k; k0; k1; k2; k3; k4; k5; k6; k7] with ([k; k0; k1; k2; k3; k4; k5; k6] ++ [k7]).
      eapply decoder_stage_mismatch; [reflexivity | exact Y3 | exact S7 | ].
      intros Heq. apply (level_ok_spec h2 w2 Hh2 Hw2) in Heq. congruence. }
  apply (level_ok_spec h2 w2 Hh2 Hw2) in Lv2. fold h3 w3 in Lv2. rewrite Lv2 in Y3.
  destruct (decoder_stage_conv t_emb (Some cond) b h2 w2
              [ResLayer r21; TransformerLayer t21] [ResLayer r22; TransformerLayer t22]
              [ResLayer r23; TransformerLayer t23] up2 1280 1280 640
              y3 k5 k6 k7 k4 [k; k0; k1; k2; k3] 640 h1 w1)
    as (y2 & Y2 & E2);
    [ apply (res_transformer_layer_maps cd use_lora t_emb cond b n s Hb Ht Hn Hc
               (1280 + 1280) 1280 160); auto; lia
    | apply (res_transformer_layer_maps cd use_lora t_emb cond b n s Hb Ht Hn Hc
               (1280 + 1280) 1280 160); auto; lia
    | apply (res_transformer_layer_maps cd use_lora t_emb cond b n s Hb Ht Hn Hc
               (1280 + 640) 1280 160); auto; lia
    | exact U2 | exact Hh2 | exact Hw2 | exact Y3 | exact S7 | exact S6 | exact S5
    | exact S4 | ].
  cbn [app] in E2. rewrite E2. clear E2. cbn [bind].
  destruct (level_ok h1 w1) eqn:Lv1; cbn [andb].
  2:{ apply is_ok_bind_raise.
      change [k; k0; k1; k2; k3; k4] with ([k; k0; k1; k2; k3] ++ [k4]).
      eapply decoder_stage_mismatch; [reflexivity | exact Y2 | exact S4 | ].
      intros Heq. apply (level_ok_spec h1 w1 Hh1 Hw1) in Heq. congruence. }
  apply (level_ok_spec h1 w1 Hh1 Hw1) in Lv1. fold h2 w2 in Lv1. rewrite Lv1 in Y2.
  destruct (decoder_stage_conv t_emb (Some cond) b h1 w1
              [ResLayer r11; TransformerLayer t11] [ResLayer r12; TransformerLayer t12]
              [ResLayer r13; TransformerLayer t13] up1 1280 640 320
              y2 k2 k3 k4 k1 [k; k0] 320 h w)
    as (y1 & Y1 & E1);
    [ apply (res_transformer_layer_maps cd use_lora t_emb cond b n s Hb Ht Hn Hc
               (1280 + 640) 640 80); auto; lia
    | apply (res_transformer_layer_maps cd use_lora t_emb cond b n s Hb Ht Hn Hc
               (640 + 640) 640 80); auto; lia
    | apply (res_transformer_layer_maps cd use_lora t_emb cond b n s Hb Ht Hn Hc
               (640 + 320) 640 80); auto; lia
    | exact U1 | exact Hh1 | exact Hw1 | exact Y2 | exact S4 | exact S3 | exact S2
    | exact S1 | ].
  cbn [app] in E1. rewrite E1. clear E1. cbn [bind].
  destruct (level_ok h w) eqn:Lv0.
  2:{ apply is_ok_bind_raise.
      change [k; k0; k1] with ([k; k0] ++ [k1]).
      eapply decoder_stage_mismatch; [reflexivity | exact Y1 | exact S1 | ].
      intros Heq. apply (level_ok_spec h w Hh Hw) in Heq. congruence. }
  apply (level_ok_spec h w Hh Hw) in Lv0. fold h1 w1 in Lv0. rewrite Lv0 in Y1.
  destruct (decoder_stage_identity t_emb (Some cond) b h w
              [ResLayer r01; TransformerLayer t01] [ResLayer r02; TransformerLayer t02]
              [ResLayer r03; TransformerLayer t03] 640 320 320
              y1 k k0 k1)
    as (y0 & Y0 & E0);
    [ apply (res_transformer_layer_maps cd use_lora t_emb cond b n s Hb Ht Hn Hc
               (640 + 320) 320 40); auto; lia
    | apply (res_transformer_layer_maps cd use_lora t_emb cond b n s Hb Ht Hn Hc
               (320 + 320) 320 40); auto; lia
    | apply (res_transformer_layer_maps cd use_lora t_emb cond b n s Hb Ht Hn Hc
               (320 + 320) 320 40); auto; lia
    | exact Y1 | exact S1 | exact S0 | exact S | ].
  rewrite E0. cbn [bind]. exists y0. split; [reflexivity | exact Y0].
Qed.
End AnySize.

(** The forward pass of the default model with a timestep batch that fits. *)
Lemma UNet_forward_sizes_fitting_timestep
      (cd : Z) (use_lora : bool) (u : UNet) (x timestep cond : Tensor)
      (b h w n s : Z) :
  default_unet cd use_lora = Ok u ->
  0 < b -> 0 < h -> 0 < w ->
  shape x = [b; 4; h; w] ->
  shape timestep = [n] -> n = b \/ n = 1 ->
  shape cond = [b; s; cd] ->
  (is_ok (UNet_forward u x timestep cond) = true <-> accepted_size h w)
  /\ (accepted_size h w ->
      shape_of (UNet_forward u x timestep cond) = Some (shape x)).
Proof.
  intros Hu Hb Hh Hw E Et Hn Ec.
  assert (Hh0 : 1 <= h) by lia. assert (Hw0 : 1 <= w) by lia.
  pose proof (half_up_pos h Hh0) as Hh1. pose proof (half_up_pos w Hw0) as Hw1.
  pose proof (half_up_pos _ Hh1) as Hh2. pose proof (half_up_pos _ Hw1) as Hw2.
  pose proof (half_up_pos _ Hh2) as Hh3. pose proof (half_up_pos _ Hw2) as Hw3.
  unfold default_unet, UNet_init in Hu.
  apply bind_Ok_inv in Hu. destruct Hu as (te & Hte & Hu).
  apply bind_Ok_inv in Hu. destruct Hu as (enc & Henc & Hu).
  apply bind_Ok_inv in Hu. destruct Hu as (b1 & Hb1 & Hu).
  apply bind_Ok_inv in Hu. destruct Hu as (b2 & Hb2 & Hu).
  apply bind_Ok_inv in Hu. destruct Hu as (b3 & Hb3 & Hu).
  apply bind_Ok_inv in Hu. destruct Hu as (dec & Hdec & Hu).
  apply bind_Ok_inv in Hu. destruct Hu as (gn & Hgn & Hu).
  apply bind_Ok_inv in Hu. destruct Hu as (co & Hco & Hu).
  injection Hu as <-.
  apply GroupNorm_init_inv in Hgn. apply Conv2d_init_inv in Hco. subst gn co.
  unfold UNet_forward.
  cbn [time_embedding encoder bottleneck decoder].
  destruct (returns_Ok _ _
              (TimeEmbedding_forward_returns 320 160 te timestep n Hte eq_refl
                 ltac:(lia) Et)) as (t_emb & Etemb & St).
  change (320 * 4) with 1280 in *. unfold has_shape in St.
  rewrite Etemb. cbn [bind].
  destruct (default_encoder_any_size cd use_lora t_emb cond b n s Hb St Hn Ec
              enc x h w Henc Hh0 Hw0 E) as (xe & skips & Eenc & Sxe & Sskips).
  rewrite Eenc. cbn [bind].
  destruct (returns_Ok _ _
              (UNet_ResBlock_forward_returns 1280 1280 1280 b1 xe t_emb b _ _ n
                 Hb1 Hh3 Hw3 Sxe St Hn)) as (m1 & Em1 & Sm1).
  destruct (returns_Ok _ _
              (UNet_TransformerEncoder_forward_returns 8 160 cd use_lora b2 m1 cond
                 b _ _ s Hb2 ltac:(lia) Hb Hh3 Hw3 Sm1 Ec)) as (m2 & Em2 & Sm2).
  destruct (returns_Ok _ _
              (UNet_ResBlock_forward_returns 1280 1280 1280 b3 m2 t_emb b _ _ n
                 Hb3 Hh3 Hw3 Sm2 St Hn)) as (m3 & Em3 & Sm3).
  cbn [TimeStepSequential_forward Layer_forward].
  rewrite Em1. cbn [bind]. rewrite Em2. cbn [bind]. rewrite Em3. cbn [bind].
  pose proof (default_decoder_any_size cd use_lora t_emb cond b n s Hb St Hn Ec
                dec m3 skips h w Hdec Hh0 Hw0 Sm3 Sskips) as Hd.
  pose proof (accepted_size_levels h w Hh0 Hw0) as Hacc.
  destruct (level_ok (half_up (half_up h)) (half_up (half_up w))
            && level_ok (half_up h) (half_up w) && level_ok h w).
  - destruct Hd as (xd & Edec & Sxd). rewrite Edec. cbn [bind].
    unfold output_forward. cbn [output_norm output_conv].
    destruct (returns_Ok _ _
                (GroupNorm_forward_returns (mkGroupNorm 32 320) xd b [h; w] Sxd))
      as (o1 & Eo1 & So1).
    unfold has_shape in So1. rewrite Sxd in So1.
    rewrite Eo1. cbn [bind].
    destruct (returns_Ok _ _
                (Conv2d_same 320 4 3 1 (silu o1) b h w
                   (or_introl (conj eq_refl eq_refl)) So1 Hh0 Hw0))
      as (o2 & Eo2 & So2).
    rewrite Eo2. cbn [is_ok shape_of]. rewrite So2, E.
    split; [|reflexivity]. split; [intros _; apply Hacc; reflexivity | reflexivity].
  - destruct (UNet_Decoder_forward dec m3 skips t_emb (Some cond)) as [[xd rest]|e];
      [discriminate Hd|]. cbn [bind is_ok].
    split; [split|]; intros Hbad; try discriminate Hbad;
      apply Hacc in Hbad; discriminate Hbad.
Qed.

(** The encoder of the default model with a timestep batch that is neither
    the batch of the latent nor 1: its first residual block raises. *)
Lemma default_encoder_bad_timestep
      (cd : Z) (use_lora : bool) (enc : UNet_Encoder) (x t_emb : Tensor)
      (cond : option Tensor) (b h w n : Z) :
  UNet_Encoder_init 4 8 1280 cd default_ch_multiplier use_lora = Ok enc ->
  1 <= h -> 1 <= w ->
  shape x = [b; 4; h; w] ->
  shape t_emb = [n; 1280] ->
  n <> b -> n <> 1 ->
  is_ok (UNet_Encoder_forward enc x t_emb cond) = false.
Proof.
  intros Hi Hh Hw E Et Hnb Hn1. unfold UNet_Encoder_init in Hi. cbv zeta in Hi.
  apply bind_Ok_inv in Hi. destruct Hi as (ci & Hci & Hi).
  apply bind_Ok_inv in Hi. destruct Hi as (stages & Hst & Hi).
  injection Hi as <-. apply Conv2d_init_inv in Hci. subst ci.
  change (range (len default_ch_multiplier)) with [0; 1; 2; 3]%nat in Hst.
  apply mapM_cons_inv in Hst. destruct Hst as (d0 & st0 & H0 & _ & ->).
  apply UNet_Encoder_stage_inv in H0.
  destruct H0 as [(_ & r01 & t01 & r02 & t02 & ds0 & e0 & R01 & _ & _ & _ & _ & _ & ->)
                 |(Hbad & _)]; [|discriminate Hbad].
  unfold UNet_Encoder_forward. cbn [conv_in down].
  destruct (returns_Ok _ _
              (Conv2d_same 4 320 3 1 x b h w
                 (or_introl (conj eq_refl eq_refl)) E Hh Hw))
    as (x0 & E0 & S0).
  rewrite E0. cbn [bind encoder_down_loop down_block encoder_block_loop
                   TimeStepSequential_forward Layer_forward].
  destruct (is_ok (UNet_ResBlock_forward r01 x0 t_emb)) eqn:Hok.
  - apply (UNet_ResBlock_forward_ok_inv _ _ _ r01 x0 t_emb b 320 h w n 1280
             R01 Hh Hw S0 Et) in Hok.
    exfalso. destruct Hok as (_ & _ & [Hn|Hn]); contradiction.
  - destruct (UNet_ResBlock_forward r01 x0 t_emb); [discriminate Hok | reflexivity].
Qed.

(** X13.  UNet.forward of the model built with the default sizes, on a latent
    [b, 4, h, w] of positive sizes, a timestep batch [n] and a conditioning
    sequence [b, s, cond_dim]: the call returns exactly when the timestep
    batch is that of the latent or 1 and the height and the width are both
    multiples of 8, or the latent is 1x1, 2x2 or 4x4; every other size ends
    in the [torch.cat] of a decoder stage.  When the call returns, the result
    has the shape of the latent. *)
Theorem UNet_forward_accepted_sizes
        (cd : Z) (use_lora : bool) (u : UNet) (x timestep cond : Tensor)
        (b h w n s : Z) :
  default_unet cd use_lora = Ok u ->
  0 < b -> 0 < h -> 0 < w ->
  shape x = [b; 4; h; w] ->
  shape timestep = [n] ->
  shape cond = [b; s; cd] ->
  (is_ok (UNet_forward u x timestep cond) = true
   <-> accepted_size h w /\ (n = b \/ n = 1))
  /\ (is_ok (UNet_forward u x timestep cond) = true ->
      shape_of (UNet_forward u x timestep cond) = Some (shape x)).
Proof.
  intros Hu Hb Hh Hw E Et Ec.
  destruct (Z.eq_dec n b) as [Hnb|Hnb];
    [|destruct (Z.eq_dec n 1) as [Hn1|Hn1]].
  - destruct (UNet_forward_sizes_fitting_timestep cd use_lora u x timestep cond
                b h w n s Hu Hb Hh Hw E Et (or_introl Hnb) Ec) as (Hiff & Hshape).
    split; [|intros Hok; apply Hshape, Hiff, Hok].
    rewrite Hiff. tauto.
  - destruct (UNet_forward_sizes_fitting_timestep cd use_lora u x timestep cond
                b h w n s Hu Hb Hh Hw E Et (or_intror Hn1) Ec) as (Hiff & Hshape).
    split; [|intros Hok; apply Hshape, Hiff, Hok].
    rewrite Hiff. tauto.
  - assert (Hfail : is_ok (UNet_forward u x timestep cond) = false).
    { unfold default_unet, UNet_init in Hu.
      apply bind_Ok_inv in Hu. destruct Hu as (te & Hte & Hu).
      apply bind_Ok_inv in Hu. destruct Hu as (enc & Henc & Hu).
      inv_ok Hu. injection Hu as <-.
      unfold UNet_forward. cbn [time_embedding encoder].
      destruct (returns_Ok _ _
                  (TimeEmbedding_forward_returns 320 160 te timestep n Hte eq_refl
                     ltac:(lia) Et)) as (t_emb & Etemb & St).
      change (320 * 4) with 1280 in *. unfold has_shape in St.
      rewrite Etemb. cbn [bind]. apply is_ok_bind_raise.
      apply (default_encoder_bad_timestep cd use_lora enc x t_emb (Some cond) b h w n);
        auto; lia. }
    rewrite Hfail. split; [split|]; [discriminate | | discriminate].
    intros (_ & [Hn|Hn]); contradiction.
Qed.

Lemma UNet_forward_accepted_sizes_witness :
  (is_ok (UNet_forward unet_768 (input "latent" [1; 4; 4; 4]) (input "timestep" [1])
            (input "cond" [1; 77; 768])) = true
   <-> accepted_size 4 4 /\ (1 = 1 \/ 1 = 1))
  /\ (is_ok (UNet_forward unet_768 (input "latent" [1; 4; 4; 4])
               (input "timestep" [1]) (input "cond" [1; 77; 768])) = true ->
      shape_of (UNet_forward unet_768 (input "latent" [1; 4; 4; 4])
                  (input "timestep" [1]) (input "cond" [1; 77; 768]))
      = Some (shape (input "latent" [1; 4; 4; 4]))).
Proof.
  apply (UNet_forward_accepted_sizes 768 false unet_768
           (input "latent" [1; 4; 4; 4]) (input "timestep" [1])
           (input "cond" [1; 77; 768]) 1 4 4 1 77);
    try reflexivity; lia.
Defined.
(** ** The two toggles together *)

(** X14.  The two toggles write different attributes: a later call of
    [gradient_checkpointing_enabled] overwrites an earlier one, the two
    toggles can be called in either order, the first leaves every attention
    unit as it was, and the second leaves the recomputation flag of every
    block and the adapter switch of every unit as they were. *)
Theorem toggles_commute_and_overwrite (m : UNet) (a b : bool) :
  snd (gradient_checkpointing_enabled (snd (gradient_checkpointing_enabled m a)) b)
  = snd (gradient_checkpointing_enabled m b)
  /\ snd (enable_flash_attn (snd (gradient_checkpointing_enabled m a)))
     = snd (gradient_checkpointing_enabled (snd (enable_flash_attn m)) a)
  /\ attention_units (snd (gradient_checkpointing_enabled m a)) = attention_units m
  /\ map gradient_checkpointing (attention_blocks (snd (enable_flash_attn m)))
     = map gradient_checkpointing (attention_blocks m)
  /\ map lora_enabled (attention_units (snd (enable_flash_attn m)))
     = map lora_enabled (attention_units m).
Proof.
  unfold gradient_checkpointing_enabled, enable_flash_attn. cbn [fst snd].
  split; [|split; [|split; [|split]]].
  - rewrite walk_unet_compose. apply walk_unet_ext. intros blk. reflexivity.
  - rewrite !walk_unet_compose. apply walk_unet_ext. intros blk. reflexivity.
  - unfold attention_units. rewrite attention_blocks_walk.
    induction (attention_blocks m) as [|blk l IH]; [reflexivity|].
    cbn [map flat_map]. rewrite IH. reflexivity.
  - rewrite attention_blocks_walk, map_map. apply map_ext. intros blk. reflexivity.
  - unfold attention_units. rewrite attention_blocks_walk.
    induction (attention_blocks m) as [|blk l IH]; [reflexivity|].
    cbn [map flat_map]. rewrite !map_app, IH. reflexivity.
Qed.
(** ** utils/datasets.py: more of scale_img *)

Section ScaleImgMore.
Import Datasets Lqa.
Local Open Scope Q_scope.

Lemma store_store (h : Heap) (x : ref) (a b : list Q) :
  store (store h x a) x b = store h x b.
Proof.
  revert x. induction h as [|c h IH]; intros [|x]; cbn [store]; try reflexivity.
  now rewrite IH.
Qed.

Lemma nth_error_app_end {A : Type} (l : list A) (a : A) :
  nth_error (l ++ [a]) (List.length l) = Some a.
Proof.
  rewrite nth_error_app2 by lia. now rewrite Nat.sub_diag.
Qed.

(** What a call of [scale_img] on a non-empty old range does to the heap. *)
Lemma scale_img_run (h : Heap) (x : ref) (v : list Q) (old_range new_range : Q * Q)
      (clamp : bool) :
  nth_error h x = Some v ->
  ~ snd old_range - fst old_range == 0 ->
  scale_img x old_range new_range clamp h
  = if clamp
    then (Ok (List.length h),
          store h x (map (rescaled old_range new_range) v)
          ++ [map (clamp_value (fst new_range) (snd new_range))
                (map (rescaled old_range new_range) v)])
    else (Ok x, store h x (map (rescaled old_range new_range) v)).
Proof.
  intros E Hne. destruct old_range as [old_min old_max].
  destruct new_range as [new_min new_max]. cbn [fst snd] in *.
  unfold scale_img, bindM, lift, ret, py_truediv.
  destruct (inplace_run (fun v => v - old_min) h x v E) as (R1 & E1). rewrite R1.
  destruct (Qeq_bool (old_max - old_min) 0) eqn:Ez;
    [apply Qeq_bool_iff in Ez; contradiction|].
  set (k := (new_max - new_min) / (old_max - old_min)).
  destruct (inplace_run (fun v => v * k) _ x _ E1) as (R2 & E2). rewrite R2.
  destruct (inplace_run (fun v => v + new_min) _ x _ E2) as (R3 & E3). rewrite R3.
  rewrite !store_store in *.
  assert (Em : map (fun v => v + new_min)
                 (map (fun v => v * k) (map (fun v => v - old_min) v))
               = map (rescaled (old_min, old_max) (new_min, new_max)) v)
    by (rewrite !map_map; reflexivity).
  rewrite Em in *.
  destruct clamp; [|reflexivity].
  unfold read, alloc. rewrite E3, store_length. reflexivity.
Qed.



Lemma clamp_value_bounds (lo hi q : Q) : lo <= hi -> lo <= clamp_value lo hi q <= hi.
Proof.
  intros Hle. unfold clamp_value.
  destruct (Qle_bool lo q) eqn:E1.
  - apply Qle_bool_iff in E1.
    destruct (Qle_bool q hi) eqn:E2; [apply Qle_bool_iff in E2; lra | lra].
  - destruct (Qle_bool lo hi) eqn:E2; [lra|].
    exfalso. apply Qle_bool_iff in Hle. congruence.
Qed.

(** X15.  scale_img on an empty old range ([old_max == old_min]) ends in
    [ZeroDivisionError], whatever [clamp] is, and only after the first
    in-place update: the caller's tensor is left holding its values minus
    [old_min], and nothing else has changed. *)
Theorem scale_img_empty_range_raises_after_subtracting
        (h : Heap) (x : ref) (v : list Q) (old_range new_range : Q * Q) (clamp : bool) :
  nth_error h x = Some v ->
  snd old_range - fst old_range == 0 ->
  exists h',
    scale_img x old_range new_range clamp h = (Raise ZeroDivisionError, h')
    /\ nth_error h' x = Some (map (fun q => q - fst old_range) v)
    /\ List.length h' = List.length h
    /\ (forall y, y <> x -> nth_error h' y = nth_error h y).
Proof.
  intros E Hz. destruct old_range as [old_min old_max].
  destruct new_range as [new_min new_max]. cbn [fst snd] in *.
  unfold scale_img, bindM, lift, ret, py_truediv.
  destruct (inplace_run (fun v => v - old_min) h x v E) as (R1 & E1). rewrite R1.
  apply Qeq_bool_iff in Hz. rewrite Hz.
  eexists. split; [reflexivity|]. split; [exact E1|]. split.
  - apply store_length.
  - intros y Hy. now apply store_other.
Qed.

(** X16.  scale_img with [clamp=True]: the result is a new object that holds the
    rescaled values cut to the new range (within it when the range is not
    reversed); the object passed in is overwritten with the rescaled values
    all the same, and no other object changes. *)
Theorem scale_img_clamp_returns_new_object
        (h : Heap) (x : ref) (v : list Q) (old_range new_range : Q * Q) :
  nth_error h x = Some v ->
  ~ snd old_range - fst old_range == 0 ->
  exists y h' clamped,
    scale_img x old_range new_range true h = (Ok y, h')
    /\ y <> x /\ nth_error h y = None
    /\ nth_error h' x = Some (map (rescaled old_range new_range) v)
    /\ nth_error h' y = Some clamped
    /\ clamped = map (clamp_value (fst new_range) (snd new_range))
                   (map (rescaled old_range new_range) v)
    /\ (fst new_range <= snd new_range ->
        Forall (fun q => fst new_range <= q <= snd new_range) clamped)
    /\ (forall z, z <> x -> z <> y -> nth_error h' z = nth_error h z).
Proof.
  intros E Hne.
  assert (Hx : (x < List.length h)%nat) by (apply nth_error_Some; congruence).
  exists (List.length h). do 2 eexists.
  split; [apply (scale_img_run h x v old_range new_range true E Hne)|].
  split; [lia|]. split; [apply nth_error_None; lia|].
  split; [|split; [|split; [reflexivity|split]]].
  - rewrite nth_error_app1 by (rewrite store_length; exact Hx).
    now apply store_same.
  - rewrite <- (store_length h x (map (rescaled old_range new_range) v)) at 1.
    apply nth_error_app_end.
  - intros Hle. apply Forall_forall. intros q Hq.
    apply in_map_iff in Hq. destruct Hq as (q0 & <- & _).
    now apply clamp_value_bounds.
  - intros z Hzx Hzy.
    destruct (Nat.lt_ge_cases z (List.length h)) as [Hlt|Hge].
    + rewrite nth_error_app1 by (rewrite store_length; exact Hlt).
      now apply store_other.
    + transitivity (@None (list Q)); [|symmetry; now apply nth_error_None].
      apply nth_error_None. rewrite length_app, store_length. cbn [List.length]. lia.
Qed.



Lemma scale_img_empty_range_raises_after_subtracting_witness :
  exists h',
    scale_img 1%nat (5, 5) (-1, 1) false [[7]; [0; 255; 51]]
    = (Raise ZeroDivisionError, h')
    /\ nth_error h' 1%nat = Some (map (fun q => q - fst (5, 5)) [0; 255; 51])
    /\ List.length h' = 2%nat
    /\ (forall y, y <> 1%nat -> nth_error h' y = nth_error [[7]; [0; 255; 51]] y).
Proof.
  apply (scale_img_empty_range_raises_after_subtracting [[7]; [0; 255; 51]] 1%nat
           [0; 255; 51] (5, 5) (-1, 1) false); reflexivity.
Defined.

Lemma scale_img_clamp_returns_new_object_witness :
  exists y h' clamped,
    scale_img 1%nat (0, 255) (-1, 1) true [[7]; [0; 255; 510]] = (Ok y, h')
    /\ y <> 1%nat /\ nth_error [[7]; [0; 255; 510]] y = None
    /\ nth_error h' 1%nat = Some (map (rescaled (0, 255) (-1, 1)) [0; 255; 510])
    /\ nth_error h' y = Some clamped
    /\ clamped = map (clamp_value (fst (-1, 1)) (snd (-1, 1)))
                   (map (rescaled (0, 255) (-1, 1)) [0; 255; 510])
    /\ (fst (-1, 1) <= snd (-1, 1) ->
        Forall (fun q => fst (-1, 1) <= q <= snd (-1, 1)) clamped)
    /\ (forall z, z <> 1%nat -> z <> y ->
                  nth_error h' z = nth_error [[7]; [0; 255; 510]] z).
Proof.
  apply (scale_img_clamp_returns_new_object [[7]; [0; 255; 510]] 1%nat
           [0; 255; 510] (0, 255) (-1, 1)); [reflexivity | discriminate].
Defined.


End ScaleImgMore.

(** ** utils/datasets.py: DreamboothDataset *)

Section Dreambooth.
Import Datasets DatasetItems.

Lemma py_getitem_nonneg {A : Type} (l : list A) (i : Z) (a : A) :
  0 <= i -> nth_error l (Z.to_nat i) = Some a -> py_getitem l i = Ok a.
Proof.
  intros Hi E. unfold py_getitem.
  assert (Hlt : (Z.to_nat i < List.length l)%nat) by (apply nth_error_Some; congruence).
  destruct (Z.ltb_spec i 0); [lia|]. cbn [orb].
  destruct (Z.ltb_spec i 0); [lia|].
  unfold len. destruct (Z.leb_spec (Z.of_nat (List.length l)) i); [lia|].
  cbn [orb]. now rewrite E.
Qed.

Lemma py_getitem_negative {A : Type} (l : list A) (i : Z) :
  0 <= i < len l -> py_getitem l (i - len l) = py_getitem l i.
Proof.
  intros Hi. unfold py_getitem.
  destruct (Z.ltb_spec (i - len l) 0); [|lia].
  destruct (Z.ltb_spec i 0); [lia|].
  replace (i - len l + len l) with i by lia. reflexivity.
Qed.

Lemma py_getitem_out_of_range {A : Type} (l : list A) (i : Z) :
  len l <= i \/ i < - len l ->
  py_getitem l i = Raise (IndexError "list index out of range").
Proof.
  intros Hi. unfold py_getitem. unfold len in *.
  destruct (Z.ltb_spec i 0).
  - destruct (Z.ltb_spec (i + Z.of_nat (List.length l)) 0); [reflexivity|lia].
  - destruct (Z.ltb_spec i 0); [lia|].
    destruct (Z.leb_spec (Z.of_nat (List.length l)) i); [reflexivity|lia].
Qed.

(** X19.  A dataset that could be built holds one label per image: the images
    found under [generated_data] come first and carry the text of its label
    file, the images under [train_data] follow and carry the text of theirs.
    [get_label] reads them with the indices of a Python list, from the end
    when negative, and raises [IndexError] outside. *)
Theorem dreambooth_labels_follow_images
        (dir : DirContents) (img_size : Z * Z) (d : DreamboothDataset) :
  DreamboothDataset_init dir img_size = Ok d ->
  exists g t,
    generated_label dir = Some g /\ train_label dir = Some t
    /\ imgs_path d = generated_jpg dir ++ train_jpg dir
    /\ dataset_len d = len (generated_jpg dir) + len (train_jpg dir)
    /\ len (labels d) = dataset_len d
    /\ (forall i, 0 <= i < len (generated_jpg dir) -> get_label d i = Ok g)
    /\ (forall i, len (generated_jpg dir) <= i < dataset_len d -> get_label d i = Ok t)
    /\ (forall i, 0 <= i < dataset_len d ->
                  get_label d (i - dataset_len d) = get_label d i)
    /\ (forall i, dataset_len d <= i \/ i < - dataset_len d ->
                  get_label d i = Raise (IndexError "list index out of range")).
Proof.
  unfold DreamboothDataset_init, load_data, open_read. intros H.
  destruct (generated_label dir) as [g|]; [|discriminate H].
  destruct (train_label dir) as [t|]; [|discriminate H].
  cbn [bind] in H. injection H as <-. exists g, t.
  unfold dataset_len, get_label, len. cbn [imgs_path labels].
  assert (Hlen : Z.of_nat (List.length (map (fun _ : string => g) (generated_jpg dir)
                                       ++ map (fun _ : string => t) (train_jpg dir)))
                 = Z.of_nat (List.length (generated_jpg dir ++ train_jpg dir)))
    by (rewrite !length_app, !length_map; reflexivity).
  split; [reflexivity|]. split; [reflexivity|]. split; [reflexivity|].
  split; [rewrite length_app; lia|]. split; [exact Hlen|].
  split; [|split; [|split]].
  - intros i Hi. apply py_getitem_nonneg; [lia|].
    rewrite nth_error_app1 by (rewrite length_map; lia).
    rewrite nth_error_map.
    destruct (nth_error (generated_jpg dir) (Z.to_nat i)) eqn:E; [reflexivity|].
    apply nth_error_None in E. lia.
  - intros i Hi. rewrite length_app in Hi. apply py_getitem_nonneg; [lia|].
    rewrite nth_error_app2 by (rewrite length_map; lia).
    rewrite nth_error_map, length_map.
    destruct (nth_error (train_jpg dir) _) eqn:E; [reflexivity|].
    apply nth_error_None in E. lia.
  - intros i Hi. rewrite <- Hlen. apply py_getitem_negative. unfold len. lia.
  - intros i Hi. apply py_getitem_out_of_range. unfold len. lia.
Qed.

Lemma dreambooth_labels_follow_images_witness :
  let d := subset_dataset (dl_dataset (fst example_loaders)) in
  exists g t,
    generated_label (example_dir "data") = Some g
    /\ train_label (example_dir "data") = Some t
    /\ imgs_path d = generated_jpg (example_dir "data") ++ train_jpg (example_dir "data")
    /\ dataset_len d
       = len (generated_jpg (example_dir "data")) + len (train_jpg (example_dir "data"))
    /\ len (labels d) = dataset_len d
    /\ (forall i, 0 <= i < len (generated_jpg (example_dir "data")) ->
                  get_label d i = Ok g)
    /\ (forall i, len (generated_jpg (example_dir "data")) <= i < dataset_len d ->
                  get_label d i = Ok t)
    /\ (forall i, 0 <= i < dataset_len d ->
                  get_label d (i - dataset_len d) = get_label d i)
    /\ (forall i, dataset_len d <= i \/ i < - dataset_len d ->
                  get_label d i = Raise (IndexError "list index out of range")).
Proof.
  apply (dreambooth_labels_follow_images (example_dir "data") (512, 512)
           (subset_dataset (dl_dataset (fst example_loaders)))).
  reflexivity.
Defined.

(** X20.  The two label files are read before any image is looked at, the one of
    [generated_data] first: the dataset can be built exactly when both
    exist, whatever images there are, and the error names the first file
    that is missing. *)
Theorem dreambooth_needs_both_label_files (dir : DirContents) (img_size : Z * Z) :
  (is_ok (DreamboothDataset_init dir img_size) = true
   <-> generated_label dir <> None /\ train_label dir <> None)
  /\ (generated_label dir = None ->
      DreamboothDataset_init dir img_size
      = Raise (FileNotFoundError "generated_data/label.txt"))
  /\ (generated_label dir <> None -> train_label dir = None ->
      DreamboothDataset_init dir img_size
      = Raise (FileNotFoundError "train_data/label.txt")).
Proof.
  unfold DreamboothDataset_init, load_data, open_read.
  destruct (generated_label dir) as [g|], (train_label dir) as [t|];
    cbn [bind is_ok]; repeat split; try congruence; try discriminate;
    try (intros (H1 & H2); congruence); intros; congruence.
Qed.
End Dreambooth.
(** ** What the constructor builds *)

(** X21.  UNet.__init__ with the default sizes: a model is built for every
    conditioning width that is not negative.  It has four encoder stages, a
    bottleneck of three layers, four decoder stages and sixteen transformer
    blocks (two in each of the three outer encoder stages, one in the
    bottleneck, three in each of the three outer decoder stages); every block
    starts with gradient checkpointing off and with
    [head_dim = channels // 8]; its first attention unit has no conditioning
    width, its second has [cond_dim]; and [use_lora] is the adapter switch of
    every unit. *)
Theorem default_unet_construction (cd : Z) (use_lora : bool) :
  0 <= cd ->
  exists u,
    default_unet cd use_lora = Ok u
    /\ List.length (down (encoder u)) = 4%nat
    /\ List.length (bottleneck u) = 3%nat
    /\ List.length (up (decoder u)) = 4%nat
    /\ map head_dim (attention_blocks u)
       = [40; 40; 80; 80; 160; 160; 160; 160; 160; 160; 80; 80; 80; 40; 40; 40]
    /\ Forall (fun blk =>
                 gradient_checkpointing blk = false
                 /\ attn_cond_dim (attn1 blk) = None
                 /\ attn_cond_dim (attn2 blk) = Some cd
                 /\ lora_enabled (attn1 blk) = use_lora
                 /\ lora_enabled (attn2 blk) = use_lora
                 /\ attn_num_heads (attn1 blk) = 8
                 /\ attn_num_heads (attn2 blk) = 8)
         (attention_blocks u).
Proof.
  intros Hcd.
  destruct cd as [|p|p]; [| |lia]; destruct use_lora;
    (eexists; split; [vm_compute; reflexivity|]);
    repeat (split; [reflexivity|]);
    repeat (constructor; [repeat split|]); constructor.
Qed.

Lemma default_unet_construction_witness :
  exists u,
    default_unet 768 false = Ok u
    /\ List.length (down (encoder u)) = 4%nat
    /\ List.length (bottleneck u) = 3%nat
    /\ List.length (up (decoder u)) = 4%nat
    /\ map head_dim (attention_blocks u)
       = [40; 40; 80; 80; 160; 160; 160; 160; 160; 160; 80; 80; 80; 40; 40; 40]
    /\ Forall (fun blk =>
                 gradient_checkpointing blk = false
                 /\ attn_cond_dim (attn1 blk) = None
                 /\ attn_cond_dim (attn2 blk) = Some 768
                 /\ lora_enabled (attn1 blk) = false
                 /\ lora_enabled (attn2 blk) = false
                 /\ attn_num_heads (attn1 blk) = 8
                 /\ attn_num_heads (attn2 blk) = 8)
         (attention_blocks u).
Proof. apply (default_unet_construction 768 false). lia. Defined.

(** ** The encoder on any latent size *)

(** X22.  The encoder of the default configuration returns on every latent of
    positive height and width: each of its three downsamples halves the two
    sizes rounding up, the result has 1280 channels at the last of these
    sizes, and the twelve recorded tensors have 320, 640 and 1280 channels
    at the four sizes. *)
Theorem UNet_Encoder_accepts_every_size
        (cd : Z) (use_lora : bool) (enc : UNet_Encoder) (x t_emb cond : Tensor)
        (b h w n s : Z) :
  UNet_Encoder_init 4 8 1280 cd default_ch_multiplier use_lora = Ok enc ->
  0 < b -> 1 <= h -> 1 <= w ->
  shape x = [b; 4; h; w] ->
  shape t_emb = [n; 1280] -> n = b \/ n = 1 ->
  shape cond = [b; s; cd] ->
  exists y skips,
    UNet_Encoder_forward enc x t_emb (Some cond) = Ok (y, skips)
    /\ shape y = [b; 1280; half_up (half_up (half_up h)); half_up (half_up (half_up w))]
    /\ map shape skips = default_skip_shapes b h w.
Proof.
  intros Hi Hb Hh Hw E Et Hn Ec.
  exact (default_encoder_any_size cd use_lora t_emb cond b n s Hb Et Hn Ec
           enc x h w Hi Hh Hw E).
Qed.

Lemma UNet_Encoder_accepts_every_size_witness :
  exists y skips,
    UNet_Encoder_forward (encoder unet_768) (input "latent" [1; 4; 5; 7])
      (input "t_embed" [1; 1280]) (Some (input "cond" [1; 77; 768])) = Ok (y, skips)
    /\ shape y = [1; 1280; half_up (half_up (half_up 5)); half_up (half_up (half_up 7))]
    /\ map shape skips = default_skip_shapes 1 5 7.
Proof.
  apply (UNet_Encoder_accepts_every_size 768 false (encoder unet_768)
           (input "latent" [1; 4; 5; 7]) (input "t_embed" [1; 1280])
           (input "cond" [1; 77; 768]) 1 5 7 1 77);
    try reflexivity; lia.
Defined.
(** ** The encoder and the decoder of any channel schedule *)

Lemma scale_0 (h : Z) : scale 0 h = h.
Proof. unfold scale. change (2 ^ Z.of_nat 0) with 1. apply Z.mul_1_l. Qed.

Lemma scale_S (k : nat) (h : Z) : scale (S k) h = 2 * scale k h.
Proof. unfold scale. rewrite Nat2Z.inj_succ, Z.pow_succ_r by lia. ring. Qed.

Lemma scale_double (k : nat) (h : Z) : scale (S k) h = scale k (2 * h).
Proof. unfold scale. rewrite Nat2Z.inj_succ, Z.pow_succ_r by lia. ring. Qed.

Lemma scale_pos (k : nat) (h : Z) : 1 <= h -> 1 <= scale k h.
Proof.
  intros Hh. unfold scale.
  assert (0 < 2 ^ Z.of_nat k) by (apply Z.pow_pos_nonneg; lia). nia.
Qed.

Lemma skip_groups_snoc (b : Z) (cm : list Z) (h w : Z) (i m : nat) :
  skip_groups b cm h w i (S m)
  = skip_groups b cm (2 * h) (2 * w) i m
    ++ [[b; 320 * nth (i + m) (1 :: cm) 0; h; w];
        [b; 320 * nth (i + m) cm 0; h; w];
        [b; 320 * nth (i + m) cm 0; h; w]].
Proof.
  revert i. induction m as [|m IH]; intros i.
  - cbn [skip_groups app]. rewrite !scale_0, Nat.add_0_r. reflexivity.
  - change (skip_groups b cm h w i (S (S m)))
      with ([[b; 320 * nth i (1 :: cm) 0; scale (S m) h; scale (S m) w];
             [b; 320 * nth i cm 0; scale (S m) h; scale (S m) w];
             [b; 320 * nth i cm 0; scale (S m) h; scale (S m) w]]
            ++ skip_groups b cm h w (S i) (S m)).
    rewrite IH. cbn [skip_groups]. rewrite !scale_double, <- app_assoc.
    replace (S i + m)%nat with (i + S m)%nat by lia. reflexivity.
Qed.

Lemma skip_groups_length (b : Z) (cm : list Z) (h w : Z) (i m : nat) :
  List.length (skip_groups b cm h w i m) = (3 * m)%nat.
Proof.
  revert i. induction m as [|m IH]; intros i; cbn [skip_groups List.length app];
    [reflexivity|]. rewrite IH. lia.
Qed.

Lemma rev_seq_S (k : nat) : rev (seq 0 (S k)) = k :: rev (seq 0 k).
Proof. rewrite seq_S, rev_app_distr. reflexivity. Qed.

Section Schedule.
Variables (td cd : Z) (use_lora : bool) (cm : list Z).
Variables (t_emb cond : Tensor) (b n s : Z).
Hypothesis Hb : 0 < b.
Hypothesis Ht : shape t_emb = [n; td].
Hypothesis Hn : n = b \/ n = 1.
Hypothesis Hc : shape cond = [b; s; cd].
Hypothesis Hpos : Forall (fun c => 0 < c) cm.

Lemma schedule_entry_pos (i : nat) : (i < List.length cm)%nat -> 0 < nth i cm 0.
Proof.
  intros Hi. rewrite Forall_forall in Hpos. apply Hpos. now apply nth_In.
Qed.

Lemma res_layer_fits (cin cout : Z) (r : UNet_ResBlock) (h w : Z) :
  UNet_ResBlock_init cin cout td = Ok r ->
  1 <= h -> 1 <= w ->
  maps_channels t_emb (Some cond) b [ResLayer r] cin cout h w.
Proof.
  intros Hr Hh Hw z Hz.
  apply (sequential_res_returns cin cout td r z t_emb (Some cond) b h w n); auto.
Qed.

Lemma res_transformer_layer_fits
      (cin c e : Z) (r : UNet_ResBlock) (te : UNet_TransformerEncoder) (h w : Z) :
  UNet_ResBlock_init cin (320 * c) td = Ok r ->
  py_floordiv (320 * c) 8 = Ok e ->
  UNet_TransformerEncoder_init 8 e cd use_lora = Ok te ->
  0 < c -> 1 <= h -> 1 <= w ->
  maps_channels t_emb (Some cond) b [ResLayer r; TransformerLayer te] cin (320 * c) h w.
Proof.
  intros Hr He Hte Hc0 Hh Hw z Hz.
  unfold py_floordiv in He. change (8 =? 0) with false in He. cbv iota in He.
  injection He as <-.
  assert (E8 : 320 * c / 8 * 8 = 320 * c).
  { replace (320 * c) with (40 * c * 8) by lia. now rewrite Z.div_mul by lia. }
  apply (sequential_res_transformer_returns cin (320 * c) td 8 (320 * c / 8) cd use_lora
           r te z t_emb cond b h w n s); auto; lia.
Qed.

(** The stages [i], ..., [i + m] of the encoder, entered with the tensor
    pushed last. *)
Lemma encoder_loop_schedule (m : nat) :
  forall (i : nat) (stages : list DownStage) (x : Tensor) (base : list Tensor) (h w : Z),
    (i + S m = List.length cm)%nat ->
    mapM (UNet_Encoder_stage 8 td cd cm use_lora) (seq i (S m)) = Ok stages ->
    1 <= h -> 1 <= w ->
    shape x = [b; 320 * nth i (1 :: cm) 0; scale m h; scale m w] ->
    exists y new,
      encoder_down_loop stages x t_emb (Some cond) (base ++ [x]) = Ok (y, base ++ x :: new)
      /\ shape y = [b; 320 * nth (List.length cm - 1) cm 0; h; w]
      /\ map shape (x :: new) = skip_groups b cm h w i (S m).
Proof.
  induction m as [|m IH]; intros i stages x base h w Hi Hst Hh Hw E.
  - cbn [seq] in Hst.
    apply mapM_cons_inv in Hst. destruct Hst as (d & st & Hd & Hst & ->).
    apply mapM_nil_inv in Hst. subst st.
    apply UNet_Encoder_stage_inv in Hd. cbv zeta in Hd.
    destruct Hd as [(Hbad & _)|(_ & r1 & r2 & R1 & R2 & ->)];
      [exfalso; apply Hbad; unfold len; lia|].
    rewrite !scale_0 in E.
    destruct (encoder_stage_last t_emb (Some cond) b h w [ResLayer r1] [ResLayer r2]
                (320 * nth i (1 :: cm) 0) (320 * nth i cm 0) x (base ++ [x]) [])
      as (a1 & a2 & A1 & A2 & Eq);
      [ apply res_layer_fits; auto | apply res_layer_fits; auto | exact E | ].
    rewrite Eq. cbn [encoder_down_loop].
    exists a2, [a1; a2]. split; [|split].
    + rewrite <- !app_assoc. reflexivity.
    + rewrite A2. replace (List.length cm - 1)%nat with i by lia. reflexivity.
    + cbn [map skip_groups app]. rewrite E, A1, A2, !scale_0. reflexivity.
  - change (seq i (S (S m))) with (i :: seq (S i) (S m)) in Hst.
    apply mapM_cons_inv in Hst. destruct Hst as (d & st & Hd & Hst & ->).
    apply UNet_Encoder_stage_inv in Hd. cbv zeta in Hd.
    destruct Hd as [(_ & r1 & t1 & r2 & t2 & ds & e & R1 & F & T1 & R2 & T2 & D & ->)
                   |(Hbad & _)]; [|exfalso; unfold len in Hbad; lia].
    assert (Hci : 0 < nth i cm 0) by (apply schedule_entry_pos; lia).
    pose proof (scale_pos m h Hh) as Hsh. pose proof (scale_pos m w Hw) as Hsw.
    rewrite !scale_S in E.
    destruct (encoder_stage_down t_emb (Some cond) b (scale m h) (scale m w)
                [ResLayer r1; TransformerLayer t1] [ResLayer r2; TransformerLayer t2]
                ds (320 * nth i (1 :: cm) 0) (320 * nth i cm 0) x (base ++ [x]) st)
      as (a1 & a2 & a3 & A1 & A2 & A3 & Eq);
      [ apply (res_transformer_layer_fits _ _ e); auto; lia
      | apply (res_transformer_layer_fits _ _ e); auto; lia
      | exact D | exact Hsh | exact Hsw | exact E | ].
    rewrite Eq. clear Eq.
    destruct (IH (S i) st a3 (((base ++ [x]) ++ [a1]) ++ [a2]) h w
                ltac:(lia) Hst Hh Hw A3) as (y & new & Ey & Sy & Snew).
    rewrite Ey. exists y, (a1 :: a2 :: a3 :: new). split; [|split].
    + rewrite <- !app_assoc. reflexivity.
    + exact Sy.
    + change (map shape (x :: a1 :: a2 :: a3 :: new))
        with (shape x :: shape a1 :: shape a2 :: map shape (a3 :: new)).
      rewrite Snew, E, A1, A2.
      change (skip_groups b cm h w i (S (S m)))
        with ([[b; 320 * nth i (1 :: cm) 0; scale (S m) h; scale (S m) w];
               [b; 320 * nth i cm 0; scale (S m) h; scale (S m) w];
               [b; 320 * nth i cm 0; scale (S m) h; scale (S m) w]]
              ++ skip_groups b cm h w (S i) (S m)).
      rewrite !scale_S. reflexivity.
Qed.

Lemma decoder_channels_nth (i : nat) :
  (i < List.length cm)%nat -> nth i (cm ++ [4]) 0 = nth i cm 0.
Proof. intros Hi. now apply app_nth1. Qed.

Lemma decoder_mid_channels (k : nat) :
  (k < List.length cm)%nat ->
  (if 0 <? Z.of_nat k then nth (k - 1) (cm ++ [4]) 0 * 320 else 320)
  = 320 * nth k (1 :: cm) 0.
Proof.
  intros Hk. destruct k as [|k].
  - reflexivity.
  - destruct (Z.ltb_spec 0 (Z.of_nat (S k))); [|lia].
    replace (S k - 1)%nat with k by lia.
    rewrite decoder_channels_nth by lia. cbn [nth]. lia.
Qed.

Lemma skip_groups_next_differs (h w : Z) (k : nat) (l : list Tensor) :
  1 <= w ->
  map shape l = skip_groups b cm (2 * h) (2 * w) 0 (S k) ->
  next_skip_matches l w = Ok false.
Proof.
  intros Hw Hl. rewrite skip_groups_snoc in Hl.
  apply map_eq_app in Hl. destruct Hl as (pre & post & -> & _ & Hpost).
  destruct post as [|p1 [|p2 [|p3 [|? ?]]]]; try discriminate Hpost.
  cbn [map] in Hpost. injection Hpost as _ _ S3.
  change (pre ++ [p1; p2; p3]) with (pre ++ [p1; p2] ++ [p3]).
  rewrite app_assoc. apply (next_skip_differs _ p3 w (2 * w)); [|lia].
  rewrite S3. reflexivity.
Qed.

(** What [UNet_Decoder.__init__] builds for the index [i] of a schedule, in
    the channels of the encoder. *)
Lemma decoder_stage_layers_fit (i : nat) (u : UpStage) (h w : Z) :
  (i < List.length cm)%nat ->
  UNet_Decoder_stage 8 td cd cm use_lora i = Ok u ->
  1 <= h -> 1 <= w ->
  let cin := 320 * nth (S i) (cm ++ [4]) 0 in
  let cout := 320 * nth i cm 0 in
  let cmid := 320 * nth i (1 :: cm) 0 in
  exists l1 l2 l3 ups,
    u = mkUpStage [l1; l2; l3] ups
    /\ maps_channels t_emb (Some cond) b l1 (cin + cout) cout h w
    /\ maps_channels t_emb (Some cond) b l2 (cout + cout) cout h w
    /\ maps_channels t_emb (Some cond) b l3 (cout + cmid) cout h w
    /\ ((i <> 0%nat /\ exists up, UNet_Upsample_init cout = Ok up /\ ups = UpConv up)
        \/ (i = 0%nat /\ ups = UpIdentity)).
Proof.
  intros Hi Hu Hh Hw. cbv zeta.
  apply UNet_Decoder_stage_inv in Hu. cbv zeta in Hu.
  assert (Ecin : nth (i + 1) (cm ++ [4]) 0 * 320 = 320 * nth (S i) (cm ++ [4]) 0)
    by (rewrite Nat.add_1_r; lia).
  assert (Ecout : nth i (cm ++ [4]) 0 * 320 = 320 * nth i cm 0)
    by (rewrite decoder_channels_nth by exact Hi; lia).
  rewrite Ecin, Ecout, (decoder_mid_channels i Hi) in Hu.
  assert (Hci : 0 < nth i cm 0) by (apply schedule_entry_pos; exact Hi).
  destruct Hu as (l1 & l2 & l3 & ups & -> & (r1 & r2 & r3 & R1 & R2 & R3 & Hl) & Hups).
  exists l1, l2, l3, ups. split; [reflexivity|].
  assert (Hups' : (i <> 0%nat /\ exists up,
                      UNet_Upsample_init (320 * nth i cm 0) = Ok up /\ ups = UpConv up)
                  \/ (i = 0%nat /\ ups = UpIdentity)).
  { destruct Hups as [(Hne & up & Hup & ->)|(He & ->)].
    - left. split; [lia|]. exists up. split; [exact Hup | reflexivity].
    - right. split; [lia | reflexivity]. }
  destruct Hl as [(_ & -> & -> & ->)|(_ & e & t1 & t2 & t3 & F & T1 & T2 & T3 & -> & -> & ->)].
  - repeat split; try apply res_layer_fits; auto.
  - repeat split; try (apply (res_transformer_layer_fits _ _ e); auto); auto.
Qed.

(** The stages [k], ..., [0] of the decoder on what the stages
    [0], ..., [k] of the encoder recorded. *)
Lemma decoder_loop_schedule (k : nat) :
  forall (stages : list UpStage) (x : Tensor) (skips : list Tensor) (h w : Z),
    (S k <= List.length cm)%nat ->
    mapM (UNet_Decoder_stage 8 td cd cm use_lora) (rev (seq 0 (S k))) = Ok stages ->
    1 <= h -> 1 <= w ->
    shape x = [b; 320 * nth (S k) (cm ++ [4]) 0; h; w] ->
    map shape skips = skip_groups b cm h w 0 (S k) ->
    exists z,
      decoder_up_loop stages x skips t_emb (Some cond) = Ok (z, [])
      /\ shape z = [b; 320 * nth 0 cm 0; scale k h; scale k w].
Proof.
  induction k as [|k IH]; intros stages x skips h w Hk Hst Hh Hw E Hs.
  - change (rev (seq 0 1)) with [0%nat] in Hst.
    apply mapM_cons_inv in Hst. destruct Hst as (u & st & Hu & Hst & ->).
    apply mapM_nil_inv in Hst. subst st.
    destruct (decoder_stage_layers_fit 0 u h w ltac:(lia) Hu Hh Hw)
      as (l1 & l2 & l3 & ups & -> & M1 & M2 & M3 & [(Hbad & _)|(_ & ->)]);
      [contradiction|].
    cbn [skip_groups app] in Hs. rewrite !scale_0 in Hs.
    apply map_eq_cons in Hs. destruct Hs as (a1 & q1 & -> & A1 & Hs).
    apply map_eq_cons in Hs. destruct Hs as (a2 & q2 & -> & A2 & Hs).
    apply map_eq_cons in Hs. destruct Hs as (a3 & q3 & -> & A3 & Hs).
    apply map_eq_nil in Hs. subst q3.
    destruct (decoder_stage_identity t_emb (Some cond) b h w l1 l2 l3 _ _ _
                x a1 a2 a3 M1 M2 M3 E A3 A2 A1) as (y & Sy & Ey).
    cbn [decoder_up_loop]. rewrite Ey. cbn [bind].
    exists y. split; [reflexivity|]. rewrite Sy, !scale_0. reflexivity.
  - rewrite rev_seq_S in Hst.
    apply mapM_cons_inv in Hst. destruct Hst as (u & st & Hu & Hst & ->).
    destruct (decoder_stage_layers_fit (S k) u h w ltac:(lia) Hu Hh Hw)
      as (l1 & l2 & l3 & ups & -> & M1 & M2 & M3 & [(_ & up & Hup & ->)|(Hbad & _)]);
      [|discriminate Hbad].
    rewrite skip_groups_snoc in Hs.
    apply map_eq_app in Hs. destruct Hs as (base & top & -> & Hbase & Htop).
    rewrite Nat.add_0_l in Htop.
    apply map_eq_cons in Htop. destruct Htop as (a1 & q1 & -> & A1 & Htop).
    apply map_eq_cons in Htop. destruct Htop as (a2 & q2 & -> & A2 & Htop).
    apply map_eq_cons in Htop. destruct Htop as (a3 & q3 & -> & A3 & Htop).
    apply map_eq_nil in Htop. subst q3.
    assert (Hnext : next_skip_matches base w = Ok false)
      by (apply (skip_groups_next_differs h w k); assumption).
    destruct (decoder_stage_up t_emb (Some cond) b h w l1 l2 l3 up _ _ _
                x a1 a2 a3 base M1 M2 M3 Hup Hh Hw E A3 A2 A1 Hnext)
      as (y & Sy & Ey).
    cbn [decoder_up_loop].
    change (base ++ [a1; a2; a3]) with (base ++ [a1] ++ [a2] ++ [a3]).
    rewrite !app_assoc, Ey. cbn [bind].
    assert (Sy' : shape y = [b; 320 * nth (S k) (cm ++ [4]) 0; 2 * h; 2 * w])
      by (rewrite Sy, decoder_channels_nth by lia; reflexivity).
    destruct (IH st y base (2 * h) (2 * w) ltac:(lia) Hst ltac:(lia) ltac:(lia)
                Sy' Hbase) as (z & Ez & Sz).
    exists z. split; [exact Ez|]. rewrite Sz, !scale_double. reflexivity.
Qed.
End Schedule.

Lemma nth_pred_length_last (l : list Z) (d : Z) :
  nth (List.length l - 1) l d = last l d.
Proof.
  induction l as [|a l IH]; [reflexivity|].
  destruct l as [|a' l]; [reflexivity|].
  cbn [List.length last] in *. rewrite <- IH.
  replace (S (S (List.length l)) - 1)%nat with (S (S (List.length l) - 1)) by lia.
  reflexivity.
Qed.

(** X23.  For every channel schedule of positive multipliers that ends in
    4, the decoder built for the schedule takes what the encoder built for
    it returns: on a latent whose height and width are [h] and [w] doubled
    once per downsample, the encoder returns 1280 channels at [h], [w] and
    three recorded tensors per stage, and the decoder run on that result and
    that list returns, leaves the list empty and gives [320 * cm[0]]
    channels at the size of the latent. *)
Theorem decoder_fits_encoder_of_every_schedule
        (td cd : Z) (use_lora : bool) (cm : list Z)
        (enc : UNet_Encoder) (dec : UNet_Decoder)
        (x t_emb cond : Tensor) (b h w n s : Z) :
  UNet_Encoder_init 4 8 td cd cm use_lora = Ok enc ->
  UNet_Decoder_init 8 td cd cm use_lora = Ok dec ->
  Forall (fun c => 0 < c) cm ->
  last cm 0 = 4 ->
  0 < b -> 1 <= h -> 1 <= w ->
  shape x = [b; 4; scale (List.length cm - 1) h; scale (List.length cm - 1) w] ->
  shape t_emb = [n; td] -> n = b \/ n = 1 ->
  shape cond = [b; s; cd] ->
  exists y skips z,
    UNet_Encoder_forward enc x t_emb (Some cond) = Ok (y, skips)
    /\ shape y = [b; 1280; h; w]
    /\ List.length skips = (3 * List.length cm)%nat
    /\ UNet_Decoder_forward dec y skips t_emb (Some cond) = Ok (z, [])
    /\ shape z = [b; 320 * nth 0 cm 0;
                  scale (List.length cm - 1) h; scale (List.length cm - 1) w].
Proof.
  intros Henc Hdec Hpos Hlast Hb Hh Hw E Et Hn Ec.
  destruct cm as [|c0 cm'] eqn:Ecm; [discriminate Hlast|]. rewrite <- Ecm in *.
  assert (HL : List.length cm = S (List.length cm')) by (rewrite Ecm; reflexivity).
  rewrite HL in *. replace (S (List.length cm') - 1)%nat with (List.length cm') in * by lia.
  set (m := List.length cm') in *.
  unfold UNet_Encoder_init in Henc. cbv zeta in Henc.
  apply bind_Ok_inv in Henc. destruct Henc as (ci & Hci & Henc).
  apply bind_Ok_inv in Henc. destruct Henc as (stages & Hst & Henc).
  injection Henc as <-. apply Conv2d_init_inv in Hci. subst ci.
  unfold UNet_Decoder_init in Hdec.
  apply bind_Ok_inv in Hdec. destruct Hdec as (ustages & Hust & Hdec).
  injection Hdec as <-.
  unfold range, len in Hst, Hust. rewrite Nat2Z.id, HL in Hst, Hust.
  unfold UNet_Encoder_forward, UNet_Decoder_forward. cbn [conv_in down up].
  pose proof (scale_pos m h Hh) as Hsh. pose proof (scale_pos m w Hw) as Hsw.
  destruct (returns_Ok _ _
              (Conv2d_same 4 320 3 1 x b (scale m h) (scale m w)
                 (or_introl (conj eq_refl eq_refl)) E Hsh Hsw))
    as (x0 & E0 & S0).
  rewrite E0. cbn [bind].
  assert (S0' : shape x0 = [b; 320 * nth 0 (1 :: cm) 0; scale m h; scale m w])
    by exact S0.
  destruct (encoder_loop_schedule td cd use_lora cm t_emb cond b n s Hb Et Hn Ec Hpos
              m 0%nat stages x0 [] h w ltac:(lia) Hst Hh Hw S0')
    as (y & new & Ey & Sy & Snew).
  cbn [app] in Ey. rewrite Ey.
  rewrite HL in Sy. replace (S m - 1)%nat with m in Sy by lia.
  assert (Hl4 : nth m cm 0 = 4).
  { rewrite <- Hlast, <- nth_pred_length_last, HL.
    replace (S m - 1)%nat with m by lia. reflexivity. }
  rewrite Hl4 in Sy.
  assert (Sy' : shape y = [b; 320 * nth (S m) (cm ++ [4]) 0; h; w]).
  { rewrite Sy, app_nth2 by lia. rewrite HL, Nat.sub_diag. reflexivity. }
  destruct (decoder_loop_schedule td cd use_lora cm t_emb cond b n s Hb Et Hn Ec Hpos
              m ustages y (x0 :: new) h w ltac:(lia) Hust Hh Hw Sy' Snew)
    as (z & Ez & Sz).
  exists y, (x0 :: new), z. split; [reflexivity|]. split; [exact Sy|].
  split; [|split; [exact Ez | exact Sz]].
  rewrite <- (length_map shape), Snew, skip_groups_length. reflexivity.
Qed.

Lemma decoder_fits_encoder_of_every_schedule_witness :
  exists y skips z,
    UNet_Encoder_forward encoder_2_4 (input "latent" [1; 4; 16; 24])
      (input "t_embed" [1; 1280]) (Some (input "cond" [1; 77; 768])) = Ok (y, skips)
    /\ shape y = [1; 1280; 8; 12]
    /\ List.length skips = (3 * List.length [2; 4])%nat
    /\ UNet_Decoder_forward decoder_2_4 y skips (input "t_embed" [1; 1280])
         (Some (input "cond" [1; 77; 768])) = Ok (z, [])
    /\ shape z = [1; 320 * nth 0 [2; 4] 0;
                  scale (List.length [2; 4] - 1) 8; scale (List.length [2; 4] - 1) 12].
Proof.
  apply (decoder_fits_encoder_of_every_schedule 1280 768 false [2; 4]
           encoder_2_4 decoder_2_4 (input "latent" [1; 4; 16; 24])
           (input "t_embed" [1; 1280]) (input "cond" [1; 77; 768]) 1 8 12 1 77);
    try reflexivity; try lia.
  repeat constructor.
Defined.
